(** * Longevity chat agent: the orchestration graph and its helpers

    A shallow embedding of the Python sources
      chat_agent/models.py, graph_state.py, utils.py, db_helper.py,
      tools.py, llm.py, graph.py and app.py
    together with the properties of the orchestration state machine.

    Conventions.  Python [str] is [string]; a [TypedDict] with
    [total=False] is a record whose fields say whether the key is
    there; code that can raise lives in the monad [M], which threads
    the process-wide effects (identifier draws, the ordered effect
    trace) and carries an exception.  Calls to [logger] are left out:
    they have no influence on any value computed here. *)

From Stdlib Require Import String Ascii List Bool Arith NArith Lia.
Import ListNotations.
Open Scope list_scope.
Open Scope string_scope.

(* ================================================================= *)
(** ** Python values and string methods *)

Module Py.

(** A dictionary slot of type [Optional[T]] in a [total=False]
    TypedDict: the key may be missing, hold [None], or hold a value. *)
Inductive Slot (A : Type) : Type :=
| Missing : Slot A
| PyNone : Slot A
| Has (a : A) : Slot A.
Arguments Missing {A}.
Arguments PyNone {A}.
Arguments Has {A} a.

(** [d.get(k)]: a missing key reads as [None]. *)
Definition get {A} (s : Slot A) : option A :=
  match s with Has a => Some a | _ => None end.

(** [d.get(k, default)]. *)
Definition get_or {A} (s : Slot A) (default : A) : option A :=
  match s with Missing => Some default | PyNone => None | Has a => Some a end.

(** [d[k] = v] for [v : Optional[T]]. *)
Definition store {A} (v : option A) : Slot A :=
  match v with Some a => Has a | None => PyNone end.

(** Truthiness of a [str] and of an [Optional[str]]. *)
Definition truthy (s : string) : bool :=
  match s with EmptyString => false | String _ _ => true end.

Definition truthy_opt (o : option string) : bool :=
  match o with Some s => truthy s | None => false end.

(** [f"{v}"] for [v : Optional[str]]. *)
Definition fmt_opt (o : option string) : string :=
  match o with Some s => s | None => "None" end.

(** Exceptions.  The class decides which [except] clause applies;
    the text is what [str(e)] gives.  [LibraryError] stands for every
    other class that a library raises ([TypeError], pydantic's
    [ValidationError], a connection error of the chat model, ...). *)
Inductive PyExc : Type :=
| KeyError (key : string)
| IndexError (detail : string)
| JSONDecodeError (detail : string)
| LibraryError (detail : string).

Definition dquote : string := String (ascii_of_nat 34) EmptyString.
Definition squote : string := String (ascii_of_nat 39) EmptyString.

Definition str_exc (e : PyExc) : string :=
  match e with
  | KeyError k => squote ++ k ++ squote
  | IndexError d => d
  | JSONDecodeError d => d
  | LibraryError d => d
  end.

Inductive Exc (A : Type) : Type :=
| Ok (a : A) : Exc A
| Raise (e : PyExc) : Exc A.
Arguments Ok {A} a.
Arguments Raise {A} e.

(** [str.isspace] on one character, for code points below 128.
    Python also counts characters beyond ASCII as white space
    (U+0085, U+00A0, U+2000 to U+200A, U+3000 and others); texts that
    hold such characters are outside this model of [strip] and of the
    regular expression's [\s]. *)
Definition isspace (c : ascii) : bool :=
  let n := nat_of_ascii c in
  (Nat.leb 9 n && Nat.leb n 13) || (Nat.leb 28 n && Nat.leb n 32).

Fixpoint lstrip (s : string) : string :=
  match s with
  | EmptyString => EmptyString
  | String c s' => if isspace c then lstrip s' else s
  end.

Fixpoint rstrip (s : string) : string :=
  match s with
  | EmptyString => EmptyString
  | String c s' =>
      match rstrip s' with
      | EmptyString => if isspace c then EmptyString else String c EmptyString
      | r => String c r
      end
  end.

(** [s.strip()]. *)
Definition strip (s : string) : string := rstrip (lstrip s).

(** [s.startswith(p)]. *)
Definition startswith (p s : string) : bool := String.prefix p s.

(** [s.split(sep)] for a non-empty [sep]: the pieces between the
    non-overlapping occurrences of [sep], scanned left to right.
    [skip] counts the characters of a matched separator still to be
    passed over; [cur] is the piece being collected. *)
Fixpoint split_go (sep : string) (skip : nat) (s cur : string) : list string :=
  match s with
  | EmptyString => [cur]
  | String c s' =>
      match skip with
      | S k => split_go sep k s' cur
      | O =>
          if String.prefix sep s
          then cur :: split_go sep (String.length sep - 1) s' EmptyString
          else split_go sep 0 s' (cur ++ String c EmptyString)
      end
  end.

Definition split (sep s : string) : list string := split_go sep 0 s EmptyString.

(** [l[i]] on a list. *)
Definition item {A} (l : list A) (i : nat) : Exc A :=
  match nth_error l i with
  | Some a => Ok a
  | None => Raise (IndexError "list index out of range")
  end.

(** [l.append(a)]. *)
Definition list_append {A} (l : list A) (a : A) : list A := (l ++ [a])%list.

(** [sep.join(l)]. *)
Definition join (sep : string) (l : list string) : string := String.concat sep l.

Definition newline : string := String (ascii_of_nat 10) EmptyString.

End Py.
Import Py.

(* ================================================================= *)
(** ** chat_agent/models.py *)

Module models.

(** [Route = Literal[...]]. *)
Inductive Route : Type :=
| aging_biomarker_tool
| longevity_clinical_trial_tool
| general_knowledge
| rejection_handler.

Definition route_str (r : Route) : string :=
  match r with
  | aging_biomarker_tool => "aging_biomarker_tool"
  | longevity_clinical_trial_tool => "longevity_clinical_trial_tool"
  | general_knowledge => "general_knowledge"
  | rejection_handler => "rejection_handler"
  end.

Definition route_of_str (s : string) : option Route :=
  if String.eqb s "aging_biomarker_tool" then Some aging_biomarker_tool
  else if String.eqb s "longevity_clinical_trial_tool" then Some longevity_clinical_trial_tool
  else if String.eqb s "general_knowledge" then Some general_knowledge
  else if String.eqb s "rejection_handler" then Some rejection_handler
  else None.

Record RouterOutput : Type := mkRouterOutput {
  decision : Route;
  reasoning : string;
  rejection_message : option string;
  error : option string
}.

Record ChatAIRequest : Type := mkChatAIRequest {
  user_query : string;
  req_user_id : string;
  req_session_id : option string;
  req_enable_streaming : option bool
}.

End models.
Import models.

(* ================================================================= *)
(** ** The libraries the program calls

    [json.loads], pydantic's validation of [RouterOutput( **data)], the
    chat model behind [ChatOpenAI.invoke] and the entropy behind
    [uuid.uuid4] are not code of this repository.  They are gathered
    in one record; every definition below that reaches one of them
    takes the record as its first argument, so a theorem stated for
    every [Env] holds whatever these libraries answer. *)

(** What [json.loads] returns.  A number keeps its lexeme; an object
    keeps its members in document order. *)
#[warnings="-register-all"]
Inductive JsonValue : Type :=
| JNull
| JBool (b : bool)
| JNumber (lexeme : string)
| JString (s : string)
| JArray (items : list JsonValue)
| JObject (members : list (string * JsonValue)).

Record Env : Type := mkEnv {
  (** [json.loads(text)]: the decoded value, or [JSONDecodeError]
      (or another exception, such as [RecursionError]). *)
  json_loads : string -> Exc JsonValue;
  (** [RouterOutput( **data)]: the validated model, or [TypeError] when
      [data] is no mapping, or pydantic's [ValidationError]. *)
  RouterOutput_validate : JsonValue -> Exc RouterOutput;
  (** [self.invoke(messages)] followed by reading [content]:
      messages are (role, content) pairs. *)
  chat_model_invoke : list (string * string) -> Exc string;
  (** [ROUTING_PROMPT.format(user_question=.., chat_history=..)]. *)
  ROUTING_PROMPT_format : string -> string -> string;
  GENERAL_KNOWLEDGE_SYSTEM_PROMPT : string;
  (** The 128-bit value of the n-th [uuid.uuid4()] of the process. *)
  uuid4_int : nat -> N
}.

(* ================================================================= *)
(** ** chat_agent/db_helper.py: the stored message *)

Module history.

(** [Literal["user", "assistant"]]. *)
Inductive Role : Type := user | assistant.

Definition role_str (r : Role) : string :=
  match r with user => "user" | assistant => "assistant" end.

(** [class ChatHistory(BaseModel)].  [created_at], a wall-clock
    timestamp, is left out. *)
Record ChatHistory : Type := mkChatHistory {
  id : string;
  user_id : string;
  session_id : string;
  role : Role;
  tool_used : option Route;
  message : string
}.

End history.

(* ================================================================= *)
(** ** chat_agent/utils.py *)

Module utils.

(** The lookahead [(?=[}\]])] after [\s*]. *)
Definition closes_after_space (s : string) : bool :=
  match lstrip s with
  | String c _ => Ascii.eqb c "}" || Ascii.eqb c "]"
  | EmptyString => false
  end.

(** [re.sub(r',\s*(?=[}\]])', '', text)]: every comma that is
    followed, after optional white space, by a closing brace or
    bracket is deleted together with that white space.  [inside]
    says that the scan is within the [\s*] of a match. *)
Fixpoint sub_trailing_commas (inside : bool) (s : string) : string :=
  match s with
  | EmptyString => EmptyString
  | String c s' =>
      if inside && isspace c then sub_trailing_commas true s'
      else if Ascii.eqb c "," && closes_after_space s' then sub_trailing_commas true s'
      else String c (sub_trailing_commas false s')
  end.

Definition sanitize (response_text : string) : string :=
  sub_trailing_commas false response_text.

Definition fence : string := "```".
Definition fence_json : string := "```json".

(** The text between the opening fence and the next fence. *)
Definition unfence (response_text : string) : Exc string :=
  if startswith fence_json response_text then
    match item (split fence_json response_text) 1 with
    | Ok inner =>
        match item (split fence inner) 0 with
        | Ok body => Ok (strip body)
        | Raise e => Raise e
        end
    | Raise e => Raise e
    end
  else if startswith fence response_text then
    match item (split fence response_text) 1 with
    | Ok inner =>
        match item (split fence inner) 0 with
        | Ok body => Ok (strip body)
        | Raise e => Raise e
        end
    | Raise e => Raise e
    end
  else Ok response_text.

(** The value returned from the [except Exception] clause. *)
Definition parse_failure (e : PyExc) : RouterOutput :=
  {| decision := rejection_handler;
     reasoning := "error parsing routing decision";
     rejection_message := None;
     error := Some ("parse_routing_decision Error: " ++ str_exc e) |}.

Section WithEnv.
Variable E : Env.

(** [json.loads], and on [JSONDecodeError] a second [json.loads]
    on the sanitized text. *)
Definition loads_with_repair (response_text : string) : Exc JsonValue :=
  match json_loads E response_text with
  | Raise (JSONDecodeError _) => json_loads E (sanitize response_text)
  | r => r
  end.

(** The body of the outer [try]. *)
Definition parse_routing_decision_body (llm_response : string) : Exc RouterOutput :=
  let response_text := strip llm_response in
  match unfence response_text with
  | Raise e => Raise e
  | Ok response_text =>
      match loads_with_repair response_text with
      | Raise e => Raise e
      | Ok data => RouterOutput_validate E data
      end
  end.

Definition parse_routing_decision (llm_response : string) : RouterOutput :=
  match parse_routing_decision_body llm_response with
  | Ok routing_output => routing_output
  | Raise e => parse_failure e
  end.

End WithEnv.

(** One turn of the [for] loop: [lines] after [entry]. *)
Definition compact_step (lines : list string) (entry : history.ChatHistory) : list string :=
  let role := history.role_str (history.role entry) in
  let message := history.message entry in
  if (String.eqb role "user" || String.eqb role "assistant") && truthy message then
    let tool_used := option_map route_str (history.tool_used entry) in
    if truthy_opt tool_used
    then list_append lines (role ++ " (tool_used: " ++ fmt_opt tool_used ++ "): " ++ message)
    else list_append lines (role ++ ": " ++ message)
  else lines.

Definition create_compact_chat_history (db_chat_history : list history.ChatHistory) : string :=
  join newline (fold_left compact_step db_chat_history []).

End utils.

(* ================================================================= *)
(** ** Effects of one process

    The nodes of the graph (LangGraph node names). *)

Module name.
Inductive t : Type :=
| get_chat_history
| classify_and_route
| longevity_clinical_trial_node
| aging_biomarker_node
| general_knowledge_node
| rejection_handler
| save_chat_history
| stream_final_response.


End name.

(** The dictionary [{"answer": .., "session_id": .., "error": ..}]
    that closes a turn, in the last streamed chunk and in the blocking
    reply alike.  [None] is Python's [None]. *)
Record Payload : Type := mkPayload {
  answer : option string;
  payload_session_id : option string;
  payload_error : list string
}.

(** The value under ["Response"] of a streamed chunk. *)
Inductive ChunkResponse : Type :=
| EmptyResponse
| FinalResponse (p : Payload).

(** A dictionary handed to the stream writer. *)
Record Chunk : Type := mkChunk {
  CurrentStep : string;
  Response : ChunkResponse
}.

(** What the process does that can be seen from outside a node, in
    the order in which it happens. *)
Inductive Effect : Type :=
| Emitted (chunk : Chunk)
    (** the stream writer delivered a chunk *)
| ModelInvoked (messages : list (string * string))
    (** a request went to the chat model *)
| ToolStarted (tool : string) (user_input user_id : option string)
    (** a research tool began its lookup *)
| SessionAllocated (session_id : string)
    (** [persist_chat_history] created a session identifier *)
| MessageSaved (m : history.ChatHistory).
    (** [persist_chat_history] built the message to insert *)

Record World : Type := mkWorld {
  draws : nat;              (** [uuid4()] calls so far *)
  trace : list Effect;      (** effects so far, oldest first *)
  custom_stream : bool      (** the run has [stream_mode="custom"] *)
}.

(** Computations: a result or an exception, and the world after. *)
Definition M (A : Type) : Type := World -> Exc A * World.

Definition ret {A} (a : A) : M A := fun w => (Ok a, w).

Definition bind {A B} (m : M A) (f : A -> M B) : M B :=
  fun w => match m w with
           | (Ok a, w') => f a w'
           | (Raise e, w') => (Raise e, w')
           end.

Definition raise {A} (e : PyExc) : M A := fun w => (Raise e, w).

Definition lift {A} (r : Exc A) : M A := fun w => (r, w).

(** [try: m  except Exception as e: handler e]. *)
Definition try_except {A} (m : M A) (handler : PyExc -> M A) : M A :=
  fun w => match m w with
           | (Ok a, w') => (Ok a, w')
           | (Raise e, w') => handler e w'
           end.

Definition effect (e : Effect) : M unit :=
  fun w => (Ok tt, mkWorld (draws w) (trace w ++ [e])%list (custom_stream w)).

Declare Scope monad_scope.
Delimit Scope monad_scope with monad.
Notation "x <- m ;; k" := (bind m (fun x => k))
  (at level 61, m at next level, right associativity) : monad_scope.
Notation "m ;; k" := (bind m (fun _ => k))
  (at level 61, right associativity) : monad_scope.
Open Scope monad_scope.

(** [writer = get_stream_writer(); writer(chunk)]: the chunk reaches
    the caller in custom stream mode and is dropped otherwise. *)
Definition writer (chunk : Chunk) : M unit :=
  fun w => if custom_stream w then effect (Emitted chunk) w else (Ok tt, w).

(** The chunks among some effects, in order. *)
Fixpoint emitted (effects : list Effect) : list Chunk :=
  match effects with
  | [] => []
  | Emitted c :: rest => c :: emitted rest
  | _ :: rest => emitted rest
  end.

(** *** [str(uuid.uuid4())] *)

Definition hex_digit (n : N) : ascii :=
  match String.get (N.to_nat n) "0123456789abcdef" with
  | Some c => c
  | None => "0"%char
  end.

(** ['%0<digits>x' % v], most significant digit first. *)
Fixpoint hex_fixed (digits : nat) (v : N) : string :=
  match digits with
  | O => EmptyString
  | S k => hex_fixed k (v / 16) ++ String (hex_digit (v mod 16)) EmptyString
  end.

(** [UUID.__str__]. *)
Definition uuid_str (v : N) : string :=
  let hex := hex_fixed 32 v in
  substring 0 8 hex ++ "-" ++ substring 8 4 hex ++ "-" ++ substring 12 4 hex
    ++ "-" ++ substring 16 4 hex ++ "-" ++ substring 20 12 hex.

Definition uuid4 (E : Env) : M string :=
  fun w => (Ok (uuid_str (uuid4_int E (draws w))),
            mkWorld (S (draws w)) (trace w) (custom_stream w)).

(* ================================================================= *)
(** ** chat_agent/db_helper.py *)

Module db_helper.
Import history.

(** [persist_chat_history]: builds the message, creating a session
    identifier when none is given, and returns the identifier used.
    The insertion itself is still to be written in the source; the
    built message is recorded as [MessageSaved]. *)
Definition persist_chat_history (E : Env) (user_id data : string) (role : Role)
    (session_id : option string) (tool_name : option Route) : M string :=
  try_except
    (message_id <- uuid4 E ;;
     session_id <-
       (let create := (fresh <- uuid4 E ;; effect (SessionAllocated fresh) ;; ret fresh) in
        match session_id with
        | Some given => if negb (truthy given) then create else ret given
        | None => create
        end) ;;
     let message :=
       {| id := message_id;
          history.user_id := user_id;
          history.session_id := session_id;
          history.role := role;
          tool_used := match role with assistant => tool_name | user => None end;
          message := data |} in
     effect (MessageSaved message) ;;
     ret session_id)
    (fun e => raise e).

(** The dictionary returned by [fetch_chat_history], read with
    [.get]. *)
Record FetchResult : Type := mkFetchResult {
  status : option string;
  chat_history : option (list ChatHistory);
  count : option nat;
  fetch_message : option string
}.

(** [fetch_chat_history(user_id, session_id)]; [limit] plays no part
    in the body.  The query is still to be written in the source:
    the retrieved list is empty. *)
Definition fetch_chat_history (user_id : string) (session_id : option string) : FetchResult :=
  if negb (truthy_opt session_id)
  then {| status := Some "success"; chat_history := Some []; count := Some 0;
          fetch_message := None |}
  else
    let chat_messages : list ChatHistory := [] in
    {| status := Some "success"; chat_history := Some chat_messages;
       count := Some (List.length chat_messages); fetch_message := None |}.

End db_helper.

(* ================================================================= *)
(** ** chat_agent/tools.py *)

Module tools.

(** The dictionary a tool returns, read with [.get]. *)
Record ToolResult : Type := mkToolResult {
  status : option string;
  response : option string;
  error : option string
}.

(** Both tools are placeholders: they wait and answer a fixed text.
    [time.sleep] is not modelled. *)
Definition longevity_clinical_trial_tool (user_input user_id : option string) : M ToolResult :=
  try_except
    (effect (ToolStarted "longevity_clinical_trial_tool" user_input user_id) ;;
     ret {| status := Some "ok";
            response := Some "Detailed response from longevity_clinical_trial_tool";
            error := None |})
    (fun e => ret {| status := Some "error"; response := None;
                     error := Some (str_exc e) |}).

Definition aging_biomarker_tool (user_input user_id : option string) : M ToolResult :=
  try_except
    (effect (ToolStarted "aging_biomarker_tool" user_input user_id) ;;
     ret {| status := Some "ok";
            response := Some "Detailed response from aging_biomarker_tool";
            error := None |})
    (fun e => ret {| status := Some "error"; response := None;
                     error := Some (str_exc e) |}).

End tools.

(* ================================================================= *)
(** ** chat_agent/llm.py *)

Module llm.

Definition ROUTING_SYSTEM_PROMPT : string :=
  "You are a routing system for a longevity research chat agent.".

Section WithEnv.
Variable E : Env.

(** [self.invoke(messages)] and the read of its [content]. *)
Definition invoke (messages : list (string * string)) : M string :=
  effect (ModelInvoked messages) ;; lift (chat_model_invoke E messages).

Definition decide_route (user_input chat_history : string) : M RouterOutput :=
  let routing_prompt_text := ROUTING_PROMPT_format E user_input chat_history in
  let messages :=
    [("system", ROUTING_SYSTEM_PROMPT); ("user", routing_prompt_text)] in
  resp <- invoke messages ;;
  let content := strip resp in
  let parsed := utils.parse_routing_decision E content in
  ret parsed.

Definition answer_general (user_input : string) : M string :=
  let messages :=
    [("system", GENERAL_KNOWLEDGE_SYSTEM_PROMPT E); ("user", user_input)] in
  resp <- invoke messages ;;
  ret (strip resp).

End WithEnv.

End llm.

(* ================================================================= *)
(** ** chat_agent/graph_state.py *)

Module graph_state.

(** [class ChatAgentState(TypedDict, total=False)].  A field that
    the program may bind to [None] is a [Slot]; a field that it only
    ever binds to a value is an [option], [None] standing for the
    missing key. *)
Record ChatAgentState : Type := mkState {
  user_id : option string;
  user_input : option string;
  session_id : Slot string;
  route : option Route;
  rejection_message : Slot string;
  final_answer : Slot string;
  error : option (list string);
  chat_history : option string;
  enable_streaming : option bool
}.

Definition set_session_id (s : ChatAgentState) (v : Slot string) : ChatAgentState :=
  mkState (user_id s) (user_input s) v (route s) (rejection_message s)
          (final_answer s) (error s) (chat_history s) (enable_streaming s).

Definition set_route (s : ChatAgentState) (v : option Route) : ChatAgentState :=
  mkState (user_id s) (user_input s) (session_id s) v (rejection_message s)
          (final_answer s) (error s) (chat_history s) (enable_streaming s).

Definition set_rejection_message (s : ChatAgentState) (v : Slot string) : ChatAgentState :=
  mkState (user_id s) (user_input s) (session_id s) (route s) v
          (final_answer s) (error s) (chat_history s) (enable_streaming s).

Definition set_final_answer (s : ChatAgentState) (v : Slot string) : ChatAgentState :=
  mkState (user_id s) (user_input s) (session_id s) (route s) (rejection_message s)
          v (error s) (chat_history s) (enable_streaming s).

Definition set_error (s : ChatAgentState) (v : option (list string)) : ChatAgentState :=
  mkState (user_id s) (user_input s) (session_id s) (route s) (rejection_message s)
          (final_answer s) v (chat_history s) (enable_streaming s).

Definition set_chat_history (s : ChatAgentState) (v : option string) : ChatAgentState :=
  mkState (user_id s) (user_input s) (session_id s) (route s) (rejection_message s)
          (final_answer s) (error s) v (enable_streaming s).

(** [state.get("error", [])]. *)
Definition errors (s : ChatAgentState) : list string :=
  match error s with Some l => l | None => [] end.

(** [if state.get("error")]. *)
Definition has_error (s : ChatAgentState) : bool :=
  match errors s with [] => false | _ :: _ => true end.

(** [state.setdefault("error", []).append(msg)]. *)
Definition append_error (s : ChatAgentState) (msg : string) : ChatAgentState :=
  set_error s (Some (list_append (errors s) msg)).

(** [state[key]] for a key that may be missing. *)
Definition getitem {A} (key : string) (v : option A) : M A :=
  match v with
  | Some a => ret a
  | None => raise (KeyError key)
  end.

End graph_state.
Import graph_state.

(* ================================================================= *)
(** ** chat_agent/graph.py: the nodes

    Every node is written as in the source: the early return on a
    prior error, then a [try] whose body is the definition ending in
    [_work], then the [except Exception] clause.  The source changes
    the dictionary in place and returns it; no node changes it before
    a point where it can raise, so the [except] clause works on the
    state that the node was given. *)

Module graph.

Definition rejection_fallback : string :=
  "Sorry, I can't help with that request. " ++
  "Ask me about biomarkers, clinical trials, or longevity research.".

Definition or_empty (v : option string) : string :=
  match v with Some s => s | None => "" end.

Definition is_error_status (status : option string) : bool :=
  match status with Some s => String.eqb s "error" | None => false end.

Definition is_success_status (status : option string) : bool :=
  match status with Some s => String.eqb s "success" | None => false end.

Section WithEnv.
Variable E : Env.

(** *** classify_and_route *)

Definition classify_and_route_work (state : ChatAgentState) : M ChatAgentState :=
  user_input <- getitem "user_input" (user_input state) ;;
  chat_history <- getitem "chat_history" (chat_history state) ;;
  routing_output <- llm.decide_route E user_input chat_history ;;
  if truthy_opt (models.error routing_output) then
    ret (append_error state
           ("Node classify_and_route: " ++ fmt_opt (models.error routing_output)))
  else
    let state := set_route state (Some (decision routing_output)) in
    let state :=
      set_rejection_message state (store (models.rejection_message routing_output)) in
    ret state.

Definition classify_and_route (state : ChatAgentState) : M ChatAgentState :=
  if has_error state then ret state
  else
    try_except (classify_and_route_work state)
      (fun e => ret (append_error state ("Node classify_and_route: " ++ str_exc e))).

(** *** longevity_clinical_trial_node *)

Definition longevity_clinical_trial_node_work (state : ChatAgentState)
    : M ChatAgentState :=
  writer {| CurrentStep := "Researching information using longevity_clinical_trial_tool";
            Response := EmptyResponse |} ;;
  let user_id := user_id state in
  let user_input := user_input state in
  res <- tools.longevity_clinical_trial_tool user_input user_id ;;
  if is_error_status (tools.status res) then
    ret (append_error state
           ("Node longevity_clinical_trial_node: " ++ fmt_opt (tools.error res)))
  else
    ret (set_final_answer state (store (tools.response res))).

Definition longevity_clinical_trial_node (state : ChatAgentState) : M ChatAgentState :=
  if has_error state then ret state
  else
    try_except (longevity_clinical_trial_node_work state)
      (fun e => ret (append_error state
                       ("Node longevity_clinical_trial_node: " ++ str_exc e))).

(** *** aging_biomarker_node *)

Definition aging_biomarker_node_work (state : ChatAgentState) : M ChatAgentState :=
  let user_id := user_id state in
  let user_input := user_input state in
  writer {| CurrentStep := "Researching information using aging_biomarker_tool";
            Response := EmptyResponse |} ;;
  res <- tools.aging_biomarker_tool user_input user_id ;;
  if is_error_status (tools.status res) then
    ret (append_error state ("Node aging_biomarker_node: " ++ fmt_opt (tools.error res)))
  else
    ret (set_final_answer state (store (tools.response res))).

Definition aging_biomarker_node (state : ChatAgentState) : M ChatAgentState :=
  if has_error state then ret state
  else
    try_except (aging_biomarker_node_work state)
      (fun e => ret (append_error state ("Node aging_biomarker_node: " ++ str_exc e))).

(** *** general_knowledge_node *)

Definition general_knowledge_node_work (state : ChatAgentState) : M ChatAgentState :=
  user_input <- getitem "user_input" (user_input state) ;;
  text <- llm.answer_general E user_input ;;
  ret (set_final_answer state (Has text)).

Definition general_knowledge_node (state : ChatAgentState) : M ChatAgentState :=
  if has_error state then ret state
  else
    try_except (general_knowledge_node_work state)
      (fun e => ret (append_error state ("Node general_knowledge_node: " ++ str_exc e))).

(** *** rejection_handler *)

Definition rejection_handler_work (state : ChatAgentState) : M ChatAgentState :=
  if truthy_opt (get (rejection_message state)) then
    text <- getitem "rejection_message" (get (rejection_message state)) ;;
    ret (set_final_answer state (Has text))
  else
    ret (set_final_answer state (Has rejection_fallback)).

Definition rejection_handler (state : ChatAgentState) : M ChatAgentState :=
  if has_error state then ret state
  else
    try_except (rejection_handler_work state)
      (fun e => ret (append_error state ("Node rejection_handler: " ++ str_exc e))).

(** *** get_chat_history *)

Definition get_chat_history_work (state : ChatAgentState) : M ChatAgentState :=
  let user_id := or_empty (user_id state) in
  let session_id := get_or (session_id state) "" in
  if negb (truthy user_id) then
    let msg := "Node get_chat_history: user_id missing" in
    ret (append_error state msg)
  else
    let result := db_helper.fetch_chat_history user_id session_id in
    if is_success_status (db_helper.status result) then
      let chat_history_raw :=
        match db_helper.chat_history result with Some l => l | None => [] end in
      match chat_history_raw with
      | _ :: _ =>
          let chat_history_compact := utils.create_compact_chat_history chat_history_raw in
          ret (set_chat_history state (Some chat_history_compact))
      | [] => ret (set_chat_history state (Some ""))
      end
    else
      let msg :=
        match db_helper.fetch_message result with
        | Some m => m
        | None => "unknown error"
        end in
      ret (append_error state ("Node get_chat_history: " ++ msg)).

Definition get_chat_history (state : ChatAgentState) : M ChatAgentState :=
  if has_error state then ret state
  else
    try_except (get_chat_history_work state)
      (fun e => ret (append_error state ("Node get_chat_history: " ++ str_exc e))).

(** *** save_chat_history *)

(** The first inner [try]: the user message. *)
Definition save_user_message (user_id user_msg : string) (session_id : option string)
    : M (option string) :=
  try_except
    (if truthy user_id && truthy user_msg then
       saved <- db_helper.persist_chat_history E user_id user_msg history.user
                  session_id None ;;
       ret (Some saved)
     else ret session_id)
    (fun e => ret session_id).

(** The second inner [try]: the assistant message. *)
Definition save_assistant_message (user_id : string) (assistant_msg : option string)
    (route_used : option Route) (session_id : option string) : M (option string) :=
  try_except
    (if truthy user_id && truthy_opt assistant_msg then
       saved <- db_helper.persist_chat_history E user_id (or_empty assistant_msg)
                  history.assistant session_id route_used ;;
       ret (Some saved)
     else ret session_id)
    (fun e => ret session_id).

Definition save_chat_history_work (state : ChatAgentState) : M ChatAgentState :=
  let user_id := or_empty (user_id state) in
  let user_msg := or_empty (user_input state) in
  let assistant_msg := get_or (final_answer state) "" in
  let route_used := route state in
  let session_id := get (session_id state) in
  if negb (truthy user_id) then
    let msg := "Node save_chat_history: user_id is missing" in
    ret (append_error state msg)
  else
    session_id <- save_user_message user_id user_msg session_id ;;
    session_id <- save_assistant_message user_id assistant_msg route_used session_id ;;
    ret (set_session_id state (store session_id)).

Definition save_chat_history (state : ChatAgentState) : M ChatAgentState :=
  if has_error state then ret state
  else
    try_except (save_chat_history_work state)
      (fun e => ret (append_error state ("Node save_chat_history: " ++ str_exc e))).

(** *** stream_final_response *)

Definition final_payload (state : ChatAgentState) : Payload :=
  {| answer := get_or (final_answer state) "";
     payload_session_id := get_or (session_id state) "";
     payload_error := errors state |}.

Definition stream_final_response_work (state : ChatAgentState) : M ChatAgentState :=
  writer {| CurrentStep := "Done"; Response := FinalResponse (final_payload state) |} ;;
  ret state.

Definition stream_final_response (state : ChatAgentState) : M ChatAgentState :=
  try_except (stream_final_response_work state)
    (fun e => ret (append_error state ("Node stream_final_response: " ++ str_exc e))).

End WithEnv.

(* ----------------------------------------------------------------- *)
(** *** The graph and its runtime

    What [StateGraph] needs of LangGraph for this graph: a table of
    nodes, and for each node the edge that leaves it, which reads the
    state the node returned.  [None] is [END]. *)

Record StateGraph : Type := mkGraph {
  entry_point : name.t;
  nodes : name.t -> ChatAgentState -> M ChatAgentState;
  edges : name.t -> ChatAgentState -> option name.t
}.

(** [lambda s: s.get("route", "general_knowledge")]. *)
Definition route_key (s : ChatAgentState) : Route :=
  match route s with Some r => r | None => general_knowledge end.

(** The path map of the first conditional edge. *)
Definition route_map (key : Route) : name.t :=
  match key with
  | longevity_clinical_trial_tool => name.longevity_clinical_trial_node
  | aging_biomarker_tool => name.aging_biomarker_node
  | general_knowledge => name.general_knowledge_node
  | models.rejection_handler => name.rejection_handler
  end.

(** [lambda s: s.get("enable_streaming", False)]. *)
Definition streaming_key (s : ChatAgentState) : bool :=
  match enable_streaming s with Some b => b | None => false end.

(** The path map of the second conditional edge. *)
Definition streaming_map (key : bool) : option name.t :=
  if key then Some name.stream_final_response else None.

Definition build_graph (E : Env) : StateGraph :=
  {| entry_point := name.get_chat_history;
     nodes := fun n =>
       match n with
       | name.get_chat_history => get_chat_history
       | name.classify_and_route => classify_and_route E
       | name.longevity_clinical_trial_node => longevity_clinical_trial_node
       | name.aging_biomarker_node => aging_biomarker_node
       | name.general_knowledge_node => general_knowledge_node E
       | name.rejection_handler => rejection_handler
       | name.save_chat_history => save_chat_history E
       | name.stream_final_response => stream_final_response
       end;
     edges := fun n s =>
       match n with
       | name.get_chat_history => Some name.classify_and_route
       | name.classify_and_route => Some (route_map (route_key s))
       | name.general_knowledge_node => Some name.save_chat_history
       | name.longevity_clinical_trial_node => Some name.save_chat_history
       | name.aging_biomarker_node => Some name.save_chat_history
       | name.rejection_handler => Some name.save_chat_history
       | name.save_chat_history => streaming_map (streaming_key s)
       | name.stream_final_response => None
       end |}.

(** LangGraph's default [recursion_limit]. *)
Definition recursion_limit : nat := 25.

(** What a finished node reports: its name and the state it returned. *)
Definition Update : Type := (name.t * ChatAgentState)%type.

(** One node after the other, from [n] on: the runtime hands the
    node the state, and follows the edge that leaves it.  The result
    lists the nodes that ran, each with the state it returned.  An
    exception that leaves a node ends the run. *)
Fixpoint run_from (g : StateGraph) (steps : nat) (n : name.t) (state : ChatAgentState)
    : M (list Update) :=
  match steps with
  | O => raise (LibraryError "Recursion limit reached")
  | S steps' =>
      state <- nodes g n state ;;
      match edges g n state with
      | Some next =>
          rest <- run_from g steps' next state ;;
          ret ((n, state) :: rest)
      | None => ret [(n, state)]
      end
  end.

Definition set_stream_mode (custom : bool) : M unit :=
  fun w => (Ok tt, mkWorld (draws w) (trace w) custom).

(** A run of the compiled graph from its entry point. *)
Definition run (g : StateGraph) (custom : bool) (state : ChatAgentState)
    : M (list Update) :=
  set_stream_mode custom ;;
  run_from g recursion_limit (entry_point g) state.

(** The state after the last update. *)
Definition last_state (updates : list Update) (state : ChatAgentState) : ChatAgentState :=
  List.last (map snd updates) state.

(** [graph.invoke(state)]: the final state; nothing is streamed. *)
Definition invoke (g : StateGraph) (state : ChatAgentState) : M ChatAgentState :=
  updates <- run g false state ;;
  ret (last_state updates state).

(** [graph.stream(state, stream_mode="custom")], consumed to its
    end: the chunks the writer was given during the run, in order. *)
Definition stream (g : StateGraph) (state : ChatAgentState) : M (list Chunk) :=
  fun w =>
    match run g true state w with
    | (Ok _, w') => (Ok (emitted (skipn (List.length (trace w)) (trace w'))), w')
    | (Raise e, w') => (Raise e, w')
    end.

(** One server-sent event, [data: <json.dumps(chunk)>] and a blank
    line. *)
Inductive Frame : Type := Data (chunk : Chunk).

Inductive RunResult : Type :=
| EventStream (frames : list Frame)
| Reply (payload : Payload).

Definition initial_state (user_input user_id : string) (session_id : option string)
    (enable_streaming : bool) : ChatAgentState :=
  {| user_input := Some user_input;
     user_id := Some user_id;
     session_id := store session_id;
     enable_streaming := Some enable_streaming;
     route := None;
     rejection_message := Missing;
     final_answer := Missing;
     error := None;
     chat_history := None |}.

Definition run_chat_agent (E : Env) (user_input user_id : string)
    (session_id : option string) (enable_streaming : bool) : M RunResult :=
  let state := initial_state user_input user_id session_id enable_streaming in
  let graph := build_graph E in
  if enable_streaming then
    chunks <- stream graph state ;;
    ret (EventStream (map Data chunks))
  else
    out <- invoke graph state ;;
    ret (Reply {| answer := get_or (final_answer out) "";
                  payload_session_id := get_or (graph_state.session_id out) "";
                  payload_error := errors out |}).

End graph.

(* ================================================================= *)
(** ** app.py *)

Module app.

(** What the handler can raise: its own [HTTPException] with the
    status code and the [code] and [message] of its detail, or an
    exception that came out of the agent. *)
Inductive HandlerExc : Type :=
| HTTPException (status_code : nat) (code message : string)
| FromAgent (e : PyExc).

(** The [content] of a [JSONResponse]. *)
Inductive Content : Type :=
| ErrorList (errors : list string)      (** [{"error": response.get("error")}] *)
| Full (payload : Payload)              (** the agent's reply as it is *)
| ErrorText (e : HandlerExc).           (** [{"error": str(e)}] *)

Inductive HttpResponse : Type :=
| JSONResponse (status_code : nat) (content : Content)
| StreamingResponse (status_code : nat) (media_type : string)
    (body : list graph.Frame).

Definition blank (s : string) : bool :=
  negb (truthy s) || String.eqb (strip s) "".

(** The body of the handler's [try]. *)
Definition chat_with_ai_agent_work (E : Env) (request : ChatAIRequest)
    : World -> (HttpResponse + HandlerExc) * World :=
  fun w =>
    if blank (user_query request) then
      (inr (HTTPException 400 "USER_QUERY_NOT_PROVIDED"
              "Please provide a valid user query."), w)
    else if blank (req_user_id request) then
      (inr (HTTPException 400 "USER_ID_NOT_PROVIDED"
              "Please provide a valid user id."), w)
    else
      match req_enable_streaming request with
      | Some true =>
          match graph.run_chat_agent E (user_query request) (req_user_id request)
                  (req_session_id request) true w with
          | (Ok (graph.EventStream frames), w') =>
              (inl (StreamingResponse 200 "text/event-stream" frames), w')
          | (Ok (graph.Reply _), w') =>
              (* not reached: in streaming mode the agent returns a stream *)
              (inl (StreamingResponse 200 "text/event-stream" []), w')
          | (Raise e, w') =>
              (* the events delivered before the stream broke *)
              (inl (StreamingResponse 200 "text/event-stream"
                      (map graph.Data (emitted (skipn (List.length (trace w)) (trace w'))))),
               w')
          end
      | _ =>
          match graph.run_chat_agent E (user_query request) (req_user_id request)
                  (req_session_id request) false w with
          | (Ok (graph.Reply response), w') =>
              match payload_error response with
              | _ :: _ => (inl (JSONResponse 400 (ErrorList (payload_error response))), w')
              | [] => (inl (JSONResponse 200 (Full response)), w')
              end
          | (Ok (graph.EventStream _), w') =>
              (* not reached: in blocking mode the agent returns a reply;
                 [response.get] on a generator would raise *)
              (inr (FromAgent (LibraryError "AttributeError")), w')
          | (Raise e, w') => (inr (FromAgent e), w')
          end
      end.

Definition chat_with_ai_agent (E : Env) (request : ChatAIRequest)
    : World -> HttpResponse * World :=
  fun w =>
    match chat_with_ai_agent_work E request w with
    | (inl response, w') => (response, w')
    | (inr e, w') => (JSONResponse 500 (ErrorText e), w')
    end.

End app.

(* ================================================================= *)
(** ** Vocabulary of the properties *)

(** The effects that a computation added to the trace of [before]. *)
Definition new_effects (before after : World) : list Effect :=
  skipn (List.length (trace before)) (trace after).

(** The messages built by [persist_chat_history] among some effects. *)
Fixpoint saved (effects : list Effect) : list history.ChatHistory :=
  match effects with
  | [] => []
  | MessageSaved m :: rest => m :: saved rest
  | _ :: rest => saved rest
  end.

(** The session identifiers created among some effects. *)
Fixpoint allocated (effects : list Effect) : list string :=
  match effects with
  | [] => []
  | SessionAllocated sid :: rest => sid :: allocated rest
  | _ :: rest => allocated rest
  end.

Definition slot_eqb (a b : Slot string) : bool :=
  match a, b with
  | Missing, Missing => true
  | PyNone, PyNone => true
  | Has x, Has y => String.eqb x y
  | _, _ => false
  end.

(** The four nodes that answer. *)
Definition answer_nodes : list name.t :=
  [name.aging_biomarker_node; name.longevity_clinical_trial_node;
   name.general_knowledge_node; name.rejection_handler].

(** The updates of a run that changed [final_answer]: each update is
    compared with the state the node was given, which is the state of
    the update before it, or [state] for the first. *)
Fixpoint answer_writers (state : ChatAgentState) (updates : list graph.Update)
    : list name.t :=
  match updates with
  | [] => []
  | (n, state') :: rest =>
      if slot_eqb (final_answer state) (final_answer state')
      then answer_writers state' rest
      else n :: answer_writers state' rest
  end.



(** The node that ends a run, by the second conditional edge. *)
Definition exit_node (state : ChatAgentState) : name.t :=
  if graph.streaming_key state then name.stream_final_response
  else name.save_chat_history.

Fixpoint backtick_free (s : string) : bool :=
  match s with
  | EmptyString => true
  | String c s' => negb (Ascii.eqb c "`") && backtick_free s'
  end.

(** The exception that defeats the parse of [body]: raised by the
    first [json.loads] and not a [JSONDecodeError], or raised by the
    second [json.loads], or raised by the validation. *)
Definition parse_defeated_by (E : Env) (body : string) (e : PyExc) : Prop :=
  (json_loads E body = Raise e /\ forall detail, e <> JSONDecodeError detail)
  \/ (exists detail, json_loads E body = Raise (JSONDecodeError detail)
                     /\ json_loads E (utils.sanitize body) = Raise e)
  \/ (exists data, utils.loads_with_repair E body = Ok data
                   /\ RouterOutput_validate E data = Raise e).

(** The progress event of a tool node and the start of its tool. *)
Definition tool_effects (w : World) (tool : string) (s : ChatAgentState) : list Effect :=
  ((if custom_stream w
    then [Emitted (mkChunk ("Researching information using " ++ tool) EmptyResponse)]
    else []) ++ [ToolStarted tool (user_input s) (user_id s)])%list.

(** The messages that [answer_general] and [decide_route] send. *)
Definition general_messages (E : Env) (question : string) : list (string * string) :=
  [("system", GENERAL_KNOWLEDGE_SYSTEM_PROMPT E); ("user", question)].

Definition routing_messages (E : Env) (question history : string) : list (string * string) :=
  [("system", llm.ROUTING_SYSTEM_PROMPT);
   ("user", ROUTING_PROMPT_format E question history)].

(** *** The History Compactor in the words of its specification *)

Module compact_spec.
Import history.

(** [role: message], or [role (tool_used: X): message]. *)
Definition line (entry : ChatHistory) : string :=
  match tool_used entry with
  | Some X =>
      role_str (role entry) ++ " (tool_used: " ++ route_str X ++ "): " ++ message entry
  | None => role_str (role entry) ++ ": " ++ message entry
  end.

(** An entry is kept unless its role or its message is empty. *)
Definition retained (entry : ChatHistory) : bool :=
  negb (String.eqb (role_str (role entry)) "") && negb (String.eqb (message entry) "").

Definition compact (entries : list ChatHistory) : string :=
  join newline (map line (filter retained entries)).

End compact_spec.

(** *** What SaveHistory has to persist, in order *)

Definition due_user_message (state : ChatAgentState) : list (history.Role * string * option Route) :=
  if truthy (graph.or_empty (user_input state))
  then [(history.user, graph.or_empty (user_input state), None)]
  else [].

Definition due_assistant_message (state : ChatAgentState)
    : list (history.Role * string * option Route) :=
  if truthy_opt (get_or (final_answer state) "")
  then [(history.assistant, graph.or_empty (get_or (final_answer state) ""), route state)]
  else [].

Definition saved_summary (m : history.ChatHistory) : history.Role * string * option Route :=
  (history.role m, history.message m, history.tool_used m).

(* ================================================================= *)
(** ** Environments and states for the examples

    Each environment fixes what the libraries answer in one scenario:
    the reply of the chat model, and [json.loads] on the documents of
    that scenario, given as a table from text to decoded value. *)

Module scenario.

(** [json.loads] read off a table of the documents of a scenario,
    each with the value or the [JSONDecodeError] that [json.loads]
    gives for it.  A text outside the table is taken to start with no
    JSON value, as ordinary prose does. *)
Definition table_loads (table : list (string * Exc JsonValue)) (text : string)
    : Exc JsonValue :=
  match find (fun entry => String.eqb (fst entry) text) table with
  | Some entry => snd entry
  | None => Raise (JSONDecodeError "Expecting value: line 1 column 1 (char 0)")
  end.

Definition member (key : string) (members : list (string * JsonValue)) : option JsonValue :=
  option_map snd (find (fun entry => String.eqb (fst entry) key) members).

(** An [Optional[str]] field: absent or [null] is [None]. *)
Definition optional_str (v : option JsonValue) : option (option string) :=
  match v with
  | None => Some None
  | Some JNull => Some None
  | Some (JString s) => Some (Some s)
  | Some _ => None
  end.

(** Validation of [RouterOutput] on objects whose members are
    strings or [null]: [decision] must be one of the four routes,
    [reasoning] is required, the other two fields are optional. *)
Definition validate (data : JsonValue) : Exc RouterOutput :=
  match data with
  | JObject members =>
      match member "decision" members, member "reasoning" members,
            optional_str (member "rejection_message" members),
            optional_str (member "error" members) with
      | Some (JString d), Some (JString r), Some rejection, Some err =>
          match route_of_str d with
          | Some decision => Ok (mkRouterOutput decision r rejection err)
          | None => Raise (LibraryError "1 validation error for RouterOutput")
          end
      | _, _, _, _ => Raise (LibraryError "1 validation error for RouterOutput")
      end
  | _ => Raise (LibraryError "RouterOutput() argument after ** must be a mapping")
  end.

Definition env (reply : Exc string) (table : list (string * Exc JsonValue)) : Env :=
  {| json_loads := table_loads table;
     RouterOutput_validate := validate;
     chat_model_invoke := fun _ => reply;
     ROUTING_PROMPT_format := fun question history =>
       "USER QUESTION: " ++ question ++ " Chat history: " ++ history;
     GENERAL_KNOWLEDGE_SYSTEM_PROMPT := "You are an expert medical researcher assistant.";
     uuid4_int := fun n => N.of_nat (n + 1) |}.

(** The chat model cannot be reached. *)
Definition model_down : Env := env (Raise (LibraryError "Connection error.")) [].

(** The chat model answers with plain text. *)
Definition model_chats : Env := env (Ok "Telomeres shorten with age.") [].

Definition quoted (s : string) : string := dquote ++ s ++ dquote.

(** The reply
    {"decision": "general_knowledge", "reasoning": "greeting",
     "rejection_message": "Please ask about longevity."}
    which fills the third field of the prompt's schema although the
    decision is not a rejection. *)
Definition reply_general_with_message : string :=
  "{" ++ quoted "decision" ++ ": " ++ quoted "general_knowledge" ++ ", "
      ++ quoted "reasoning" ++ ": " ++ quoted "greeting" ++ ", "
      ++ quoted "rejection_message" ++ ": " ++ quoted "Please ask about longevity." ++ "}".

Definition value_general_with_message : JsonValue :=
  JObject [("decision", JString "general_knowledge");
           ("reasoning", JString "greeting");
           ("rejection_message", JString "Please ask about longevity.")].

Definition model_general_with_message : Env :=
  env (Ok reply_general_with_message)
      [(reply_general_with_message, Ok value_general_with_message)].

(** The reply {"decision": "aging_biomarker_tool", "reasoning": "biomarkers",}
    inside a json fence: the trailing comma defeats the first
    [json.loads], and the sanitized text decodes. *)
Definition text_biomarker_trailing_comma : string :=
  "{" ++ quoted "decision" ++ ": " ++ quoted "aging_biomarker_tool" ++ ", "
      ++ quoted "reasoning" ++ ": " ++ quoted "biomarkers" ++ ",}".

Definition text_biomarker : string :=
  "{" ++ quoted "decision" ++ ": " ++ quoted "aging_biomarker_tool" ++ ", "
      ++ quoted "reasoning" ++ ": " ++ quoted "biomarkers" ++ "}".

Definition reply_biomarker_fenced : string :=
  utils.fence_json ++ newline ++ text_biomarker_trailing_comma ++ newline ++ utils.fence.

Definition model_biomarker_fenced : Env :=
  env (Ok reply_biomarker_fenced)
      [(text_biomarker_trailing_comma,
        Raise (JSONDecodeError
                 ("Expecting property name enclosed in double quotes: "
                  ++ "line 1 column 64 (char 63)")));
       (text_biomarker,
        Ok (JObject [("decision", JString "aging_biomarker_tool");
                     ("reasoning", JString "biomarkers")]))].

(** The reply
    {"decision": "rejection_handler", "reasoning": "off topic",
     "rejection_message": "X"}. *)
Definition reply_rejection : string :=
  "{" ++ quoted "decision" ++ ": " ++ quoted "rejection_handler" ++ ", "
      ++ quoted "reasoning" ++ ": " ++ quoted "off topic" ++ ", "
      ++ quoted "rejection_message" ++ ": " ++ quoted "X" ++ "}".

Definition model_rejects : Env :=
  env (Ok reply_rejection)
      [(reply_rejection,
        Ok (JObject [("decision", JString "rejection_handler");
                     ("reasoning", JString "off topic");
                     ("rejection_message", JString "X")]))].

Definition start (custom : bool) : World :=
  {| draws := 0; trace := []; custom_stream := custom |}.

(** A first turn of user [u1]. *)
Definition first_turn (streaming : bool) : ChatAgentState :=
  graph.initial_state "What is a telomere?" "u1" None streaming.

(** The state of that turn after a loaded, empty history. *)
Definition loaded (streaming : bool) : ChatAgentState :=
  set_chat_history (first_turn streaming) (Some "").

(** The state of that turn after a classification that failed. *)
Definition failed (streaming : bool) : ChatAgentState :=
  append_error (loaded streaming) "Node classify_and_route: Connection error.".

(** The state of that turn after a route to general knowledge. *)
Definition routed_general (streaming : bool) : ChatAgentState :=
  set_rejection_message (set_route (loaded streaming) (Some general_knowledge)) PyNone.

(** The state of that turn after the classifier routed it to
    general knowledge and gave a rejection message all the same. *)
Definition routed_general_with_message : ChatAgentState :=
  set_rejection_message (set_route (loaded false) (Some general_knowledge))
    (Has "Please ask about longevity.").

Definition request (streaming : bool) : ChatAIRequest :=
  {| user_query := "What is a telomere?";
     req_user_id := "u1";
     req_session_id := Some "";
     req_enable_streaming := Some streaming |}.

End scenario.

(* ================================================================= *)
(** ** Vocabulary of the properties of a whole turn *)

(** The requests sent to the chat model among some effects. *)
Fixpoint model_calls (effects : list Effect) : list (list (string * string)) :=
  match effects with
  | [] => []
  | ModelInvoked messages :: rest => messages :: model_calls rest
  | _ :: rest => model_calls rest
  end.

(** The tools started among some effects. *)
Fixpoint tools_started (effects : list Effect) : list string :=
  match effects with
  | [] => []
  | ToolStarted tool _ _ :: rest => tool :: tools_started rest
  | _ :: rest => tools_started rest
  end.

(** An effect of [persist_chat_history]. *)
Definition persistence_effect (e : Effect) : bool :=
  match e with
  | SessionAllocated _ => true
  | MessageSaved _ => true
  | _ => false
  end.

(** The chunk that ends a stream. *)
Definition done_chunk (state : ChatAgentState) : Chunk :=
  mkChunk "Done" (FinalResponse (graph.final_payload state)).

(** The chunk that announces a tool. *)
Definition tool_chunk (tool : string) : Chunk :=
  mkChunk ("Researching information using " ++ tool) EmptyResponse.

(** The state that [get_chat_history] returns. *)
Definition history_loaded (state : ChatAgentState) : ChatAgentState :=
  if has_error state then state
  else if truthy (graph.or_empty (user_id state))
       then set_chat_history state (Some "")
       else append_error state "Node get_chat_history: user_id missing".

(** The effects of [classify_and_route] on a state: one request to
    the chat model, unless the node is skipped or a key is missing. *)
Definition classify_effects (E : Env) (state : ChatAgentState) : list Effect :=
  if has_error state then []
  else match user_input state, chat_history state with
       | Some question, Some history =>
           [ModelInvoked (routing_messages E question history)]
       | _, _ => []
       end.

(** The effects of an answer node on a state, in stream mode
    [custom]. *)
Definition answer_effects (E : Env) (n : name.t) (state : ChatAgentState) (custom : bool)
    : list Effect :=
  if has_error state then []
  else match n with
       | name.aging_biomarker_node =>
           ((if custom then [Emitted (tool_chunk "aging_biomarker_tool")] else [])
              ++ [ToolStarted "aging_biomarker_tool" (user_input state) (user_id state)])%list
       | name.longevity_clinical_trial_node =>
           ((if custom then [Emitted (tool_chunk "longevity_clinical_trial_tool")] else [])
              ++ [ToolStarted "longevity_clinical_trial_tool" (user_input state)
                    (user_id state)])%list
       | name.general_knowledge_node =>
           match user_input state with
           | Some question => [ModelInvoked (general_messages E question)]
           | None => []
           end
       | _ => []
       end.

(** The effects of the streamed end. *)
Definition done_effects (custom : bool) (state : ChatAgentState) : list Effect :=
  if graph.streaming_key state
  then (if custom then [Emitted (done_chunk state)] else [])
  else [].

(** The nodes of a run, by the state that leaves classification and
    the state that leaves persistence. *)
Definition run_path (routed final : ChatAgentState) : list name.t :=
  ([name.get_chat_history; name.classify_and_route;
    graph.route_map (graph.route_key routed); name.save_chat_history]
   ++ (if graph.streaming_key final then [name.stream_final_response] else []))%list.

(** [state] with another [enable_streaming]. *)
Definition set_enable_streaming (s : ChatAgentState) (v : option bool) : ChatAgentState :=
  mkState (user_id s) (user_input s) (session_id s) (route s) (rejection_message s)
          (final_answer s) (error s) (chat_history s) v.

(** The characters of a text that are neither commas nor white
    space. *)
Fixpoint significant (s : string) : string :=
  match s with
  | EmptyString => EmptyString
  | String c s' =>
      if Ascii.eqb c "," || isspace c then significant s'
      else String c (significant s')
  end.

(** The text holds a comma. *)
Fixpoint has_comma (s : string) : bool :=
  match s with
  | EmptyString => false
  | String c s' => Ascii.eqb c "," || has_comma s'
  end.

(** *** The state that each node returns

    The state a node returns depends on the state it is given, on
    the answers of the libraries and, for [save_chat_history], on the
    number of identifiers drawn so far; it does not depend on the
    trace or on the stream mode.  The following functions give that
    state; the properties of a turn relate them to the nodes. *)

(** The state that [classify_and_route] returns. *)
Definition classified (E : Env) (state : ChatAgentState) : ChatAgentState :=
  if has_error state then state
  else match user_input state, chat_history state with
       | Some question, Some history =>
           match chat_model_invoke E (routing_messages E question history) with
           | Ok resp =>
               let out := utils.parse_routing_decision E (strip resp) in
               if truthy_opt (models.error out)
               then append_error state
                      ("Node classify_and_route: " ++ fmt_opt (models.error out))
               else set_rejection_message
                      (set_route state (Some (decision out)))
                      (store (models.rejection_message out))
           | Raise e => append_error state ("Node classify_and_route: " ++ str_exc e)
           end
       | None, _ => append_error state "Node classify_and_route: 'user_input'"
       | Some _, None => append_error state "Node classify_and_route: 'chat_history'"
       end.

(** The state that the answer node [n] returns. *)
Definition answered (E : Env) (n : name.t) (state : ChatAgentState) : ChatAgentState :=
  if has_error state then state
  else match n with
       | name.aging_biomarker_node =>
           set_final_answer state (Has "Detailed response from aging_biomarker_tool")
       | name.longevity_clinical_trial_node =>
           set_final_answer state (Has "Detailed response from longevity_clinical_trial_tool")
       | name.general_knowledge_node =>
           match user_input state with
           | Some question =>
               match chat_model_invoke E (general_messages E question) with
               | Ok resp => set_final_answer state (Has (strip resp))
               | Raise e =>
                   append_error state ("Node general_knowledge_node: " ++ str_exc e)
               end
           | None => append_error state "Node general_knowledge_node: 'user_input'"
           end
       | name.rejection_handler =>
           set_final_answer state
             (Has (if truthy_opt (get (rejection_message state))
                   then graph.or_empty (get (rejection_message state))
                   else graph.rejection_fallback))
       | _ => state
       end.

(** The session after one inner [try] of [save_chat_history], and
    the number of identifiers drawn after it: a due message is built
    under the session given, or under a fresh one. *)
Definition session_step (E : Env) (due : bool) (session_id : option string) (drawn : nat)
    : option string * nat :=
  if due then
    if truthy_opt session_id then (session_id, S drawn)
    else (Some (uuid_str (uuid4_int E (S drawn))), S (S drawn))
  else (session_id, drawn).

(** The state that [save_chat_history] returns when [drawn]
    identifiers have been drawn before it. *)
Definition persisted (E : Env) (state : ChatAgentState) (drawn : nat) : ChatAgentState :=
  if has_error state then state
  else
    let user_id := graph.or_empty (user_id state) in
    if truthy user_id then
      let first :=
        session_step E (truthy user_id && truthy (graph.or_empty (user_input state)))
          (get (session_id state)) drawn in
      let second :=
        session_step E (truthy user_id && truthy_opt (get_or (final_answer state) ""))
          (fst first) (snd first) in
      set_session_id state (store (fst second))
    else append_error state "Node save_chat_history: user_id is missing".

(** The effects of one inner [try] of [save_chat_history]: a due
    message is built under a fresh identifier of its own, in the
    session given or in a fresh one. *)
Definition message_effects (E : Env) (due : bool) (user_id data : string)
    (role : history.Role) (session_id : option string) (tool : option Route)
    (drawn : nat) : list Effect :=
  if due then
    if truthy_opt session_id then
      [MessageSaved
         (history.mkChatHistory (uuid_str (uuid4_int E drawn)) user_id
            (graph.or_empty session_id) role
            (match role with history.assistant => tool | history.user => None end)
            data)]
    else
      [SessionAllocated (uuid_str (uuid4_int E (S drawn)));
       MessageSaved
         (history.mkChatHistory (uuid_str (uuid4_int E drawn)) user_id
            (uuid_str (uuid4_int E (S drawn))) role
            (match role with history.assistant => tool | history.user => None end)
            data)]
  else [].

(** The effects of [save_chat_history] when [drawn] identifiers have
    been drawn before it. *)
Definition save_effects (E : Env) (state : ChatAgentState) (drawn : nat) : list Effect :=
  if has_error state then []
  else
    let user_id := graph.or_empty (user_id state) in
    if truthy user_id then
      let due_user := truthy user_id && truthy (graph.or_empty (user_input state)) in
      let due_assistant := truthy user_id && truthy_opt (get_or (final_answer state) "") in
      let first := session_step E due_user (get (session_id state)) drawn in
      (message_effects E due_user user_id (graph.or_empty (user_input state))
         history.user (get (session_id state)) None drawn
       ++ message_effects E due_assistant user_id
            (graph.or_empty (get_or (final_answer state) "")) history.assistant
            (fst first) (route state) (snd first))%list
    else [].

(** The state at the end of a turn that starts in [state]. *)
Definition turn_state (E : Env) (state : ChatAgentState) (drawn : nat) : ChatAgentState :=
  let routed := classified E (history_loaded state) in
  persisted E (answered E (graph.route_map (graph.route_key routed)) routed) drawn.

(** The effects of a turn that starts in [state], in stream mode
    [custom]. *)
Definition turn_effects (E : Env) (state : ChatAgentState) (custom : bool) (drawn : nat)
    : list Effect :=
  let loaded := history_loaded state in
  let routed := classified E loaded in
  let n := graph.route_map (graph.route_key routed) in
  (classify_effects E loaded
   ++ answer_effects E n routed custom
   ++ save_effects E (answered E n routed) drawn
   ++ (if custom then [Emitted (done_chunk (turn_state E state drawn))] else []))%list.

(* ================================================================= *)
(** ** Environments of whole dialogues

    The chat model of these environments tells the classification
    from the answer by the system message it is sent. *)

Module dialogue.

Definition model (routing answer : Exc string) (messages : list (string * string))
    : Exc string :=
  match messages with
  | (_, system) :: _ =>
      if String.eqb system llm.ROUTING_SYSTEM_PROMPT then routing else answer
  | [] => answer
  end.

Definition env (routing answer : Exc string) (table : list (string * Exc JsonValue)) : Env :=
  {| json_loads := scenario.table_loads table;
     RouterOutput_validate := scenario.validate;
     chat_model_invoke := model routing answer;
     ROUTING_PROMPT_format := fun question history =>
       "USER QUESTION: " ++ question ++ " Chat history: " ++ history;
     GENERAL_KNOWLEDGE_SYSTEM_PROMPT := "You are an expert medical researcher assistant.";
     uuid4_int := fun n => N.of_nat (n + 1) |}.

(** The reply {"decision": "<route>", "reasoning": "ok"} and its
    decoded value. *)
Definition reply_route (r : Route) : string :=
  "{" ++ scenario.quoted "decision" ++ ": " ++ scenario.quoted (route_str r) ++ ", "
      ++ scenario.quoted "reasoning" ++ ": " ++ scenario.quoted "ok" ++ "}".

Definition value_route (r : Route) : JsonValue :=
  JObject [("decision", JString (route_str r)); ("reasoning", JString "ok")].

(** The classifier picks [r]; the answering model gives [answer]. *)
Definition routes_to (r : Route) (answer : Exc string) : Env :=
  env (Ok (reply_route r)) answer [(reply_route r, Ok (value_route r))].

(** The classifier replies with prose. *)
Definition classifier_rambles : Env :=
  env (Ok "I think this is about biomarkers.") (Ok "Telomeres shorten with age.") [].

Definition question : string := "What is a telomere?".

Definition world : World := {| draws := 0; trace := []; custom_stream := false |}.

End dialogue.

(* ================================================================= *)
(** * Properties *)

(** ** Strings *)

Lemma append_empty_r (s : string) : s ++ "" = s.
Proof. induction s; simpl; congruence. Qed.

Lemma append_assoc (a b c : string) : (a ++ b) ++ c = a ++ (b ++ c).
Proof. induction a; simpl; congruence. Qed.

Lemma truthy_not_empty (s : string) : truthy s = negb (String.eqb s "").
Proof. destruct s; reflexivity. Qed.

Lemma truthy_append_r (a b : string) : truthy b = true -> truthy (a ++ b) = true.
Proof. destruct a; [trivial | reflexivity]. Qed.

Lemma prefix_append (p s : string) : String.prefix p (p ++ s) = true.
Proof.
  induction p as [|c p IH]; [destruct s; reflexivity|].
  change (String c p ++ s) with (String c (p ++ s)). cbn [String.prefix].
  destruct (ascii_dec c c); [exact IH | congruence].
Qed.

Lemma prefix_cancel (a b s : string) :
  String.prefix (a ++ b) (a ++ s) = String.prefix b s.
Proof.
  induction a as [|c a IH]; [reflexivity|].
  change (String c a ++ b) with (String c (a ++ b)).
  change (String c a ++ s) with (String c (a ++ s)).
  cbn [String.prefix]. destruct (ascii_dec c c); [exact IH | congruence].
Qed.

Lemma prefix_backtick_head (sep' s : string) (c : ascii) :
  Ascii.eqb c "`" = false -> String.prefix (String "`" sep') (String c s) = false.
Proof.
  intro H. cbn [String.prefix].
  destruct (ascii_dec "`" c) as [Heq|]; [|reflexivity].
  subst c. rewrite Ascii.eqb_refl in H. discriminate.
Qed.

(** *** [split] *)

Lemma split_go_nonempty (sep : string) (s : string) :
  forall skip cur, exists piece rest, split_go sep skip s cur = piece :: rest.
Proof.
  induction s as [|c s IH]; intros skip cur.
  - exists cur, []. reflexivity.
  - destruct skip as [|k]; cbn [split_go].
    + destruct (String.prefix sep (String c s)).
      * do 2 eexists; reflexivity.
      * apply IH.
    + apply IH.
Qed.

Lemma item_split_0 (sep s : string) : exists piece, item (split sep s) 0 = Ok piece.
Proof.
  unfold split. destruct (split_go_nonempty sep s 0 "") as (p & r & ->).
  exists p. reflexivity.
Qed.

(** A stretch without backticks holds no separator that starts with
    one: it goes to the current piece as it is. *)
Lemma split_go_free (sep' : string) (a : string) :
  backtick_free a = true ->
  forall rest cur,
    split_go (String "`" sep') 0 (a ++ rest) cur =
    split_go (String "`" sep') 0 rest (cur ++ a).
Proof.
  induction a as [|c a IH]; intros Hfree rest cur.
  - simpl. now rewrite append_empty_r.
  - simpl in Hfree. apply andb_prop in Hfree as [Hc Ha].
    apply negb_true_iff in Hc.
    change ((String c a) ++ rest) with (String c (a ++ rest)).
    cbn [split_go]. rewrite (prefix_backtick_head sep' (a ++ rest) c Hc).
    rewrite (IH Ha). now rewrite append_assoc.
Qed.

Lemma split_go_skip (sep p rest : string) :
  forall cur, split_go sep (String.length p) (p ++ rest) cur = split_go sep 0 rest cur.
Proof.
  induction p as [|c p IH]; intro cur; [reflexivity|].
  change (String c p ++ rest) with (String c (p ++ rest)).
  cbn [String.length split_go]. apply IH.
Qed.

(** At a separator the current piece ends and the next one begins. *)
Lemma split_go_separator (c : ascii) (sep' rest cur : string) :
  split_go (String c sep') 0 (String c sep' ++ rest) cur =
  cur :: split_go (String c sep') 0 rest "".
Proof.
  change (String c sep' ++ rest) with (String c (sep' ++ rest)).
  cbn [split_go].
  change (String c (sep' ++ rest)) with (String c sep' ++ rest).
  rewrite prefix_append. cbn [String.length Nat.sub]. rewrite Nat.sub_0_r.
  now rewrite split_go_skip.
Qed.

Lemma split_fence_closing (inner : string) :
  backtick_free inner = true ->
  split utils.fence (inner ++ utils.fence) = [inner; ""].
Proof.
  intro Hfree. unfold split, utils.fence.
  rewrite (split_go_free "``" inner Hfree).
  change (split_go "```" 0 "```" ("" ++ inner))
    with (split_go "```" 0 ("```" ++ "") inner).
  rewrite split_go_separator. reflexivity.
Qed.

Lemma split_fence_free (inner : string) :
  backtick_free inner = true -> split utils.fence inner = [inner].
Proof.
  intro Hfree. unfold split, utils.fence.
  rewrite <- (append_empty_r inner) at 1.
  now rewrite (split_go_free "``" inner Hfree).
Qed.

Lemma split_fence_json_closing (inner : string) :
  backtick_free inner = true ->
  split utils.fence_json (inner ++ utils.fence) = [inner ++ utils.fence].
Proof.
  intro Hfree. unfold split, utils.fence_json, utils.fence.
  rewrite (split_go_free "``json" inner Hfree). cbn.
  now rewrite !append_assoc.
Qed.

(** *** [strip] *)

Lemma rstrip_before_fence (s : string) : rstrip (s ++ utils.fence) = s ++ utils.fence.
Proof.
  induction s as [|c s IH]; [reflexivity|].
  change (String c s ++ utils.fence) with (String c (s ++ utils.fence)).
  cbn [rstrip]. rewrite IH. destruct s; reflexivity.
Qed.

Lemma strip_fenced (opening inner : string) :
  lstrip (opening ++ inner ++ utils.fence) = opening ++ inner ++ utils.fence ->
  strip (opening ++ inner ++ utils.fence) = opening ++ inner ++ utils.fence.
Proof.
  intro H. unfold strip. rewrite H.
  rewrite <- append_assoc. rewrite rstrip_before_fence. now rewrite append_assoc.
Qed.

Lemma lstrip_free (s : string) : backtick_free s = true -> backtick_free (lstrip s) = true.
Proof.
  induction s as [|c s IH]; [reflexivity|]. intro H. cbn [lstrip].
  destruct (isspace c); [|exact H].
  cbn [backtick_free] in H. apply andb_prop in H as [_ H]. now apply IH.
Qed.

Lemma rstrip_free (s : string) : backtick_free s = true -> backtick_free (rstrip s) = true.
Proof.
  induction s as [|c s IH]; [reflexivity|]. intro H.
  cbn [backtick_free] in H. apply andb_prop in H as [Hc H].
  specialize (IH H). cbn [rstrip].
  destruct (rstrip s) as [|d r].
  - destruct (isspace c); [reflexivity|]. cbn [backtick_free]. now rewrite Hc.
  - cbn [backtick_free] in *. now rewrite Hc, IH.
Qed.

Lemma strip_free (s : string) : backtick_free s = true -> backtick_free (strip s) = true.
Proof. intro H. unfold strip. now apply rstrip_free, lstrip_free. Qed.

(** ** The fences of [parse_routing_decision] *)

Lemma prefix_before_fence (p : string) :
  backtick_free p = true ->
  forall inner,
    String.prefix p inner = false -> String.prefix p (inner ++ utils.fence) = false.
Proof.
  induction p as [|a p IH]; intros Hp inner Hpre.
  - destruct inner; discriminate.
  - cbn [backtick_free] in Hp. apply andb_prop in Hp as [Ha Hp].
    apply negb_true_iff in Ha.
    destruct inner as [|c inner].
    + unfold utils.fence. cbn [String.append String.prefix].
      destruct (ascii_dec a "`") as [Heq|]; [|reflexivity].
      subst a. rewrite Ascii.eqb_refl in Ha. discriminate.
    + change (String c inner ++ utils.fence) with (String c (inner ++ utils.fence)).
      cbn [String.prefix] in *.
      destruct (ascii_dec a c); [now apply IH | reflexivity].
Qed.

Lemma unfence_fenced_json (inner : string) :
  backtick_free inner = true ->
  utils.unfence (utils.fence_json ++ inner ++ utils.fence) = Ok (strip inner).
Proof.
  intro Hfree. unfold utils.unfence, startswith.
  rewrite prefix_append.
  unfold split at 1. unfold utils.fence_json at 1 2.
  rewrite split_go_separator.
  fold utils.fence_json. fold (split utils.fence_json (inner ++ utils.fence)).
  rewrite (split_fence_json_closing inner Hfree). cbn [item nth_error].
  rewrite (split_fence_closing inner Hfree). reflexivity.
Qed.

Lemma unfence_fenced_plain (inner : string) :
  backtick_free inner = true -> startswith "json" inner = false ->
  utils.unfence (utils.fence ++ inner ++ utils.fence) = Ok (strip inner).
Proof.
  intros Hfree Hjson. unfold utils.unfence, startswith.
  assert (Hnot : String.prefix utils.fence_json (utils.fence ++ inner ++ utils.fence) = false).
  { change utils.fence_json with (utils.fence ++ "json").
    rewrite prefix_cancel. now apply prefix_before_fence. }
  rewrite Hnot, prefix_append.
  unfold split at 1. unfold utils.fence at 1 2.
  rewrite split_go_separator.
  fold utils.fence. fold (split utils.fence (inner ++ utils.fence)).
  rewrite (split_fence_closing inner Hfree). cbn [item nth_error].
  rewrite (split_fence_free inner Hfree). reflexivity.
Qed.

Lemma unfence_free (text : string) :
  backtick_free text = true -> utils.unfence text = Ok text.
Proof.
  intro H. unfold utils.unfence, startswith.
  destruct text as [|c text]; [reflexivity|].
  cbn [backtick_free] in H. apply andb_prop in H as [Hc _].
  apply negb_true_iff in Hc.
  unfold utils.fence_json, utils.fence.
  now rewrite !(prefix_backtick_head _ _ _ Hc).
Qed.

(** The fence handling cannot fail: after an opening fence, [split]
    has a second piece. *)
Lemma unfence_total (text : string) : exists body, utils.unfence text = Ok body.
Proof.
  unfold utils.unfence.
  assert (second : forall sep, sep <> "" -> startswith sep text = true ->
                     exists inner, item (split sep text) 1 = Ok inner).
  { intros sep Hsep H. unfold startswith in H. unfold split.
    destruct text as [|c text]; [destruct sep; [congruence | discriminate]|].
    cbn [split_go]. rewrite H.
    destruct (split_go_nonempty sep text (String.length sep - 1) "") as (p & r & ->).
    exists p. reflexivity. }
  destruct (startswith utils.fence_json text) eqn:Hj.
  - destruct (second utils.fence_json ltac:(discriminate) Hj) as (inner & ->).
    destruct (item_split_0 utils.fence inner) as (body & ->). eauto.
  - destruct (startswith utils.fence text) eqn:Hf; [|eauto].
    destruct (second utils.fence ltac:(discriminate) Hf) as (inner & ->).
    destruct (item_split_0 utils.fence inner) as (body & ->). eauto.
Qed.

Lemma unfence_unfenced (text : string) :
  startswith utils.fence text = false -> utils.unfence text = Ok text.
Proof.
  intro H. unfold utils.unfence. rewrite H.
  destruct (startswith utils.fence_json text) eqn:Hj; [|reflexivity].
  exfalso. unfold startswith in *.
  destruct text as [|a [|b [|c text]]]; try discriminate;
    revert H Hj; unfold utils.fence, utils.fence_json; cbn [String.prefix];
    repeat (destruct (ascii_dec _ _); try discriminate).
  destruct text; discriminate.
Qed.

(** What the [except] clause returns. *)
Lemma parse_failure_shape (e : PyExc) :
  decision (utils.parse_failure e) = models.rejection_handler
  /\ reasoning (utils.parse_failure e) = "error parsing routing decision"
  /\ models.error (utils.parse_failure e)
     = Some ("parse_routing_decision Error: " ++ str_exc e)
  /\ truthy_opt (models.error (utils.parse_failure e)) = true.
Proof. repeat split. Qed.

(** ** The classifier-output parser *)

(** The validated value, or what the [except] clause makes of the
    validation error. *)
Lemma parse_routing_decision_cases (E : Env) (llm_response body : string) :
  utils.unfence (strip llm_response) = Ok body ->
  utils.parse_routing_decision E llm_response =
  match json_loads E body with
  | Ok data =>
      match RouterOutput_validate E data with
      | Ok routing_output => routing_output
      | Raise e => utils.parse_failure e
      end
  | Raise (JSONDecodeError _) =>
      match json_loads E (utils.sanitize body) with
      | Ok data =>
          match RouterOutput_validate E data with
          | Ok routing_output => routing_output
          | Raise e => utils.parse_failure e
          end
      | Raise e => utils.parse_failure e
      end
  | Raise e => utils.parse_failure e
  end.
Proof.
  intro Hbody.
  unfold utils.parse_routing_decision, utils.parse_routing_decision_body.
  rewrite Hbody. unfold utils.loads_with_repair.
  destruct (json_loads E body) as [data|[]]; try reflexivity.
  destruct (json_loads E (utils.sanitize body)); reflexivity.
Qed.

(** ** The repair of trailing commas, case by case *)

Lemma lstrip_app_space (space rest : string) :
  lstrip space = "" -> lstrip (space ++ rest) = lstrip rest.
Proof.
  induction space as [|c space IH]; [reflexivity|].
  cbn [lstrip String.append]. destruct (isspace c); [exact IH | discriminate].
Qed.

Lemma sub_trailing_commas_space (space rest : string) :
  lstrip space = "" ->
  utils.sub_trailing_commas true (space ++ rest) = utils.sub_trailing_commas true rest.
Proof.
  induction space as [|c space IH]; [reflexivity|].
  cbn [lstrip String.append utils.sub_trailing_commas].
  destruct (isspace c); [exact IH | discriminate].
Qed.

Lemma sub_trailing_commas_comma_free (before rest : string) :
  has_comma before = false ->
  utils.sub_trailing_commas false (before ++ rest)
  = before ++ utils.sub_trailing_commas false rest.
Proof.
  induction before as [|c before IH]; [reflexivity|].
  cbn [has_comma String.append utils.sub_trailing_commas andb]. intro H.
  apply orb_false_elim in H. destruct H as (Hc & Hrest).
  rewrite Hc. cbn [andb]. now rewrite (IH Hrest).
Qed.

Lemma sanitize_trailing_comma (before space after : string) (c : ascii) :
  has_comma before = false -> lstrip space = "" ->
  c = "}"%char \/ c = "]"%char ->
  utils.sanitize (before ++ "," ++ space ++ String c after)
  = before ++ String c (utils.sanitize after).
Proof.
  intros Hbefore Hspace Hc. unfold utils.sanitize.
  rewrite (sub_trailing_commas_comma_free _ _ Hbefore).
  cbn [String.append utils.sub_trailing_commas andb].
  change (Ascii.eqb "," ",") with true. cbn [andb].
  assert (Hclose : utils.closes_after_space (space ++ String c after) = true).
  { unfold utils.closes_after_space. rewrite (lstrip_app_space _ _ Hspace).
    destruct Hc as [-> | ->]; reflexivity. }
  rewrite Hclose, (sub_trailing_commas_space _ _ Hspace).
  destruct Hc as [-> | ->]; reflexivity.
Qed.

Lemma sanitize_other_comma (before rest : string) :
  has_comma before = false -> utils.closes_after_space rest = false ->
  utils.sanitize (before ++ "," ++ rest) = before ++ "," ++ utils.sanitize rest.
Proof.
  intros Hbefore Hrest. unfold utils.sanitize.
  rewrite (sub_trailing_commas_comma_free _ _ Hbefore).
  cbn [String.append utils.sub_trailing_commas andb].
  rewrite Hrest, andb_false_r. reflexivity.
Qed.

Lemma sanitize_comma_free (text : string) :
  has_comma text = false -> utils.sanitize text = text.
Proof.
  intro H. unfold utils.sanitize.
  rewrite <- (append_empty_r text) at 1.
  rewrite (sub_trailing_commas_comma_free _ _ H). apply append_empty_r.
Qed.

(** C4.  For every environment and every input text the parser
    returns a [RouterOutput]; no exception leaves it.  The text is
    stripped and its fence taken off, which cannot fail: a stripped
    text wrapped in a json fence or in a plain fence is reduced to
    what the fence holds, a text that opens with no fence is left as
    it is.  Then either the strict [json.loads] of that body succeeds
    and the result is its validated value; or it fails with
    [JSONDecodeError], the text without trailing commas decodes, and
    the result is the validated value of that; or some exception [e]
    defeats the parse, and the result has decision
    [rejection_handler], the fixed reasoning, and the non-empty error
    ["parse_routing_decision Error: " ++ str(e)].

    The text without trailing commas is this, from left to right: up
    to its first comma the text is kept; a comma that is followed,
    after white space or at once, by a closing brace or bracket is
    deleted together with that white space, and the repair goes on
    behind the brace or bracket, which is kept; any other comma is
    kept, and the repair goes on behind it; a text without comma is
    left as it is. *)
Theorem parse_routing_decision_defensive (E : Env) (llm_response : string) :
  (exists body,
      utils.unfence (strip llm_response) = Ok body
      /\ (forall inner,
            backtick_free inner = true ->
            strip llm_response = utils.fence_json ++ inner ++ utils.fence
            \/ (strip llm_response = utils.fence ++ inner ++ utils.fence
                /\ startswith "json" inner = false) ->
            body = strip inner)
      /\ (startswith utils.fence (strip llm_response) = false -> body = strip llm_response)
      /\ ((exists data,
             json_loads E body = Ok data
             /\ RouterOutput_validate E data = Ok (utils.parse_routing_decision E llm_response))
          \/ (exists detail data,
                json_loads E body = Raise (JSONDecodeError detail)
                /\ json_loads E (utils.sanitize body) = Ok data
                /\ RouterOutput_validate E data
                   = Ok (utils.parse_routing_decision E llm_response))
          \/ (exists e,
                parse_defeated_by E body e
                /\ utils.parse_routing_decision E llm_response = utils.parse_failure e
                /\ decision (utils.parse_routing_decision E llm_response)
                   = models.rejection_handler
                /\ reasoning (utils.parse_routing_decision E llm_response)
                   = "error parsing routing decision"
                /\ models.error (utils.parse_routing_decision E llm_response)
                   = Some ("parse_routing_decision Error: " ++ str_exc e)
                /\ truthy_opt (models.error (utils.parse_routing_decision E llm_response))
                   = true)))
  /\ (forall before space after c,
        has_comma before = false -> lstrip space = "" ->
        c = "}"%char \/ c = "]"%char ->
        utils.sanitize (before ++ "," ++ space ++ String c after)
        = before ++ String c (utils.sanitize after))
  /\ (forall before rest,
        has_comma before = false -> utils.closes_after_space rest = false ->
        utils.sanitize (before ++ "," ++ rest) = before ++ "," ++ utils.sanitize rest)
  /\ (forall text, has_comma text = false -> utils.sanitize text = text).
Proof.
  split; [|split; [|split]];
    [| intros before space after c; apply sanitize_trailing_comma
     | apply sanitize_other_comma | apply sanitize_comma_free].
  destruct (unfence_total (strip llm_response)) as (body & Hbody).
  exists body. split; [exact Hbody|]. split; [|split].
  - intros inner Hfree [Hform | [Hform Hjson]]; rewrite Hform in Hbody.
    + rewrite (unfence_fenced_json inner Hfree) in Hbody. congruence.
    + rewrite (unfence_fenced_plain inner Hfree Hjson) in Hbody. congruence.
  - intro Hopen. rewrite (unfence_unfenced _ Hopen) in Hbody. congruence.
  - remember (utils.parse_routing_decision E llm_response) as result eqn:Hresult.
    rewrite (parse_routing_decision_cases E llm_response body Hbody) in Hresult.
    assert (failed : forall e,
              parse_defeated_by E body e -> result = utils.parse_failure e ->
              exists e0,
                parse_defeated_by E body e0 /\ result = utils.parse_failure e0
                /\ decision result = models.rejection_handler
                /\ reasoning result = "error parsing routing decision"
                /\ models.error result
                   = Some ("parse_routing_decision Error: " ++ str_exc e0)
                /\ truthy_opt (models.error result) = true).
    { intros e Hdefeat ->. exists e.
      split; [exact Hdefeat|]. split; [reflexivity|]. apply parse_failure_shape. }
    destruct (json_loads E body) as [data|e] eqn:Hfirst.
    + destruct (RouterOutput_validate E data) as [out|e] eqn:Hvalid.
      * left. exists data. subst result. split; [reflexivity | exact Hvalid].
      * right; right. apply (failed e); [|exact Hresult].
        right; right. exists data. unfold utils.loads_with_repair.
        rewrite Hfirst. auto.
    + destruct e as [key|detail|detail|detail];
        try (right; right; eapply failed; [|exact Hresult];
             left; split; [exact Hfirst|discriminate]).
      destruct (json_loads E (utils.sanitize body)) as [data|e] eqn:Hsecond.
      * destruct (RouterOutput_validate E data) as [out|e] eqn:Hvalid.
        -- right; left. eexists. exists data. subst result.
           split; [reflexivity|]. split; [reflexivity | exact Hvalid].
        -- right; right. apply (failed e); [|exact Hresult].
           right; right. exists data. unfold utils.loads_with_repair.
           rewrite Hfirst, Hsecond. auto.
      * right; right. apply (failed e); [|exact Hresult].
        right; left. eexists. split; [exact Hfirst | exact Hsecond].
Qed.

(** A reply that is nothing but a json fence around a text without
    backticks is parsed as that text. *)
Corollary parse_routing_decision_fenced_json (E : Env) (inner : string) :
  backtick_free inner = true ->
  utils.parse_routing_decision E (utils.fence_json ++ inner ++ utils.fence)
  = utils.parse_routing_decision E inner.
Proof.
  intro Hfree. unfold utils.parse_routing_decision, utils.parse_routing_decision_body.
  rewrite (strip_fenced utils.fence_json inner eq_refl).
  rewrite (unfence_fenced_json inner Hfree).
  rewrite (unfence_free (strip inner) (strip_free inner Hfree)).
  reflexivity.
Qed.

(** ** The History Compactor *)

Lemma compact_step_spec (lines : list string) (entry : history.ChatHistory) :
  utils.compact_step lines entry =
  (lines ++ (if compact_spec.retained entry then [compact_spec.line entry] else []))%list.
Proof.
  unfold utils.compact_step, compact_spec.retained, compact_spec.line, list_append.
  rewrite truthy_not_empty.
  destruct entry as [i u s r t m]; simpl.
  destruct r, t as [[]|]; simpl; destruct (String.eqb m ""); simpl;
    rewrite ?app_nil_r; reflexivity.
Qed.

Lemma fold_compact_step (entries : list history.ChatHistory) :
  forall lines,
    fold_left utils.compact_step entries lines =
    (lines ++ map compact_spec.line (filter compact_spec.retained entries))%list.
Proof.
  induction entries as [|entry rest IH]; intro lines; simpl.
  - now rewrite app_nil_r.
  - rewrite IH, compact_step_spec.
    destruct (compact_spec.retained entry); simpl.
    + now rewrite <- app_assoc.
    + now rewrite app_nil_r.
Qed.

(** C10.  For every list of stored entries the compactor returns the
    lines of the retained entries joined by newlines, one line per
    entry, [role: message] or [role (tool_used: X): message] when the
    entry names a tool, an entry being retained unless its role or
    its message is empty.  The result is a function of the list
    alone. *)
Theorem create_compact_chat_history_lines (entries : list history.ChatHistory) :
  utils.create_compact_chat_history entries = compact_spec.compact entries.
Proof.
  unfold utils.create_compact_chat_history, compact_spec.compact.
  now rewrite fold_compact_step.
Qed.

(** ** Traces *)

Lemma new_effects_app (w w' : World) (effects : list Effect) :
  trace w' = (trace w ++ effects)%list -> new_effects w w' = effects.
Proof.
  intro H. unfold new_effects. rewrite H. clear H.
  induction (trace w) as [|x l IH]; [reflexivity | exact IH].
Qed.

Lemma new_effects_none (w : World) : new_effects w w = [].
Proof. apply new_effects_app. now rewrite app_nil_r. Qed.

Lemma saved_app (a b : list Effect) : saved (a ++ b) = (saved a ++ saved b)%list.
Proof.
  induction a as [|x a IH]; [reflexivity|].
  destruct x; simpl; rewrite IH; reflexivity.
Qed.

Lemma allocated_app (a b : list Effect) :
  allocated (a ++ b) = (allocated a ++ allocated b)%list.
Proof.
  induction a as [|x a IH]; [reflexivity|].
  destruct x; simpl; rewrite IH; reflexivity.
Qed.

(** ** The state *)

Lemma has_error_append_error (s : ChatAgentState) (msg : string) :
  has_error (append_error s msg) = true.
Proof.
  unfold has_error, append_error, errors, set_error, list_append. cbn [error].
  destruct (match error s with Some l => l | None => [] end); reflexivity.
Qed.

Lemma has_error_errors (s : ChatAgentState) : has_error s = true <-> errors s <> [].
Proof.
  unfold has_error. destruct (errors s); split; intro H; congruence.
Qed.

Lemma uuid_str_truthy (v : N) : truthy (uuid_str v) = true.
Proof. unfold uuid_str. now rewrite !truthy_append_r. Qed.

(** ** [persist_chat_history] *)

Ltac monad_unfold :=
  unfold writer, getitem in *;
  unfold bind, ret, raise, lift, try_except, effect, uuid4 in *.

Section Persist.
Variable E : Env.

(** With a session identifier the message is built under it. *)
Lemma persist_given user_id data role given tool w :
  truthy given = true ->
  db_helper.persist_chat_history E user_id data role (Some given) tool w =
  (Ok given,
   mkWorld (S (draws w))
     (trace w ++ [MessageSaved
        (history.mkChatHistory (uuid_str (uuid4_int E (draws w))) user_id given role
           (match role with history.assistant => tool | history.user => None end) data)])
     (custom_stream w)).
Proof.
  intro H. unfold db_helper.persist_chat_history. monad_unfold.
  cbn [draws trace custom_stream]. rewrite H. reflexivity.
Qed.

(** Without one, a new identifier is drawn, announced and used. *)
Lemma persist_fresh user_id data role session_id tool w :
  truthy_opt session_id = false ->
  db_helper.persist_chat_history E user_id data role session_id tool w =
  (Ok (uuid_str (uuid4_int E (S (draws w)))),
   mkWorld (S (S (draws w)))
     (trace w ++ [SessionAllocated (uuid_str (uuid4_int E (S (draws w))));
                  MessageSaved
        (history.mkChatHistory (uuid_str (uuid4_int E (draws w))) user_id
           (uuid_str (uuid4_int E (S (draws w)))) role
           (match role with history.assistant => tool | history.user => None end) data)])
     (custom_stream w)).
Proof.
  intros H. unfold db_helper.persist_chat_history. monad_unfold.
  cbn [draws trace custom_stream].
  destruct session_id as [given|]; cbn [truthy_opt] in H; [rewrite H|];
    cbn [negb draws trace custom_stream]; rewrite <- app_assoc; reflexivity.
Qed.

End Persist.

(** ** [save_chat_history] *)

Section Save.
Variable E : Env.

(** One inner [try] of [save_chat_history]: when the message is
    due, exactly one message is built, under the session given or
    under a new one; otherwise nothing happens.  No exception leaves
    the [try]. *)
Lemma persist_step (due : bool) user_id data role session_id tool w :
  exists session_id' w' delta,
    try_except
      (if due then
         saved <- db_helper.persist_chat_history E user_id data role session_id tool ;;
         ret (Some saved)
       else ret session_id)
      (fun e => ret session_id) w
    = (Ok session_id', w')
    /\ trace w' = (trace w ++ delta)%list
    /\ custom_stream w' = custom_stream w
    /\ (due = false -> session_id' = session_id /\ delta = [])
    /\ (due = true ->
        exists sid message_id,
          session_id' = Some sid /\ truthy sid = true
          /\ saved delta =
             [history.mkChatHistory message_id user_id sid role
                (match role with history.assistant => tool | history.user => None end)
                data]
          /\ (truthy_opt session_id = true -> session_id = Some sid /\ allocated delta = [])
          /\ (truthy_opt session_id = false ->
              allocated delta = [sid]
              /\ exists rest, delta = SessionAllocated sid :: rest)).
Proof.
  destruct due.
  - destruct (truthy_opt session_id) eqn:Hsid.
    + destruct session_id as [given|]; [|discriminate]. cbn [truthy_opt] in Hsid.
      unfold try_except, bind, ret. rewrite (persist_given E _ _ _ _ _ _ Hsid).
      do 3 eexists. split; [reflexivity|]. cbn [trace custom_stream].
      split; [reflexivity|]. split; [reflexivity|]. split; [discriminate|].
      intros _. exists given. eexists.
      repeat split; try assumption; try reflexivity; discriminate.
    + unfold try_except, bind, ret. rewrite (persist_fresh E _ _ _ _ _ _ Hsid).
      do 3 eexists. split; [reflexivity|]. cbn [trace custom_stream].
      split; [reflexivity|]. split; [reflexivity|]. split; [discriminate|].
      intros _. do 2 eexists.
      split; [reflexivity|]. split; [apply uuid_str_truthy|].
      split; [reflexivity|]. split; [discriminate|].
      intros _. split; [reflexivity | eexists; reflexivity].
  - exists session_id, w, []. unfold try_except, ret.
    rewrite app_nil_r. repeat split; discriminate.
Qed.

Lemma save_chat_history_skips (s : ChatAgentState) (w : World) :
  has_error s = true -> graph.save_chat_history E s w = (Ok s, w).
Proof. intro H. unfold graph.save_chat_history. now rewrite H. Qed.

Lemma save_chat_history_without_user (s : ChatAgentState) (w : World) :
  has_error s = false -> truthy (graph.or_empty (user_id s)) = false ->
  graph.save_chat_history E s w =
  (Ok (append_error s "Node save_chat_history: user_id is missing"), w).
Proof.
  intros He Hu. unfold graph.save_chat_history, graph.save_chat_history_work.
  rewrite He, Hu. reflexivity.
Qed.

(** A run of the node's work with a user: the state changes in
    [session_id] alone; the messages due are built in order, all
    under the resulting session; a session given is kept and none
    is created; with no session given, one is created exactly when a
    message is due. *)
Lemma save_chat_history_persists (s : ChatAgentState) (w : World) :
  has_error s = false -> truthy (graph.or_empty (user_id s)) = true ->
  exists session_id' w',
    graph.save_chat_history E s w = (Ok (set_session_id s (store session_id')), w')
    /\ custom_stream w' = custom_stream w
    /\ map saved_summary (saved (new_effects w w'))
       = (due_user_message s ++ due_assistant_message s)%list
    /\ (forall m, In m (saved (new_effects w w')) ->
          history.user_id m = graph.or_empty (user_id s)
          /\ Some (history.session_id m) = session_id')
    /\ (truthy_opt (get (session_id s)) = true ->
          session_id' = get (session_id s) /\ allocated (new_effects w w') = [])
    /\ (truthy_opt (get (session_id s)) = false ->
          ((due_user_message s ++ due_assistant_message s)%list = [] ->
             session_id' = get (session_id s) /\ allocated (new_effects w w') = [])
          /\ ((due_user_message s ++ due_assistant_message s)%list <> [] ->
              exists sid, session_id' = Some sid /\ truthy sid = true
                          /\ allocated (new_effects w w') = [sid]
                          /\ exists rest,
                               new_effects w w' = SessionAllocated sid :: rest)).
Proof.
  intros He Hu.
  unfold graph.save_chat_history, graph.save_chat_history_work.
  rewrite He, Hu. cbn [negb].
  unfold graph.save_user_message, graph.save_assistant_message.
  rewrite Hu. cbn [andb].
  unfold due_user_message, due_assistant_message.
  set (user_msg := graph.or_empty (user_input s)).
  set (assistant_msg := get_or (final_answer s) "").
  set (given := get (session_id s)).
  destruct (persist_step (truthy user_msg) (graph.or_empty (user_id s)) user_msg
              history.user given None w)
    as (sid1 & w1 & d1 & Hrun1 & Htr1 & Hcs1 & Hskip1 & Hdue1).
  destruct (persist_step (truthy_opt assistant_msg) (graph.or_empty (user_id s))
              (graph.or_empty assistant_msg) history.assistant sid1 (route s) w1)
    as (sid2 & w2 & d2 & Hrun2 & Htr2 & Hcs2 & Hskip2 & Hdue2).
  exists sid2, w2.
  assert (Hnew : new_effects w w2 = (d1 ++ d2)%list).
  { apply new_effects_app. now rewrite Htr2, Htr1, app_assoc. }
  rewrite Hnew, saved_app, allocated_app.
  split.
  { unfold bind, try_except in Hrun1, Hrun2 |- *.
    rewrite Hrun1. cbv beta iota. rewrite Hrun2. reflexivity. }
  split; [congruence|].
  destruct (truthy user_msg) eqn:Hum; destruct (truthy_opt assistant_msg) eqn:Ham.
  - destruct (Hdue1 eq_refl) as (a & id1 & -> & Ha & Hs1 & Hg1 & Hf1).
    destruct (Hdue2 eq_refl) as (b & id2 & -> & Hb & Hs2 & Hg2 & Hf2).
    cbn [truthy_opt] in Hg2. destruct (Hg2 Ha) as [Hab Hal2].
    injection Hab as <-. rewrite Hs1, Hs2, Hal2.
    split; [reflexivity|]. split.
    { intros m [<- | [<- | []]]; split; reflexivity. }
    split.
    + intro Hgiven. destruct (Hg1 Hgiven) as [-> ->]. split; reflexivity.
    + intro Hgiven. split; [discriminate|]. intros _. exists a.
      destruct (Hf1 Hgiven) as [Hal1 [rest Hd1]]. rewrite Hal1.
      split; [reflexivity|]. split; [assumption|]. split; [reflexivity|].
      exists (rest ++ d2)%list. now rewrite Hd1.
  - destruct (Hdue1 eq_refl) as (a & id1 & -> & Ha & Hs1 & Hg1 & Hf1).
    destruct (Hskip2 eq_refl) as [-> ->].
    rewrite Hs1. cbn [allocated saved app map]. rewrite !app_nil_r.
    split; [reflexivity|]. split.
    { intros m [<- | []]; split; reflexivity. }
    split.
    + intro Hgiven. destruct (Hg1 Hgiven) as [-> ->]. split; reflexivity.
    + intro Hgiven. split; [discriminate|]. intros _. exists a.
      destruct (Hf1 Hgiven) as [Hal1 [rest Hd1]]. rewrite Hal1.
      split; [reflexivity|]. split; [assumption|]. split; [reflexivity|].
      exists rest. now rewrite Hd1.
  - destruct (Hskip1 eq_refl) as [-> ->].
    destruct (Hdue2 eq_refl) as (b & id2 & -> & Hb & Hs2 & Hg2 & Hf2).
    rewrite Hs2. cbn [allocated saved app map].
    split; [reflexivity|]. split.
    { intros m [<- | []]; split; reflexivity. }
    split.
    + intro Hgiven. destruct (Hg2 Hgiven) as [-> ->]. split; reflexivity.
    + intro Hgiven. split; [discriminate|]. intros _. exists b.
      destruct (Hf2 Hgiven) as [Hal2 [rest Hd2]]. rewrite Hal2.
      split; [reflexivity|]. split; [assumption|]. split; [reflexivity|].
      exists rest. now rewrite Hd2.
  - destruct (Hskip1 eq_refl) as [-> ->].
    destruct (Hskip2 eq_refl) as [-> ->].
    cbn [allocated saved app map].
    split; [reflexivity|]. split; [intros m []|].
    split; [intros _; split; reflexivity|].
    intros _. split; [intros _; split; reflexivity|]. intro H. now destruct H.
Qed.

End Save.

(** ** The other nodes, one equation each *)

Lemma get_chat_history_result (s : ChatAgentState) (w : World) :
  graph.get_chat_history s w =
  (Ok (if has_error s then s
       else if truthy (graph.or_empty (user_id s))
            then set_chat_history s (Some "")
            else append_error s "Node get_chat_history: user_id missing"),
   w).
Proof.
  unfold graph.get_chat_history, graph.get_chat_history_work.
  destruct (has_error s); [reflexivity|].
  destruct (truthy (graph.or_empty (user_id s))); [|reflexivity].
  cbn [negb]. unfold db_helper.fetch_chat_history.
  destruct (truthy_opt (get_or (session_id s) "")); reflexivity.
Qed.

Lemma stream_final_response_result (s : ChatAgentState) (w : World) :
  graph.stream_final_response s w =
  (Ok s,
   if custom_stream w
   then mkWorld (draws w)
          (trace w ++ [Emitted (mkChunk "Done" (FinalResponse (graph.final_payload s)))])
          (custom_stream w)
   else w).
Proof.
  unfold graph.stream_final_response, graph.stream_final_response_work.
  monad_unfold. destruct (custom_stream w); reflexivity.
Qed.

Lemma rejection_handler_result (s : ChatAgentState) (w : World) :
  graph.rejection_handler s w =
  (Ok (if has_error s then s
       else set_final_answer s
              (Has (if truthy_opt (get (rejection_message s))
                    then graph.or_empty (get (rejection_message s))
                    else graph.rejection_fallback))),
   w).
Proof.
  unfold graph.rejection_handler, graph.rejection_handler_work.
  destruct (has_error s); [reflexivity|]. monad_unfold.
  destruct (get (rejection_message s)) as [text|]; [|reflexivity].
  cbn [truthy_opt graph.or_empty]. destruct (truthy text); reflexivity.
Qed.

Lemma longevity_clinical_trial_node_result (s : ChatAgentState) (w : World) :
  has_error s = false ->
  graph.longevity_clinical_trial_node s w =
  (Ok (set_final_answer s (Has "Detailed response from longevity_clinical_trial_tool")),
   mkWorld (draws w) (trace w ++ tool_effects w "longevity_clinical_trial_tool" s)
     (custom_stream w)).
Proof.
  intro He.
  unfold graph.longevity_clinical_trial_node, graph.longevity_clinical_trial_node_work,
    tools.longevity_clinical_trial_tool, tool_effects.
  rewrite He. monad_unfold.
  simpl (graph.is_error_status _). cbv iota.
  destruct (custom_stream w) eqn:Hc; cbn [draws trace custom_stream app];
    rewrite ?Hc, <- ?app_assoc; reflexivity.
Qed.

Lemma aging_biomarker_node_result (s : ChatAgentState) (w : World) :
  has_error s = false ->
  graph.aging_biomarker_node s w =
  (Ok (set_final_answer s (Has "Detailed response from aging_biomarker_tool")),
   mkWorld (draws w) (trace w ++ tool_effects w "aging_biomarker_tool" s)
     (custom_stream w)).
Proof.
  intro He.
  unfold graph.aging_biomarker_node, graph.aging_biomarker_node_work,
    tools.aging_biomarker_tool, tool_effects.
  rewrite He. monad_unfold.
  simpl (graph.is_error_status _). cbv iota.
  destruct (custom_stream w) eqn:Hc; cbn [draws trace custom_stream app];
    rewrite ?Hc, <- ?app_assoc; reflexivity.
Qed.

Section Model.
Variable E : Env.

Lemma general_knowledge_node_result (s : ChatAgentState) (w : World) :
  has_error s = false ->
  graph.general_knowledge_node E s w =
  match user_input s with
  | None => (Ok (append_error s "Node general_knowledge_node: 'user_input'"), w)
  | Some question =>
      (Ok match chat_model_invoke E (general_messages E question) with
          | Ok resp => set_final_answer s (Has (strip resp))
          | Raise e => append_error s ("Node general_knowledge_node: " ++ str_exc e)
          end,
       mkWorld (draws w) (trace w ++ [ModelInvoked (general_messages E question)])
         (custom_stream w))
  end.
Proof.
  intro He.
  unfold graph.general_knowledge_node, graph.general_knowledge_node_work,
    llm.answer_general, llm.invoke, general_messages.
  rewrite He. monad_unfold.
  destruct (user_input s) as [question|]; [|reflexivity].
  cbn [draws trace custom_stream].
  destruct (chat_model_invoke E _); reflexivity.
Qed.

(** [decide_route] raises what the chat model raises and nothing
    else. *)
Lemma decide_route_result (question history : string) (w : World) :
  llm.decide_route E question history w =
  (match chat_model_invoke E (routing_messages E question history) with
   | Ok resp => Ok (utils.parse_routing_decision E (strip resp))
   | Raise e => Raise e
   end,
   mkWorld (draws w) (trace w ++ [ModelInvoked (routing_messages E question history)])
     (custom_stream w)).
Proof.
  unfold llm.decide_route, llm.invoke, routing_messages. monad_unfold.
  cbn [draws trace custom_stream].
  destruct (chat_model_invoke E _); reflexivity.
Qed.

(** The three ways out of [classify_and_route]: the state as it
    came in, when an earlier node failed; the state with one more
    error; the state with the route and the rejection message that
    the classifier returned. *)
Lemma classify_and_route_shape (s s' : ChatAgentState) (w w' : World) :
  graph.classify_and_route E s w = (Ok s', w') ->
  (has_error s = true /\ s' = s /\ w' = w)
  \/ (has_error s = false /\ exists msg, s' = append_error s msg)
  \/ (has_error s = false
      /\ exists question history routing_output,
           user_input s = Some question /\ chat_history s = Some history
           /\ llm.decide_route E question history w = (Ok routing_output, w')
           /\ truthy_opt (models.error routing_output) = false
           /\ s' = set_rejection_message
                     (set_route s (Some (decision routing_output)))
                     (store (models.rejection_message routing_output))).
Proof.
  unfold graph.classify_and_route, graph.classify_and_route_work.
  destruct (has_error s) eqn:He.
  - intro H. injection H as <- <-. now left.
  - unfold try_except, bind, getitem, ret, raise.
    destruct (user_input s) as [question|].
    2:{ intro H. injection H as <- <-. right; left. eauto. }
    destruct (chat_history s) as [history|].
    2:{ intro H. injection H as <- <-. right; left. eauto. }
    destruct (llm.decide_route E question history w) as [[routing_output|e] w1] eqn:Hd.
    2:{ intro H. injection H as <- <-. right; left. eauto. }
    destruct (truthy_opt (models.error routing_output)) eqn:Herr;
      intro H; injection H as <- <-.
    + right; left. eauto.
    + right; right. split; [reflexivity|].
      exists question, history, routing_output. auto 7.
Qed.

Lemma classify_and_route_total (s : ChatAgentState) (w : World) :
  exists s' w', graph.classify_and_route E s w = (Ok s', w').
Proof.
  unfold graph.classify_and_route, graph.classify_and_route_work.
  destruct (has_error s); [unfold ret; eauto|].
  unfold try_except, bind, getitem, ret, raise.
  destruct (user_input s) as [question|]; [|eauto].
  destruct (chat_history s) as [history|]; [|eauto].
  destruct (llm.decide_route E question history w) as [[routing_output|e] w1]; [|eauto].
  destruct (truthy_opt (models.error routing_output)); eauto.
Qed.

End Model.

(** ** Every node returns *)

Section Graph.
Variable E : Env.

Lemma node_total (n : name.t) (s : ChatAgentState) (w : World) :
  exists s' w', graph.nodes (graph.build_graph E) n s w = (Ok s', w').
Proof.
  destruct n; cbn [graph.nodes graph.build_graph].
  - rewrite get_chat_history_result. eauto.
  - apply classify_and_route_total.
  - destruct (has_error s) eqn:He.
    + unfold graph.longevity_clinical_trial_node. rewrite He. unfold ret. eauto.
    + rewrite (longevity_clinical_trial_node_result s w He). eauto.
  - destruct (has_error s) eqn:He.
    + unfold graph.aging_biomarker_node. rewrite He. unfold ret. eauto.
    + rewrite (aging_biomarker_node_result s w He). eauto.
  - destruct (has_error s) eqn:He.
    + unfold graph.general_knowledge_node. rewrite He. unfold ret. eauto.
    + rewrite (general_knowledge_node_result E s w He).
      destruct (user_input s); eauto.
  - rewrite rejection_handler_result. eauto.
  - destruct (has_error s) eqn:He.
    + rewrite (save_chat_history_skips E s w He). eauto.
    + destruct (truthy (graph.or_empty (user_id s))) eqn:Hu.
      * destruct (save_chat_history_persists E s w He Hu) as (sid & w' & H & _). eauto.
      * rewrite (save_chat_history_without_user E s w He Hu). eauto.
  - rewrite stream_final_response_result. eauto.
Qed.

(** What an answer node leaves behind: the state as it came in,
    when an earlier node failed; or one more error; or an answer. *)
Lemma answer_node_shape (n : name.t) (s s' : ChatAgentState) (w w' : World) :
  In n answer_nodes ->
  graph.nodes (graph.build_graph E) n s w = (Ok s', w') ->
  (has_error s = true /\ s' = s)
  \/ (exists msg, s' = append_error s msg)
  \/ (exists text, s' = set_final_answer s (Has text)).
Proof.
  intros Hn. unfold answer_nodes in Hn.
  destruct Hn as [<- | [<- | [<- | [<- | []]]]]; cbn [graph.nodes graph.build_graph];
    destruct (has_error s) eqn:He.
  - unfold graph.aging_biomarker_node, ret. rewrite He.
    intro H; injection H as <- <-. now left.
  - rewrite (aging_biomarker_node_result s w He).
    intro H; injection H as <- <-. right; right. eauto.
  - unfold graph.longevity_clinical_trial_node, ret. rewrite He.
    intro H; injection H as <- <-. now left.
  - rewrite (longevity_clinical_trial_node_result s w He).
    intro H; injection H as <- <-. right; right. eauto.
  - unfold graph.general_knowledge_node, ret. rewrite He.
    intro H; injection H as <- <-. now left.
  - rewrite (general_knowledge_node_result E s w He).
    destruct (user_input s) as [question|].
    + destruct (chat_model_invoke E (general_messages E question));
        intro H; injection H as <- <-; [right; right | right; left]; eauto.
    + intro H; injection H as <- <-. right; left. eauto.
  - rewrite rejection_handler_result, He.
    intro H; injection H as <- <-. now left.
  - rewrite rejection_handler_result, He.
    intro H; injection H as <- <-. right; right. eauto.
Qed.

(** What [save_chat_history] leaves behind. *)
Lemma save_chat_history_shape (s s' : ChatAgentState) (w w' : World) :
  graph.save_chat_history E s w = (Ok s', w') ->
  (has_error s = true /\ s' = s)
  \/ (has_error s = false /\ exists msg, s' = append_error s msg)
  \/ (has_error s = false /\ exists v, s' = set_session_id s v).
Proof.
  destruct (has_error s) eqn:He.
  - rewrite (save_chat_history_skips E s w He). intro H; injection H as <- <-. now left.
  - destruct (truthy (graph.or_empty (user_id s))) eqn:Hu.
    + destruct (save_chat_history_persists E s w He Hu) as (sid & w1 & -> & _).
      intro H; injection H as <- <-. right; right. eauto.
    + rewrite (save_chat_history_without_user E s w He Hu).
      intro H; injection H as <- <-. right; left. eauto.
Qed.

(** ** A run of the graph, node by node *)

Lemma run_from_node (k : nat) (n : name.t) (s s' : ChatAgentState) (w w' : World) :
  graph.nodes (graph.build_graph E) n s w = (Ok s', w') ->
  graph.run_from (graph.build_graph E) (S k) n s w =
  match graph.edges (graph.build_graph E) n s' with
  | Some next =>
      match graph.run_from (graph.build_graph E) k next s' w' with
      | (Ok rest, w'') => (Ok ((n, s') :: rest), w'')
      | (Raise e, w'') => (Raise e, w'')
      end
  | None => (Ok [(n, s')], w')
  end.
Proof.
  intro H. cbn [graph.run_from]. unfold bind at 1. rewrite H.
  destruct (graph.edges (graph.build_graph E) n s'); reflexivity.
Qed.

(** Every run goes through the same five stations: history,
    classification, the one answer node that the route selects,
    persistence, and the streamed end when streaming was asked for. *)
Lemma run_stations (custom : bool) (s0 : ChatAgentState) (w0 : World) :
  exists s1 w1 s2 w2 s3 w3 s4 w4 w5,
    graph.get_chat_history s0 (mkWorld (draws w0) (trace w0) custom) = (Ok s1, w1)
    /\ graph.classify_and_route E s1 w1 = (Ok s2, w2)
    /\ graph.nodes (graph.build_graph E) (graph.route_map (graph.route_key s2)) s2 w2
       = (Ok s3, w3)
    /\ graph.save_chat_history E s3 w3 = (Ok s4, w4)
    /\ graph.stream_final_response s4 w4 = (Ok s4, w5)
    /\ graph.run (graph.build_graph E) custom s0 w0 =
       if graph.streaming_key s4
       then (Ok [(name.get_chat_history, s1); (name.classify_and_route, s2);
                 (graph.route_map (graph.route_key s2), s3);
                 (name.save_chat_history, s4); (name.stream_final_response, s4)], w5)
       else (Ok [(name.get_chat_history, s1); (name.classify_and_route, s2);
                 (graph.route_map (graph.route_key s2), s3);
                 (name.save_chat_history, s4)], w4).
Proof.
  set (g := graph.build_graph E).
  destruct (node_total name.get_chat_history s0 (mkWorld (draws w0) (trace w0) custom))
    as (s1 & w1 & H1).
  destruct (node_total name.classify_and_route s1 w1) as (s2 & w2 & H2).
  destruct (node_total (graph.route_map (graph.route_key s2)) s2 w2) as (s3 & w3 & H3).
  destruct (node_total name.save_chat_history s3 w3) as (s4 & w4 & H4).
  assert (H5 := stream_final_response_result s4 w4).
  exists s1, w1, s2, w2, s3, w3, s4, w4. eexists.
  split; [exact H1|]. split; [exact H2|]. split; [exact H3|]. split; [exact H4|].
  split; [exact H5|].
  unfold graph.run, graph.set_stream_mode. unfold bind at 1.
  change graph.recursion_limit with (S (S (S (S (S 20))))).
  change (graph.entry_point (graph.build_graph E)) with name.get_chat_history.
  rewrite (run_from_node _ _ _ _ _ _ H1).
  change (graph.edges (graph.build_graph E) name.get_chat_history s1)
    with (Some name.classify_and_route).
  cbv iota. rewrite (run_from_node _ _ _ _ _ _ H2).
  change (graph.edges (graph.build_graph E) name.classify_and_route s2)
    with (Some (graph.route_map (graph.route_key s2))).
  cbv iota. rewrite (run_from_node _ _ _ _ _ _ H3).
  assert (Hedge : graph.edges (graph.build_graph E)
                    (graph.route_map (graph.route_key s2)) s3
                  = Some name.save_chat_history).
  { destruct (graph.route_key s2); reflexivity. }
  rewrite Hedge. cbv iota. rewrite (run_from_node _ _ _ _ _ _ H4).
  change (graph.edges (graph.build_graph E) name.save_chat_history s4)
    with (graph.streaming_map (graph.streaming_key s4)).
  destruct (graph.streaming_key s4); cbn [graph.streaming_map]; [|reflexivity].
  assert (H5' : graph.nodes (graph.build_graph E) name.stream_final_response s4 w4
                = (Ok s4, _)) by exact H5.
  rewrite (run_from_node _ _ _ _ _ _ H5'). reflexivity.
Qed.

End Graph.

(** ** The routing branch *)

(** After an error every node but the last returns the state and the
    world as they came in. *)
Lemma node_skips (E : Env) (n : name.t) (s : ChatAgentState) (w : World) :
  n <> name.stream_final_response -> has_error s = true ->
  graph.nodes (graph.build_graph E) n s w = (Ok s, w).
Proof.
  intros Hn He.
  destruct n; cbn [graph.nodes graph.build_graph]; try congruence;
    [unfold graph.get_chat_history | unfold graph.classify_and_route
    | unfold graph.longevity_clinical_trial_node | unfold graph.aging_biomarker_node
    | unfold graph.general_knowledge_node | unfold graph.rejection_handler
    | unfold graph.save_chat_history]; rewrite He; reflexivity.
Qed.

(** C1 (amended).  The branch after classification is total: every
    state that [classify_and_route] returns is sent to exactly one of
    the four answer nodes.  When the route is unset in that state, the
    branch selects the GeneralKnowledge node, the default of its
    lookup; the route is unset only after an error, so [errors] is
    non-empty there, and every node that follows and tests for a prior
    error (all but the streamed end) returns the state and the world
    unchanged: no answer is guessed. *)
Theorem unrouted_turn_takes_general_knowledge_path
    (E : Env) (s s' : ChatAgentState) (w w' : World) :
  graph.classify_and_route E s w = (Ok s', w') ->
  (exists n,
     graph.edges (graph.build_graph E) name.classify_and_route s' = Some n
     /\ In n answer_nodes)
  /\ (route s' = None ->
      graph.edges (graph.build_graph E) name.classify_and_route s'
        = Some name.general_knowledge_node
      /\ has_error s' = true
      /\ forall n w2,
           n <> name.stream_final_response ->
           graph.nodes (graph.build_graph E) n s' w2 = (Ok s', w2)).
Proof.
  intro Hrun. split.
  - exists (graph.route_map (graph.route_key s')). split; [reflexivity|].
    unfold answer_nodes. destruct (graph.route_key s'); cbn; auto.
  - intro Hroute.
    assert (He : has_error s' = true).
    { destruct (classify_and_route_shape E s s' w w' Hrun)
        as [(He & -> & _) | [(_ & msg & ->) | (_ & q & h & ro & _ & _ & _ & _ & ->)]].
      - exact He.
      - apply has_error_append_error.
      - discriminate Hroute. }
    split; [|split; [exact He|]].
    + cbn [graph.edges graph.build_graph]. unfold graph.route_key.
      now rewrite Hroute.
    + intros n w2 Hn. now apply node_skips.
Qed.

Lemma unrouted_turn_takes_general_knowledge_path_witness :
  graph.classify_and_route scenario.model_down (scenario.loaded false) (scenario.start false)
    = (Ok (scenario.failed false),
       snd (graph.classify_and_route scenario.model_down (scenario.loaded false)
              (scenario.start false)))
  /\ route (scenario.failed false) = None
  /\ graph.edges (graph.build_graph scenario.model_down) name.classify_and_route
       (scenario.failed false) = Some name.general_knowledge_node
  /\ has_error (scenario.failed false) = true
  /\ graph.nodes (graph.build_graph scenario.model_down) name.general_knowledge_node
       (scenario.failed false) (scenario.start false)
     = (Ok (scenario.failed false), scenario.start false).
Proof.
  assert (Hrun : graph.classify_and_route scenario.model_down (scenario.loaded false)
                   (scenario.start false)
                 = (Ok (scenario.failed false),
                    snd (graph.classify_and_route scenario.model_down
                           (scenario.loaded false) (scenario.start false))))
    by reflexivity.
  destruct (unrouted_turn_takes_general_knowledge_path
              scenario.model_down (scenario.loaded false) _ (scenario.start false) _ Hrun)
    as [_ Hunset].
  destruct (Hunset eq_refl) as (Hedge & He & Hskip).
  split; [exact Hrun|]. split; [reflexivity|]. split; [exact Hedge|].
  split; [exact He|]. apply Hskip. discriminate.
Defined.

(** C1, as stated, fails: after a classification that failed the
    route is unset, and the branch selects the GeneralKnowledge node,
    which is not the Rejection node. *)
Lemma unrouted_turn_not_sent_to_rejection :
  fst (graph.classify_and_route scenario.model_down (scenario.loaded false)
         (scenario.start false))
    = Ok (scenario.failed false)
  /\ route (scenario.failed false) = None
  /\ graph.edges (graph.build_graph scenario.model_down) name.classify_and_route
       (scenario.failed false) = Some name.general_knowledge_node
  /\ graph.edges (graph.build_graph scenario.model_down) name.classify_and_route
       (scenario.failed false) <> Some name.rejection_handler.
Proof.
  split; [reflexivity|]. split; [reflexivity|]. split; [reflexivity|]. discriminate.
Qed.

(** ** The rejection message *)

(** C9 (amended).  The rejection message is written by a successful
    classification and by nothing else.  When [classify_and_route]
    is given a state without error that holds the question and the
    history, and the classifier's reply parses without error, the
    node returns the state with the route set to the decision and
    with the rejection message that the classifier returned with it,
    [None] when it returned none: the message is stored for every
    route, not only for a rejection.  A classification that was
    skipped returns the state as it is; one that ends with an error
    leaves route and rejection message as they were; and one that
    ends without error is a successful one.  No other node of the
    graph changes the rejection message. *)
Theorem rejection_message_follows_classifier (E : Env) (s : ChatAgentState) (w : World) :
  (forall question history resp,
      has_error s = false ->
      user_input s = Some question -> chat_history s = Some history ->
      chat_model_invoke E (routing_messages E question history) = Ok resp ->
      truthy_opt (models.error (utils.parse_routing_decision E (strip resp))) = false ->
      exists w',
        graph.classify_and_route E s w
        = (Ok (set_rejection_message
                 (set_route s
                    (Some (decision (utils.parse_routing_decision E (strip resp)))))
                 (store (models.rejection_message
                           (utils.parse_routing_decision E (strip resp))))),
           w')
        /\ route (set_rejection_message
                    (set_route s
                       (Some (decision (utils.parse_routing_decision E (strip resp)))))
                    (store (models.rejection_message
                              (utils.parse_routing_decision E (strip resp)))))
           = Some (decision (utils.parse_routing_decision E (strip resp)))
        /\ rejection_message
             (set_rejection_message
                (set_route s
                   (Some (decision (utils.parse_routing_decision E (strip resp)))))
                (store (models.rejection_message
                          (utils.parse_routing_decision E (strip resp)))))
           = store (models.rejection_message
                      (utils.parse_routing_decision E (strip resp))))
  /\ (has_error s = true -> graph.classify_and_route E s w = (Ok s, w))
  /\ (forall s' w',
        graph.classify_and_route E s w = (Ok s', w') ->
        has_error s' = true ->
        rejection_message s' = rejection_message s /\ route s' = route s)
  /\ (forall s' w',
        graph.classify_and_route E s w = (Ok s', w') ->
        has_error s' = false ->
        exists question history resp,
          user_input s = Some question /\ chat_history s = Some history
          /\ chat_model_invoke E (routing_messages E question history) = Ok resp
          /\ truthy_opt (models.error (utils.parse_routing_decision E (strip resp)))
             = false
          /\ route s' = Some (decision (utils.parse_routing_decision E (strip resp)))
          /\ rejection_message s'
             = store (models.rejection_message
                        (utils.parse_routing_decision E (strip resp))))
  /\ (forall n s' w',
        n <> name.classify_and_route ->
        graph.nodes (graph.build_graph E) n s w = (Ok s', w') ->
        rejection_message s' = rejection_message s).
Proof.
  split; [|split; [|split; [|split]]].
  - intros question history resp He Hq Hh Hm Hp.
    unfold graph.classify_and_route, graph.classify_and_route_work.
    rewrite He. unfold try_except, bind, getitem, ret, raise.
    rewrite Hq, Hh, decide_route_result, Hm, Hp.
    eexists. split; [reflexivity|]. split; reflexivity.
  - intro He. unfold graph.classify_and_route. now rewrite He.
  - intros s' w' Hrun He'.
    destruct (classify_and_route_shape E s s' w w' Hrun)
      as [(_ & -> & _) | [(_ & msg & ->) | (He & q & h & ro & _ & _ & _ & _ & ->)]].
    + split; reflexivity.
    + split; reflexivity.
    + change (has_error s = true) in He'. congruence.
  - intros s' w' Hrun He'.
    destruct (classify_and_route_shape E s s' w w' Hrun)
      as [(He & -> & _) | [(_ & msg & ->) | (He & q & h & ro & Hq & Hh & Hd & Hp & ->)]].
    + congruence.
    + rewrite has_error_append_error in He'. discriminate.
    + rewrite decide_route_result in Hd.
      destruct (chat_model_invoke E (routing_messages E q h)) as [resp|e] eqn:Hm;
        [|discriminate].
      injection Hd as <- _. exists q, h, resp.
      split; [exact Hq|]. split; [exact Hh|]. split; [exact Hm|].
      split; [exact Hp|]. split; reflexivity.
  - intros n s' w' Hn Hrun.
    assert (Hanswer : In n answer_nodes -> rejection_message s' = rejection_message s).
    { intro Hin. destruct (answer_node_shape E n s s' w w' Hin Hrun)
        as [(_ & ->) | [(msg & ->) | (text & ->)]]; reflexivity. }
    destruct n;
      try (exfalso; apply Hn; reflexivity);
      try (apply Hanswer; unfold answer_nodes; cbn; tauto);
      cbn [graph.nodes graph.build_graph] in Hrun.
    + rewrite get_chat_history_result in Hrun. injection Hrun as <- _.
      destruct (has_error s); [reflexivity|].
      destruct (truthy (graph.or_empty (user_id s))); reflexivity.
    + destruct (save_chat_history_shape E s s' w w' Hrun)
        as [(_ & ->) | [(_ & msg & ->) | (_ & v & ->)]]; reflexivity.
    + rewrite stream_final_response_result in Hrun. now injection Hrun as <- _.
Qed.

Lemma rejection_message_follows_classifier_witness :
  has_error (scenario.loaded false) = false
  /\ truthy_opt
       (models.error
          (utils.parse_routing_decision scenario.model_general_with_message
             (strip scenario.reply_general_with_message))) = false
  /\ exists w',
       graph.classify_and_route scenario.model_general_with_message
         (scenario.loaded false) (scenario.start false)
       = (Ok scenario.routed_general_with_message, w')
       /\ route scenario.routed_general_with_message = Some general_knowledge
       /\ rejection_message scenario.routed_general_with_message
          = Has "Please ask about longevity.".
Proof.
  split; [reflexivity|]. split; [reflexivity|].
  exact (proj1 (rejection_message_follows_classifier
                  scenario.model_general_with_message (scenario.loaded false)
                  (scenario.start false))
           "What is a telomere?" "" scenario.reply_general_with_message
           eq_refl eq_refl eq_refl eq_refl eq_refl).
Defined.

(** C9, as stated, fails: the classifier routes the turn to general
    knowledge and fills [rejection_message]; the state then holds a
    rejection message although the route is not a rejection. *)
Lemma rejection_message_set_without_rejection :
  utils.parse_routing_decision scenario.model_general_with_message
    scenario.reply_general_with_message
    = mkRouterOutput general_knowledge "greeting" (Some "Please ask about longevity.") None
  /\ fst (graph.classify_and_route scenario.model_general_with_message
            (scenario.loaded false) (scenario.start false))
     = Ok scenario.routed_general_with_message
  /\ route scenario.routed_general_with_message = Some general_knowledge
  /\ route scenario.routed_general_with_message <> Some models.rejection_handler
  /\ rejection_message scenario.routed_general_with_message
     = Has "Please ask about longevity.".
Proof.
  split; [reflexivity|]. split; [reflexivity|].
  split; [reflexivity|]. split; [discriminate | reflexivity].
Qed.

(** ** Progress events *)

(** C3 (amended).  In streaming mode each of the two tool nodes that
    runs (no prior error) first emits the progress event that names
    its tool and then starts the tool: these are its effects, in this
    order.  The GeneralKnowledge node and the Rejection node emit no
    progress event, in any mode and on any state. *)
Theorem tool_nodes_announce_before_lookup (E : Env) (s : ChatAgentState) (w : World) :
  (has_error s = false ->
   custom_stream w = true ->
   (exists s' w',
      graph.longevity_clinical_trial_node s w = (Ok s', w')
      /\ new_effects w w' =
         [Emitted (mkChunk "Researching information using longevity_clinical_trial_tool"
                     EmptyResponse);
          ToolStarted "longevity_clinical_trial_tool" (user_input s) (user_id s)])
   /\ (exists s' w',
         graph.aging_biomarker_node s w = (Ok s', w')
         /\ new_effects w w' =
            [Emitted (mkChunk "Researching information using aging_biomarker_tool"
                        EmptyResponse);
             ToolStarted "aging_biomarker_tool" (user_input s) (user_id s)]))
  /\ (exists s' w',
        graph.general_knowledge_node E s w = (Ok s', w')
        /\ emitted (new_effects w w') = [])
  /\ (exists s' w',
        graph.rejection_handler s w = (Ok s', w')
        /\ emitted (new_effects w w') = []).
Proof.
  split; [|split].
  - intros He Hc. split.
    + rewrite (longevity_clinical_trial_node_result s w He).
      do 2 eexists. split; [reflexivity|].
      erewrite new_effects_app by reflexivity. unfold tool_effects. now rewrite Hc.
    + rewrite (aging_biomarker_node_result s w He).
      do 2 eexists. split; [reflexivity|].
      erewrite new_effects_app by reflexivity. unfold tool_effects. now rewrite Hc.
  - destruct (has_error s) eqn:He.
    + exists s, w. split; [|now rewrite new_effects_none].
      unfold graph.general_knowledge_node. now rewrite He.
    + rewrite (general_knowledge_node_result E s w He).
      destruct (user_input s) as [question|]; do 2 eexists; (split; [reflexivity|]).
      * erewrite new_effects_app by reflexivity. reflexivity.
      * now rewrite new_effects_none.
  - rewrite rejection_handler_result. do 2 eexists. split; [reflexivity|].
    now rewrite new_effects_none.
Qed.

Lemma tool_nodes_announce_before_lookup_witness :
  has_error (scenario.routed_general true) = false
  /\ custom_stream (scenario.start true) = true
  /\ (exists s' w',
        graph.aging_biomarker_node (scenario.routed_general true) (scenario.start true)
          = (Ok s', w')
        /\ new_effects (scenario.start true) w' =
           [Emitted (mkChunk "Researching information using aging_biomarker_tool"
                       EmptyResponse);
            ToolStarted "aging_biomarker_tool"
              (user_input (scenario.routed_general true))
              (user_id (scenario.routed_general true))]).
Proof.
  split; [reflexivity|]. split; [reflexivity|].
  exact (proj2 (proj1 (tool_nodes_announce_before_lookup scenario.model_chats
                         (scenario.routed_general true) (scenario.start true))
                  eq_refl eq_refl)).
Defined.

(** C3, as stated, fails: in streaming mode the GeneralKnowledge node
    runs, asks the chat model and sets the answer, and no progress
    event is emitted. *)
Lemma general_knowledge_node_announces_nothing :
  has_error (scenario.routed_general true) = false
  /\ custom_stream (scenario.start true) = true
  /\ fst (graph.general_knowledge_node scenario.model_chats
            (scenario.routed_general true) (scenario.start true))
     = Ok (set_final_answer (scenario.routed_general true)
             (Has "Telomeres shorten with age."))
  /\ new_effects (scenario.start true)
       (snd (graph.general_knowledge_node scenario.model_chats
               (scenario.routed_general true) (scenario.start true)))
     = [ModelInvoked (general_messages scenario.model_chats "What is a telomere?")]
  /\ emitted
       (new_effects (scenario.start true)
          (snd (graph.general_knowledge_node scenario.model_chats
                  (scenario.routed_general true) (scenario.start true))))
     = [].
Proof. repeat split. Qed.

(** ** Persistence *)

(** C2 (amended).  SaveHistory is skipped whenever [errors] is
    non-empty: it returns the state and the world as they came in, and
    persists nothing, whatever [userId] is.  With [errors] empty and
    [userId] empty it records its own error and persists nothing.
    With [errors] empty and [userId] non-empty it persists the user
    message when that is non-empty, then the answer when that is
    non-empty, tagged with the route, and changes the state in
    [session_id] alone. *)
Theorem save_chat_history_runs_only_without_errors
    (E : Env) (s : ChatAgentState) (w : World) :
  (has_error s = true -> graph.save_chat_history E s w = (Ok s, w))
  /\ (has_error s = false -> truthy (graph.or_empty (user_id s)) = false ->
      graph.save_chat_history E s w =
      (Ok (append_error s "Node save_chat_history: user_id is missing"), w))
  /\ (has_error s = false -> truthy (graph.or_empty (user_id s)) = true ->
      exists session_id' w',
        graph.save_chat_history E s w = (Ok (set_session_id s (store session_id')), w')
        /\ map saved_summary (saved (new_effects w w'))
           = (due_user_message s ++ due_assistant_message s)%list).
Proof.
  split; [apply save_chat_history_skips|].
  split; [apply save_chat_history_without_user|].
  intros He Hu.
  destruct (save_chat_history_persists E s w He Hu) as (sid & w' & Hrun & _ & Hsaved & _).
  eauto.
Qed.

Lemma save_chat_history_runs_only_without_errors_witness :
  has_error (scenario.failed false) = true
  /\ graph.save_chat_history scenario.model_chats (scenario.failed false)
       (scenario.start false)
     = (Ok (scenario.failed false), scenario.start false)
  /\ has_error (scenario.routed_general false) = false
  /\ truthy (graph.or_empty (user_id (scenario.routed_general false))) = true
  /\ exists session_id' w',
       graph.save_chat_history scenario.model_chats (scenario.routed_general false)
         (scenario.start false)
       = (Ok (set_session_id (scenario.routed_general false) (store session_id')), w')
       /\ map saved_summary (saved (new_effects (scenario.start false) w'))
          = [(history.user, "What is a telomere?", None)].
Proof.
  split; [reflexivity|].
  split; [exact (proj1 (save_chat_history_runs_only_without_errors scenario.model_chats
                          (scenario.failed false) (scenario.start false)) eq_refl)|].
  split; [reflexivity|]. split; [reflexivity|].
  exact (proj2 (proj2 (save_chat_history_runs_only_without_errors scenario.model_chats
                         (scenario.routed_general false) (scenario.start false)))
           eq_refl eq_refl).
Defined.

(** C2, as stated, fails: with a non-empty [userId], a non-empty user
    message and a non-empty [errors], SaveHistory returns the state
    unchanged and persists nothing. *)
Lemma save_chat_history_skipped_after_error :
  truthy (graph.or_empty (user_id (scenario.failed false))) = true
  /\ truthy (graph.or_empty (user_input (scenario.failed false))) = true
  /\ errors (scenario.failed false) = ["Node classify_and_route: Connection error."]
  /\ graph.save_chat_history scenario.model_down (scenario.failed false)
       (scenario.start false)
     = (Ok (scenario.failed false), scenario.start false)
  /\ saved
       (new_effects (scenario.start false)
          (snd (graph.save_chat_history scenario.model_down (scenario.failed false)
                  (scenario.start false))))
     = [].
Proof. repeat split. Qed.

(** C7 (amended).  When SaveHistory runs (no prior error, a non-empty
    [userId]) on a turn without session identifier and with a user
    message or an answer to persist, exactly one session identifier is
    created; its creation is the first effect of the node, before the
    first message is built; every message of the turn is built under
    it, the user message before the answer; it is non-empty and is
    stored in the state; and the only node that can follow,
    [stream_final_response], returns the state unchanged. *)
Theorem save_chat_history_allocates_one_session
    (E : Env) (s : ChatAgentState) (w : World) :
  has_error s = false ->
  truthy (graph.or_empty (user_id s)) = true ->
  truthy_opt (get (session_id s)) = false ->
  (due_user_message s ++ due_assistant_message s)%list <> [] ->
  exists sid w',
    graph.save_chat_history E s w = (Ok (set_session_id s (Has sid)), w')
    /\ truthy sid = true
    /\ allocated (new_effects w w') = [sid]
    /\ (exists rest, new_effects w w' = SessionAllocated sid :: rest)
    /\ map saved_summary (saved (new_effects w w'))
       = (due_user_message s ++ due_assistant_message s)%list
    /\ (forall m, In m (saved (new_effects w w')) -> history.session_id m = sid)
    /\ (forall w2,
          fst (graph.stream_final_response (set_session_id s (Has sid)) w2)
          = Ok (set_session_id s (Has sid))).
Proof.
  intros He Hu Hnone Hdue.
  destruct (save_chat_history_persists E s w He Hu)
    as (sid' & w' & Hrun & _ & Hsaved & Hunder & _ & Hfresh).
  destruct (Hfresh Hnone) as [_ Hcreate].
  destruct (Hcreate Hdue) as (sid & -> & Hsid & Halloc & Hfirst).
  exists sid, w'. split; [exact Hrun|]. split; [exact Hsid|].
  split; [exact Halloc|]. split; [exact Hfirst|]. split; [exact Hsaved|].
  split.
  - intros m Hm. destruct (Hunder m Hm) as [_ H]. now injection H.
  - intro w2. now rewrite stream_final_response_result.
Qed.

Lemma save_chat_history_allocates_one_session_witness :
  has_error (scenario.routed_general false) = false
  /\ truthy (graph.or_empty (user_id (scenario.routed_general false))) = true
  /\ truthy_opt (get (session_id (scenario.routed_general false))) = false
  /\ (due_user_message (scenario.routed_general false)
        ++ due_assistant_message (scenario.routed_general false))%list <> []
  /\ exists sid w',
       graph.save_chat_history scenario.model_chats (scenario.routed_general false)
         (scenario.start false)
       = (Ok (set_session_id (scenario.routed_general false) (Has sid)), w')
       /\ truthy sid = true
       /\ allocated (new_effects (scenario.start false) w') = [sid].
Proof.
  assert (Hdue : (due_user_message (scenario.routed_general false)
                    ++ due_assistant_message (scenario.routed_general false))%list <> [])
    by discriminate.
  split; [reflexivity|]. split; [reflexivity|]. split; [reflexivity|].
  split; [exact Hdue|].
  destruct (save_chat_history_allocates_one_session scenario.model_chats
              (scenario.routed_general false) (scenario.start false)
              eq_refl eq_refl eq_refl Hdue)
    as (sid & w' & Hrun & Hsid & Halloc & _).
  exists sid, w'. auto.
Defined.

(** C7, as stated, fails: a turn without session identifier enters
    SaveHistory after an error; no identifier is created and the
    state still holds none. *)
Lemma no_session_allocated_after_error :
  get (session_id (scenario.failed false)) = None
  /\ fst (graph.save_chat_history scenario.model_down (scenario.failed false)
            (scenario.start false))
     = Ok (scenario.failed false)
  /\ allocated
       (new_effects (scenario.start false)
          (snd (graph.save_chat_history scenario.model_down (scenario.failed false)
                  (scenario.start false))))
     = []
  /\ session_id (scenario.failed false) = PyNone.
Proof. repeat split. Qed.

(** ** One answer per turn *)

Lemma slot_eqb_refl (a : Slot string) : slot_eqb a a = true.
Proof. destruct a; cbn; auto using String.eqb_refl. Qed.

Lemma get_chat_history_keeps_answer (s s' : ChatAgentState) (w w' : World) :
  graph.get_chat_history s w = (Ok s', w') -> final_answer s' = final_answer s.
Proof.
  rewrite get_chat_history_result. intro H. injection H as <- _.
  destruct (has_error s); [reflexivity|].
  destruct (truthy (graph.or_empty (user_id s))); reflexivity.
Qed.

(** C6.  In every run of the graph from the state of a new turn, at
    most one node changes [final_answer], that node is one of the four
    answer nodes, and when no node does, the final [errors] is
    non-empty. *)
Theorem one_answer_node_per_turn
    (E : Env) (user_input user_id : string) (session_id : option string)
    (streaming : bool) (w : World) :
  exists updates w',
    graph.run (graph.build_graph E) streaming
      (graph.initial_state user_input user_id session_id streaming) w
    = (Ok updates, w')
    /\ List.length
         (answer_writers (graph.initial_state user_input user_id session_id streaming)
            updates) <= 1
    /\ (forall n,
          In n (answer_writers
                  (graph.initial_state user_input user_id session_id streaming) updates) ->
          In n answer_nodes)
    /\ (answer_writers (graph.initial_state user_input user_id session_id streaming)
          updates = [] ->
        errors (graph.last_state updates
                  (graph.initial_state user_input user_id session_id streaming)) <> []).
Proof.
  set (s0 := graph.initial_state user_input user_id session_id streaming).
  destruct (run_stations E streaming s0 w)
    as (s1 & w1 & s2 & w2 & s3 & w3 & s4 & w4 & w5 & H1 & H2 & H3 & H4 & H5 & Hrun).
  set (n := graph.route_map (graph.route_key s2)) in *.
  assert (Hn : In n answer_nodes).
  { unfold n, answer_nodes. destruct (graph.route_key s2); cbn; auto. }
  (* history and classification leave the answer alone *)
  assert (F1 : final_answer s1 = Missing).
  { now rewrite (get_chat_history_keeps_answer _ _ _ _ H1). }
  assert (F2 : final_answer s2 = Missing).
  { destruct (classify_and_route_shape E s1 s2 w1 w2 H2)
      as [(_ & -> & _) | [(_ & msg & ->) | (_ & q & h & ro & _ & _ & _ & _ & ->)]];
      exact F1. }
  (* persistence leaves the answer alone and keeps an error *)
  assert (F4 : final_answer s4 = final_answer s3 /\ (has_error s3 = true -> s4 = s3)).
  { destruct (save_chat_history_shape E s3 s4 w3 w4 H4)
      as [(He & ->) | [(He & msg & ->) | (He & v & ->)]];
      (split; [reflexivity|]); intro H; congruence. }
  destruct F4 as [F4 K4].
  (* the answer node *)
  assert (F3 : (slot_eqb (final_answer s2) (final_answer s3) = true /\ has_error s3 = true)
               \/ slot_eqb (final_answer s2) (final_answer s3) = false).
  { destruct (answer_node_shape E n s2 s3 w2 w3 Hn H3) as [(He & ->) | [(msg & ->) | (text & ->)]].
    - left. split; [apply slot_eqb_refl | exact He].
    - left. split; [apply slot_eqb_refl | apply has_error_append_error].
    - right. cbn [final_answer set_final_answer]. now rewrite F2. }
  assert (W : forall tail : list graph.Update,
            (forall a b, In (a, b) tail -> b = s4) ->
            answer_writers s0
              ((name.get_chat_history, s1) :: (name.classify_and_route, s2) :: (n, s3)
                 :: (name.save_chat_history, s4) :: tail)
            = if slot_eqb (final_answer s2) (final_answer s3) then [] else [n]).
  { intros tail Htail. cbn [answer_writers].
    change (final_answer s0) with (@Missing string).
    rewrite F1, F2. cbn [slot_eqb]. rewrite F4, slot_eqb_refl.
    assert (T : answer_writers s4 tail = []).
    { destruct tail as [|[a b] [|c tail]]; [reflexivity| |].
      - cbn [answer_writers]. rewrite (Htail a b (or_introl eq_refl)).
        now rewrite slot_eqb_refl.
      - cbn [answer_writers]. rewrite (Htail a b (or_introl eq_refl)).
        rewrite slot_eqb_refl. destruct c as [c d].
        rewrite (Htail c d (or_intror (or_introl eq_refl))).
        rewrite slot_eqb_refl.
        clear - Htail. induction tail as [|[x y] tail IH]; [reflexivity|].
        cbn [answer_writers].
        rewrite (Htail x y (or_intror (or_intror (or_introl eq_refl)))).
        rewrite slot_eqb_refl. apply IH.
        intros a' b' [Hin | [Hin | Hin]]; eapply Htail; cbn; eauto. }
    rewrite T. destruct (slot_eqb Missing (final_answer s3)); reflexivity. }
  assert (L : forall updates,
            updates = [(name.get_chat_history, s1); (name.classify_and_route, s2); (n, s3);
                       (name.save_chat_history, s4)]
            \/ updates = [(name.get_chat_history, s1); (name.classify_and_route, s2);
                          (n, s3); (name.save_chat_history, s4);
                          (name.stream_final_response, s4)] ->
            answer_writers s0 updates
              = (if slot_eqb (final_answer s2) (final_answer s3) then [] else [n])
            /\ graph.last_state updates s0 = s4).
  { intros updates [-> | ->]; (split; [|reflexivity]); apply W.
    - intros a b [].
    - intros a b [H | []]. now injection H. }
  assert (Hends : forall updates w',
            graph.run (graph.build_graph E) streaming s0 w = (Ok updates, w') ->
            answer_writers s0 updates
              = (if slot_eqb (final_answer s2) (final_answer s3) then [] else [n])
            /\ graph.last_state updates s0 = s4).
  { intros updates w' Hu. apply L. rewrite Hrun in Hu.
    destruct (graph.streaming_key s4); injection Hu as <- _; auto. }
  destruct (graph.run (graph.build_graph E) streaming s0 w) as [[updates|e] w'] eqn:Hr.
  2:{ destruct (graph.streaming_key s4); discriminate Hrun. }
  exists updates, w'. split; [reflexivity|].
  destruct (Hends updates w' eq_refl) as [-> ->].
  destruct F3 as [[-> He3] | ->]; cbn [List.length In].
  - split; [lia|]. split; [intros ? []|]. intros _.
    rewrite (K4 He3). now apply has_error_errors.
  - split; [lia|]. split; [intros ? [<- | []]; exact Hn|]. discriminate.
Qed.

(** ** Exceptions stop at the node *)

Lemma run_total (E : Env) (custom : bool) (s : ChatAgentState) (w : World) :
  exists updates w',
    graph.run (graph.build_graph E) custom s w = (Ok updates, w')
    /\ In name.save_chat_history (map fst updates)
    /\ List.last (map fst updates) name.get_chat_history
       = exit_node (graph.last_state updates s).
Proof.
  destruct (run_stations E custom s w)
    as (s1 & w1 & s2 & w2 & s3 & w3 & s4 & w4 & w5 & _ & _ & _ & _ & _ & Hrun).
  rewrite Hrun. unfold exit_node.
  destruct (graph.streaming_key s4) eqn:Hk; do 2 eexists;
    (split; [reflexivity|]); cbn [map fst snd List.last graph.last_state In];
    rewrite Hk; auto 6.
Qed.



(** ** The blocking reply *)

(** C5 (amended).  For every request that passes validation and does
    not ask for streaming, the agent returns a payload with answer,
    session identifier and errors, and the handler frames it by its
    errors: with no error, status 200 and the payload as it is; with
    errors, status 400 and a body that holds the errors alone. *)
Theorem blocking_reply_framing (E : Env) (request : ChatAIRequest) (w : World) :
  app.blank (user_query request) = false ->
  app.blank (req_user_id request) = false ->
  req_enable_streaming request <> Some true ->
  exists payload w',
    graph.run_chat_agent E (user_query request) (req_user_id request)
      (req_session_id request) false w
    = (Ok (graph.Reply payload), w')
    /\ app.chat_with_ai_agent E request w
       = (match payload_error payload with
          | [] => app.JSONResponse 200 (app.Full payload)
          | _ :: _ => app.JSONResponse 400 (app.ErrorList (payload_error payload))
          end, w').
Proof.
  intros Hquery Huser Hmode.
  set (state := graph.initial_state (user_query request) (req_user_id request)
                  (req_session_id request) false).
  destruct (run_total E false state w) as (updates & w' & Hrun & _).
  assert (Hagent :
    graph.run_chat_agent E (user_query request) (req_user_id request)
      (req_session_id request) false w
    = (Ok (graph.Reply
             (mkPayload (get_or (final_answer (graph.last_state updates state)) "")
                (get_or (session_id (graph.last_state updates state)) "")
                (errors (graph.last_state updates state)))), w')).
  { unfold graph.run_chat_agent, graph.invoke. fold state.
    unfold bind. rewrite Hrun. reflexivity. }
  do 2 eexists. split; [exact Hagent|].
  unfold app.chat_with_ai_agent, app.chat_with_ai_agent_work.
  rewrite Hquery, Huser.
  assert (Hblocking :
    forall A (streaming blocking : A),
      match req_enable_streaming request with
      | Some true => streaming
      | _ => blocking
      end = blocking).
  { intros A x y. destruct (req_enable_streaming request) as [[|]|]; congruence. }
  rewrite Hblocking, Hagent. cbn [payload_error].
  destruct (errors (graph.last_state updates state)); reflexivity.
Qed.

Lemma blocking_reply_framing_witness :
  app.blank (user_query (scenario.request false)) = false
  /\ app.blank (req_user_id (scenario.request false)) = false
  /\ req_enable_streaming (scenario.request false) <> Some true
  /\ exists payload w',
       graph.run_chat_agent scenario.model_chats (user_query (scenario.request false))
         (req_user_id (scenario.request false)) (req_session_id (scenario.request false))
         false (scenario.start false)
       = (Ok (graph.Reply payload), w')
       /\ app.chat_with_ai_agent scenario.model_chats (scenario.request false)
            (scenario.start false)
          = (match payload_error payload with
             | [] => app.JSONResponse 200 (app.Full payload)
             | _ :: _ => app.JSONResponse 400 (app.ErrorList (payload_error payload))
             end, w').
Proof.
  assert (Hmode : req_enable_streaming (scenario.request false) <> Some true)
    by discriminate.
  split; [reflexivity|]. split; [reflexivity|]. split; [exact Hmode|].
  exact (blocking_reply_framing scenario.model_chats (scenario.request false)
           (scenario.start false) eq_refl eq_refl Hmode).
Defined.

(** C5, as stated, fails: a valid blocking request whose
    classification failed is answered with status 400, not 200, and
    the body holds the errors alone, without answer or session
    identifier; the handler raised nothing (the status is not 500). *)
Lemma failed_blocking_turn_is_framed_as_client_error :
  app.blank (user_query (scenario.request false)) = false
  /\ app.blank (req_user_id (scenario.request false)) = false
  /\ fst (app.chat_with_ai_agent scenario.model_down (scenario.request false)
            (scenario.start false))
     = app.JSONResponse 400
         (app.ErrorList ["Node classify_and_route: Connection error."])
  /\ forall payload,
       fst (app.chat_with_ai_agent scenario.model_down (scenario.request false)
              (scenario.start false))
       <> app.JSONResponse 200 (app.Full payload).
Proof.
  split; [reflexivity|]. split; [reflexivity|]. split; [reflexivity|].
  intro payload. discriminate.
Qed.

(* ================================================================= *)
(** * Further properties: the anatomy of a turn *)

(** ** Nodes, once more, with their worlds *)

Section Anatomy.
Variable E : Env.

Lemma classify_and_route_result (s : ChatAgentState) (w : World) :
  has_error s = false ->
  graph.classify_and_route E s w =
  match user_input s, chat_history s with
  | Some question, Some history =>
      (Ok match chat_model_invoke E (routing_messages E question history) with
          | Ok resp =>
              if truthy_opt (models.error (utils.parse_routing_decision E (strip resp)))
              then append_error s
                     ("Node classify_and_route: "
                      ++ fmt_opt (models.error
                                    (utils.parse_routing_decision E (strip resp))))
              else set_rejection_message
                     (set_route s
                        (Some (decision (utils.parse_routing_decision E (strip resp)))))
                     (store (models.rejection_message
                               (utils.parse_routing_decision E (strip resp))))
          | Raise e => append_error s ("Node classify_and_route: " ++ str_exc e)
          end,
       mkWorld (draws w) (trace w ++ [ModelInvoked (routing_messages E question history)])
         (custom_stream w))
  | None, _ => (Ok (append_error s "Node classify_and_route: 'user_input'"), w)
  | Some _, None => (Ok (append_error s "Node classify_and_route: 'chat_history'"), w)
  end.
Proof.
  intro He. unfold graph.classify_and_route, graph.classify_and_route_work.
  rewrite He. unfold try_except, bind, getitem, ret, raise.
  destruct (user_input s) as [question|]; [|reflexivity].
  destruct (chat_history s) as [history|]; [|reflexivity].
  rewrite decide_route_result.
  destruct (chat_model_invoke E (routing_messages E question history)) as [resp|e];
    [|reflexivity].
  destruct (truthy_opt (models.error (utils.parse_routing_decision E (strip resp))));
    reflexivity.
Qed.

(** One inner [try] of [save_chat_history], as an equation. *)
Lemma persist_step_result (due : bool) user_id data role session_id tool w :
  try_except
    (if due then
       saved <- db_helper.persist_chat_history E user_id data role session_id tool ;;
       ret (Some saved)
     else ret session_id)
    (fun e => ret session_id) w
  = if due then
      if truthy_opt session_id then
        (Ok session_id,
         mkWorld (S (draws w))
           (trace w ++ [MessageSaved
              (history.mkChatHistory (uuid_str (uuid4_int E (draws w))) user_id
                 (graph.or_empty session_id) role
                 (match role with history.assistant => tool | history.user => None end)
                 data)])
           (custom_stream w))
      else
        (Ok (Some (uuid_str (uuid4_int E (S (draws w))))),
         mkWorld (S (S (draws w)))
           (trace w ++ [SessionAllocated (uuid_str (uuid4_int E (S (draws w))));
                        MessageSaved
              (history.mkChatHistory (uuid_str (uuid4_int E (draws w))) user_id
                 (uuid_str (uuid4_int E (S (draws w)))) role
                 (match role with history.assistant => tool | history.user => None end)
                 data)])
           (custom_stream w))
    else (Ok session_id, w).
Proof.
  destruct due; [|reflexivity].
  destruct (truthy_opt session_id) eqn:Hsid.
  - destruct session_id as [given|]; [|discriminate]. cbn [truthy_opt] in Hsid.
    unfold try_except, bind, ret. now rewrite (persist_given E _ _ _ _ _ _ Hsid).
  - unfold try_except, bind, ret. now rewrite (persist_fresh E _ _ _ _ _ _ Hsid).
Qed.

(** The session under which the first due message is built. *)
Lemma save_chat_history_result (s : ChatAgentState) (w : World) :
  has_error s = false -> truthy (graph.or_empty (user_id s)) = true ->
  graph.save_chat_history E s w =
  let '(first, w1) :=
    graph.save_user_message E (graph.or_empty (user_id s)) (graph.or_empty (user_input s))
      (get (session_id s)) w in
  match first with
  | Ok sid1 =>
      let '(second, w2) :=
        graph.save_assistant_message E (graph.or_empty (user_id s))
          (get_or (final_answer s) "") (route s) sid1 w1 in
      match second with
      | Ok sid2 => (Ok (set_session_id s (store sid2)), w2)
      | Raise e =>
          (Ok (append_error s ("Node save_chat_history: " ++ str_exc e)), w2)
      end
  | Raise e => (Ok (append_error s ("Node save_chat_history: " ++ str_exc e)), w1)
  end.
Proof.
  intros He Hu. unfold graph.save_chat_history, graph.save_chat_history_work.
  rewrite He, Hu. cbn [negb]. unfold try_except at 1. unfold bind at 1.
  destruct (graph.save_user_message E _ _ _ w) as [[sid1|e] w1]; [|reflexivity].
  unfold bind at 1.
  destruct (graph.save_assistant_message E _ _ _ sid1 w1) as [[sid2|e] w2]; reflexivity.
Qed.

(** The effects of [save_chat_history] are effects of persistence,
    added to the trace; the stream mode is kept. *)
Lemma save_chat_history_trace (s s' : ChatAgentState) (w w' : World) :
  graph.save_chat_history E s w = (Ok s', w') ->
  exists delta,
    trace w' = (trace w ++ delta)%list
    /\ custom_stream w' = custom_stream w
    /\ forallb persistence_effect delta = true.
Proof.
  destruct (has_error s) eqn:He.
  { rewrite (save_chat_history_skips E s w He). intro H; inversion H; subst.
    exists []. now rewrite app_nil_r. }
  destruct (truthy (graph.or_empty (user_id s))) eqn:Hu.
  2:{ rewrite (save_chat_history_without_user E s w He Hu). intro H; inversion H; subst.
      exists []. now rewrite app_nil_r. }
  rewrite (save_chat_history_result s w He Hu).
  unfold graph.save_user_message, graph.save_assistant_message.
  rewrite !persist_step_result, Hu. cbn [andb].
  destruct (truthy (graph.or_empty (user_input s)));
    destruct (truthy_opt (get (session_id s))) eqn:Hs;
    cbv beta iota; rewrite ?persist_step_result; cbn [andb truthy_opt];
    rewrite ?uuid_str_truthy, ?Hs;
    destruct (truthy_opt (get_or (final_answer s) "")) eqn:Ha;
    cbn [draws trace custom_stream]; intro H; inversion H; subst;
    cbn [trace custom_stream];
    try (eexists; split; [rewrite <- ?app_assoc; reflexivity|]; split; reflexivity);
    try (exists []; rewrite app_nil_r; repeat split).
Qed.

(** *** What each node adds to the trace *)

Lemma classify_and_route_world (s s' : ChatAgentState) (w w' : World) :
  graph.classify_and_route E s w = (Ok s', w') ->
  trace w' = (trace w ++ classify_effects E s)%list
  /\ draws w' = draws w /\ custom_stream w' = custom_stream w
  /\ forall w2, exists w2', graph.classify_and_route E s w2 = (Ok s', w2').
Proof.
  unfold classify_effects. destruct (has_error s) eqn:He.
  - unfold graph.classify_and_route. rewrite He. unfold ret.
    intro H; inversion H; subst. rewrite app_nil_r. repeat split. eauto.
  - rewrite (classify_and_route_result s w He).
    destruct (user_input s) as [question|] eqn:Hq;
      [destruct (chat_history s) as [history|] eqn:Hh|];
      intro H; inversion H; subst; cbn [trace draws custom_stream];
      rewrite ?app_nil_r; repeat split; intro w2;
      rewrite (classify_and_route_result s w2 He), Hq, ?Hh; eauto.
Qed.

Lemma answer_node_world (n : name.t) (s s' : ChatAgentState) (w w' : World) :
  In n answer_nodes ->
  graph.nodes (graph.build_graph E) n s w = (Ok s', w') ->
  trace w' = (trace w ++ answer_effects E n s (custom_stream w))%list
  /\ draws w' = draws w /\ custom_stream w' = custom_stream w
  /\ forall w2, exists w2', graph.nodes (graph.build_graph E) n s w2 = (Ok s', w2').
Proof.
  intro Hn. unfold answer_nodes in Hn. unfold answer_effects.
  destruct Hn as [<- | [<- | [<- | [<- | []]]]]; cbn [graph.nodes graph.build_graph];
    destruct (has_error s) eqn:He.
  - unfold graph.aging_biomarker_node, ret. rewrite He.
    intro H; inversion H; subst. rewrite app_nil_r. repeat split. eauto.
  - rewrite (aging_biomarker_node_result s w He).
    intro H; inversion H; subst. cbn [trace draws custom_stream]. repeat split.
    intro w2. rewrite (aging_biomarker_node_result s w2 He). eauto.
  - unfold graph.longevity_clinical_trial_node, ret. rewrite He.
    intro H; inversion H; subst. rewrite app_nil_r. repeat split. eauto.
  - rewrite (longevity_clinical_trial_node_result s w He).
    intro H; inversion H; subst. cbn [trace draws custom_stream]. repeat split.
    intro w2. rewrite (longevity_clinical_trial_node_result s w2 He). eauto.
  - unfold graph.general_knowledge_node, ret. rewrite He.
    intro H; inversion H; subst. rewrite app_nil_r. repeat split. eauto.
  - rewrite (general_knowledge_node_result E s w He).
    destruct (user_input s) as [question|] eqn:Hq;
      intro H; inversion H; subst; cbn [trace draws custom_stream];
      rewrite ?app_nil_r; repeat split; intro w2;
      rewrite (general_knowledge_node_result E s w2 He), Hq; eauto.
  - rewrite rejection_handler_result, He.
    intro H; inversion H; subst. rewrite app_nil_r. repeat split.
    intro w2. rewrite rejection_handler_result, He. eauto.
  - rewrite rejection_handler_result, He.
    intro H; inversion H; subst. rewrite app_nil_r. repeat split.
    intro w2. rewrite rejection_handler_result, He. eauto.
Qed.

(** *** The state that each node returns *)

Lemma classify_and_route_state (s : ChatAgentState) (w : World) :
  exists w', graph.classify_and_route E s w = (Ok (classified E s), w').
Proof.
  unfold classified. destruct (has_error s) eqn:He.
  - unfold graph.classify_and_route. rewrite He. unfold ret. eauto.
  - rewrite (classify_and_route_result s w He).
    destruct (user_input s); [destruct (chat_history s)|]; eauto.
Qed.

Lemma answer_node_state (n : name.t) (s : ChatAgentState) (w : World) :
  In n answer_nodes ->
  exists w', graph.nodes (graph.build_graph E) n s w = (Ok (answered E n s), w').
Proof.
  intro Hn. unfold answer_nodes in Hn. unfold answered.
  destruct Hn as [<- | [<- | [<- | [<- | []]]]]; cbn [graph.nodes graph.build_graph];
    destruct (has_error s) eqn:He.
  - unfold graph.aging_biomarker_node, ret. rewrite He. eauto.
  - rewrite (aging_biomarker_node_result s w He). eauto.
  - unfold graph.longevity_clinical_trial_node, ret. rewrite He. eauto.
  - rewrite (longevity_clinical_trial_node_result s w He). eauto.
  - unfold graph.general_knowledge_node, ret. rewrite He. eauto.
  - rewrite (general_knowledge_node_result E s w He).
    destruct (user_input s); eauto.
  - rewrite rejection_handler_result, He. eauto.
  - rewrite rejection_handler_result, He. eauto.
Qed.

Lemma save_chat_history_state (s : ChatAgentState) (w : World) :
  exists drawn,
    graph.save_chat_history E s w
    = (Ok (persisted E s (draws w)),
       mkWorld drawn (trace w ++ save_effects E s (draws w)) (custom_stream w)).
Proof.
  unfold persisted, save_effects. destruct (has_error s) eqn:He.
  { rewrite (save_chat_history_skips E s w He). exists (draws w).
    rewrite app_nil_r. now destruct w. }
  destruct (truthy (graph.or_empty (user_id s))) eqn:Hu.
  2:{ rewrite (save_chat_history_without_user E s w He Hu). exists (draws w).
      rewrite app_nil_r. now destruct w. }
  rewrite (save_chat_history_result s w He Hu).
  unfold graph.save_user_message, graph.save_assistant_message, session_step,
    message_effects.
  rewrite Hu. cbn [andb]. rewrite persist_step_result.
  destruct (truthy (graph.or_empty (user_input s)));
    destruct (truthy_opt (get (session_id s))) eqn:Hs;
    rewrite persist_step_result; cbn [fst snd draws trace custom_stream truthy_opt];
    rewrite ?uuid_str_truthy, ?Hs;
    destruct (truthy_opt (get_or (final_answer s) ""));
    cbn [fst snd draws trace custom_stream graph.or_empty app];
    rewrite <- ?app_assoc, ?app_nil_r; cbn [app];
    try (eexists; reflexivity);
    exists (draws w); now destruct w.
Qed.

(** ** The anatomy of a run

    Every run is: the history step, whose result is [history_loaded];
    the classification, whose result does not depend on the world;
    the answer node that the route selects, likewise; persistence;
    and the streamed end.  The effects of the run are the effects of
    these steps, in this order. *)
Lemma run_anatomy (custom : bool) (s0 : ChatAgentState) (w0 : World) :
  exists s2 s3 s4 w3 w4 w',
    (forall w, exists w1,
        graph.classify_and_route E (history_loaded s0) w = (Ok s2, w1))
    /\ (forall w, exists w1,
          graph.nodes (graph.build_graph E) (graph.route_map (graph.route_key s2)) s2 w
          = (Ok s3, w1))
    /\ graph.save_chat_history E s3 w3 = (Ok s4, w4)
    /\ draws w3 = draws w0
    /\ forallb persistence_effect (new_effects w3 w4) = true
    /\ graph.run (graph.build_graph E) custom s0 w0
       = (Ok ([(name.get_chat_history, history_loaded s0);
               (name.classify_and_route, s2);
               (graph.route_map (graph.route_key s2), s3);
               (name.save_chat_history, s4)]
              ++ (if graph.streaming_key s4
                  then [(name.stream_final_response, s4)] else []))%list,
          w')
    /\ custom_stream w' = custom
    /\ new_effects w0 w'
       = (classify_effects E (history_loaded s0)
          ++ answer_effects E (graph.route_map (graph.route_key s2)) s2 custom
          ++ new_effects w3 w4
          ++ done_effects custom s4)%list.
Proof.
  destruct (run_stations E custom s0 w0)
    as (s1 & w1 & s2 & w2 & s3 & w3 & s4 & w4 & w5 & H1 & H2 & H3 & H4 & H5 & Hrun).
  rewrite get_chat_history_result in H1. inversion H1; subst s1 w1. clear H1.
  fold (history_loaded s0) in *.
  set (n := graph.route_map (graph.route_key s2)) in *.
  assert (Hn : In n answer_nodes).
  { unfold n, answer_nodes. destruct (graph.route_key s2); cbn; auto. }
  destruct (classify_and_route_world _ _ _ _ H2) as (T2 & D2 & C2 & A2).
  destruct (answer_node_world n _ _ _ _ Hn H3) as (T3 & D3 & C3 & A3).
  destruct (save_chat_history_trace _ _ _ _ H4) as (d4 & T4 & C4 & P4).
  cbn [trace draws custom_stream] in T2, D2, C2.
  assert (N4 : new_effects w3 w4 = d4) by (now apply new_effects_app).
  rewrite stream_final_response_result in H5.
  exists s2, s3, s4, w3, w4, (if graph.streaming_key s4 then w5 else w4).
  split; [exact A2|]. split; [exact A3|]. split; [exact H4|].
  split; [congruence|]. split; [now rewrite N4|].
  split; [rewrite Hrun; destruct (graph.streaming_key s4); reflexivity|].
  assert (Cs : custom_stream w4 = custom) by congruence.
  assert (H5w : w5 = if custom
                     then mkWorld (draws w4)
                            (trace w4 ++ [Emitted (done_chunk s4)])%list custom
                     else w4).
  { rewrite <- Cs. unfold done_chunk. congruence. }
  unfold done_effects. rewrite N4.
  destruct (graph.streaming_key s4).
  - subst w5. destruct custom; cbn [custom_stream trace]; (split; [try assumption; reflexivity|]);
      apply new_effects_app; cbn [trace]; rewrite T4, T3, T2, C2;
      rewrite <- ?app_assoc, ?app_nil_r; reflexivity.
  - split; [exact Cs|]. apply new_effects_app. rewrite T4, T3, T2, C2.
    rewrite <- ?app_assoc, ?app_nil_r. reflexivity.
Qed.

End Anatomy.

(** * Further properties: a whole turn of [run_chat_agent] *)

Section Turn.
Variable E : Env.

(** ** Reading a kind of effect off a trace *)

Lemma emitted_app (a b : list Effect) : emitted (a ++ b) = (emitted a ++ emitted b)%list.
Proof.
  induction a as [|e a IH]; [reflexivity|].
  destruct e; cbn [emitted app]; rewrite ?IH; reflexivity.
Qed.

Lemma model_calls_app (a b : list Effect) :
  model_calls (a ++ b) = (model_calls a ++ model_calls b)%list.
Proof.
  induction a as [|e a IH]; [reflexivity|].
  destruct e; cbn [model_calls app]; rewrite ?IH; reflexivity.
Qed.

Lemma tools_started_app (a b : list Effect) :
  tools_started (a ++ b) = (tools_started a ++ tools_started b)%list.
Proof.
  induction a as [|e a IH]; [reflexivity|].
  destruct e; cbn [tools_started app]; rewrite ?IH; reflexivity.
Qed.

Lemma persistence_only (effects : list Effect) :
  forallb persistence_effect effects = true ->
  emitted effects = [] /\ model_calls effects = [] /\ tools_started effects = [].
Proof.
  induction effects as [|e rest IH]; [now auto|].
  cbn [forallb]. intro H. apply andb_prop in H. destruct H as [He Hr].
  destruct e; try discriminate He; cbn [emitted model_calls tools_started]; auto.
Qed.

Lemma classify_effects_kinds (s : ChatAgentState) :
  emitted (classify_effects E s) = [] /\ tools_started (classify_effects E s) = []
  /\ saved (classify_effects E s) = [] /\ allocated (classify_effects E s) = [].
Proof.
  unfold classify_effects. destruct (has_error s); [now auto|].
  destruct (user_input s); [destruct (chat_history s)|]; now auto.
Qed.

Lemma answer_effects_kinds (n : name.t) (s : ChatAgentState) (custom : bool) :
  saved (answer_effects E n s custom) = [] /\ allocated (answer_effects E n s custom) = []
  /\ (custom = false -> emitted (answer_effects E n s custom) = []).
Proof.
  unfold answer_effects. destruct (has_error s); [now auto|].
  destruct n; try (now auto); try (destruct custom; now auto).
  destruct (user_input s); now auto.
Qed.

Lemma done_effects_kinds (custom : bool) (s : ChatAgentState) :
  model_calls (done_effects custom s) = [] /\ tools_started (done_effects custom s) = []
  /\ saved (done_effects custom s) = [] /\ allocated (done_effects custom s) = [].
Proof.
  unfold done_effects. destruct (graph.streaming_key s), custom; now auto.
Qed.

(** ** No node touches [enable_streaming] *)

Lemma history_loaded_streaming (s : ChatAgentState) :
  enable_streaming (history_loaded s) = enable_streaming s.
Proof.
  unfold history_loaded. destruct (has_error s); [reflexivity|].
  destruct (truthy _); reflexivity.
Qed.

Lemma classify_and_route_streaming (s s' : ChatAgentState) (w w' : World) :
  graph.classify_and_route E s w = (Ok s', w') -> enable_streaming s' = enable_streaming s.
Proof.
  intro H. destruct (classify_and_route_shape E _ _ _ _ H)
    as [(_ & -> & _) | [(_ & msg & ->) | (_ & q & h & r & _ & _ & _ & _ & ->)]];
    reflexivity.
Qed.

Lemma answer_node_streaming (n : name.t) (s s' : ChatAgentState) (w w' : World) :
  In n answer_nodes ->
  graph.nodes (graph.build_graph E) n s w = (Ok s', w') ->
  enable_streaming s' = enable_streaming s.
Proof.
  intros Hn H. destruct (answer_node_shape E n _ _ _ _ Hn H)
    as [(_ & ->) | [(msg & ->) | (text & ->)]]; reflexivity.
Qed.

Lemma save_chat_history_streaming (s s' : ChatAgentState) (w w' : World) :
  graph.save_chat_history E s w = (Ok s', w') -> enable_streaming s' = enable_streaming s.
Proof.
  intro H. destruct (save_chat_history_shape E _ _ _ _ H)
    as [(_ & ->) | [(_ & msg & ->) | (_ & v & ->)]]; reflexivity.
Qed.

(** ** The anatomy of a turn

    [run_chat_agent] builds the initial state and runs the graph; in
    streaming mode it hands over what the writer was given, in
    blocking mode the final answer, session and errors. *)
Lemma turn_anatomy (q u : string) (sid : option string) (streaming : bool) (w0 : World) :
  exists s2 s3 s4 w3 w4 w',
    (forall w, exists w1,
        graph.classify_and_route E
          (history_loaded (graph.initial_state q u sid streaming)) w = (Ok s2, w1))
    /\ (forall w, exists w1,
          graph.nodes (graph.build_graph E) (graph.route_map (graph.route_key s2)) s2 w
          = (Ok s3, w1))
    /\ graph.save_chat_history E s3 w3 = (Ok s4, w4)
    /\ draws w3 = draws w0
    /\ forallb persistence_effect (new_effects w3 w4) = true
    /\ graph.run_chat_agent E q u sid streaming w0
       = (Ok (if streaming
              then graph.EventStream (map graph.Data (emitted (new_effects w0 w')))
              else graph.Reply (graph.final_payload s4)),
          w')
    /\ new_effects w0 w'
       = (classify_effects E (history_loaded (graph.initial_state q u sid streaming))
          ++ answer_effects E (graph.route_map (graph.route_key s2)) s2 streaming
          ++ new_effects w3 w4
          ++ (if streaming then [Emitted (done_chunk s4)] else []))%list.
Proof.
  set (s0 := graph.initial_state q u sid streaming).
  destruct (run_anatomy E streaming s0 w0)
    as (s2 & s3 & s4 & w3 & w4 & w' & HC & HA & HS & HD & HP & Hrun & Hc & Heff).
  exists s2, s3, s4, w3, w4, w'.
  assert (Hk : graph.streaming_key s4 = streaming).
  { destruct (HC w0) as (w1 & H2).
    destruct (HA w0) as (w2 & H3).
    assert (Hn : In (graph.route_map (graph.route_key s2)) answer_nodes).
    { unfold answer_nodes. destruct (graph.route_key s2); cbn; auto. }
    unfold graph.streaming_key.
    rewrite (save_chat_history_streaming _ _ _ _ HS).
    rewrite (answer_node_streaming _ _ _ _ _ Hn H3).
    rewrite (classify_and_route_streaming _ _ _ _ H2).
    rewrite history_loaded_streaming. reflexivity. }
  split; [exact HC|]. split; [exact HA|]. split; [exact HS|].
  split; [exact HD|]. split; [exact HP|].
  rewrite Hk in Hrun. unfold done_effects in Heff. rewrite Hk in Heff.
  split.
  - unfold graph.run_chat_agent. fold s0.
    destruct streaming.
    + unfold bind, graph.stream. rewrite Hrun. reflexivity.
    + unfold bind, graph.invoke, bind. rewrite Hrun. reflexivity.
  - rewrite Heff. destruct streaming; reflexivity.
Qed.

(** The same, with the states named: the final state of a turn is
    [turn_state] of its initial state. *)
Lemma turn_result (q u : string) (sid : option string) (streaming : bool) (w0 : World) :
  exists w3 w4 w',
    graph.save_chat_history E
      (answered E
         (graph.route_map
            (graph.route_key
               (classified E (history_loaded (graph.initial_state q u sid streaming)))))
         (classified E (history_loaded (graph.initial_state q u sid streaming))))
      w3
    = (Ok (turn_state E (graph.initial_state q u sid streaming) (draws w0)), w4)
    /\ draws w3 = draws w0
    /\ forallb persistence_effect (new_effects w3 w4) = true
    /\ graph.run_chat_agent E q u sid streaming w0
       = (Ok (if streaming
              then graph.EventStream (map graph.Data (emitted (new_effects w0 w')))
              else graph.Reply
                     (graph.final_payload
                        (turn_state E (graph.initial_state q u sid streaming) (draws w0)))),
          w')
    /\ new_effects w0 w'
       = (classify_effects E (history_loaded (graph.initial_state q u sid streaming))
          ++ answer_effects E
               (graph.route_map
                  (graph.route_key
                     (classified E
                        (history_loaded (graph.initial_state q u sid streaming)))))
               (classified E (history_loaded (graph.initial_state q u sid streaming)))
               streaming
          ++ new_effects w3 w4
          ++ (if streaming
              then [Emitted (done_chunk
                               (turn_state E (graph.initial_state q u sid streaming)
                                  (draws w0)))]
              else []))%list.
Proof.
  destruct (turn_anatomy q u sid streaming w0)
    as (s2 & s3 & s4 & w3 & w4 & w' & HC & HA & HS & HD & HP & Hrun & Heff).
  set (s1 := history_loaded (graph.initial_state q u sid streaming)) in *.
  assert (E2 : s2 = classified E s1).
  { destruct (HC w0) as (w1 & H2).
    destruct (classify_and_route_state E s1 w0) as (w1' & H2'). congruence. }
  subst s2.
  set (n := graph.route_map (graph.route_key (classified E s1))) in *.
  assert (E3 : s3 = answered E n (classified E s1)).
  { destruct (HA w0) as (w2 & H3).
    assert (Hn : In n answer_nodes).
    { unfold n, answer_nodes. destruct (graph.route_key _); cbn; auto. }
    destruct (answer_node_state E n (classified E s1) w0 Hn) as (w2' & H3'). congruence. }
  subst s3.
  assert (E4 : s4 = turn_state E (graph.initial_state q u sid streaming) (draws w0)).
  { destruct (save_chat_history_state E (answered E n (classified E s1)) w3) as (w4' & H4').
    unfold turn_state. fold s1. fold n. rewrite <- HD. congruence. }
  subst s4.
  exists w3, w4, w'. auto.
Qed.

(** A turn never fails; its result and its effects are those of
    [turn_state] and [turn_effects]. *)
Lemma turn_summary (q u : string) (sid : option string) (streaming : bool) (w0 : World) :
  exists w',
    graph.run_chat_agent E q u sid streaming w0
    = (Ok (if streaming
           then graph.EventStream
                  (map graph.Data
                     (emitted (turn_effects E (graph.initial_state q u sid streaming)
                                 streaming (draws w0))))
           else graph.Reply
                  (graph.final_payload
                     (turn_state E (graph.initial_state q u sid streaming) (draws w0)))),
       w')
    /\ new_effects w0 w'
       = turn_effects E (graph.initial_state q u sid streaming) streaming (draws w0).
Proof.
  destruct (turn_result q u sid streaming w0)
    as (w3 & w4 & w' & HS & HD & _ & Hrun & Heff).
  exists w'.
  match type of HS with graph.save_chat_history E ?s3 w3 = _ =>
    destruct (save_chat_history_state E s3 w3) as (drawn & HS') end.
  rewrite HS' in HS. injection HS as _ Hw4.
  assert (N : new_effects w3 w4
              = save_effects E
                  (answered E
                     (graph.route_map
                        (graph.route_key
                           (classified E
                              (history_loaded (graph.initial_state q u sid streaming)))))
                     (classified E
                        (history_loaded (graph.initial_state q u sid streaming))))
                  (draws w0)).
  { apply new_effects_app. rewrite <- Hw4, HD. reflexivity. }
  rewrite N in Heff.
  assert (Heff' : new_effects w0 w'
                  = turn_effects E (graph.initial_state q u sid streaming) streaming
                      (draws w0)).
  { rewrite Heff. reflexivity. }
  split; [|exact Heff'].
  rewrite Hrun, Heff'. reflexivity.
Qed.

End Turn.

(** * Further properties: what a turn returns and what it does *)

Section TurnProperties.
Variable E : Env.

(** ** [enable_streaming] changes the stream, nothing else *)

Lemma history_loaded_mode (s : ChatAgentState) (v : option bool) :
  history_loaded (set_enable_streaming s v) = set_enable_streaming (history_loaded s) v.
Proof.
  unfold history_loaded.
  change (has_error (set_enable_streaming s v)) with (has_error s).
  change (user_id (set_enable_streaming s v)) with (user_id s).
  destruct (has_error s); [reflexivity|]. destruct (truthy _); reflexivity.
Qed.

Lemma classified_mode (s : ChatAgentState) (v : option bool) :
  classified E (set_enable_streaming s v) = set_enable_streaming (classified E s) v.
Proof.
  unfold classified.
  change (has_error (set_enable_streaming s v)) with (has_error s).
  change (user_input (set_enable_streaming s v)) with (user_input s).
  change (chat_history (set_enable_streaming s v)) with (chat_history s).
  destruct (has_error s); [reflexivity|].
  destruct (user_input s); [|reflexivity].
  destruct (chat_history s); [|reflexivity].
  destruct (chat_model_invoke E _); [|reflexivity].
  cbv zeta. destruct (truthy_opt _); reflexivity.
Qed.

Lemma answered_mode (n : name.t) (s : ChatAgentState) (v : option bool) :
  answered E n (set_enable_streaming s v) = set_enable_streaming (answered E n s) v.
Proof.
  unfold answered.
  change (has_error (set_enable_streaming s v)) with (has_error s).
  change (user_input (set_enable_streaming s v)) with (user_input s).
  change (rejection_message (set_enable_streaming s v)) with (rejection_message s).
  destruct (has_error s); [reflexivity|].
  destruct n; try reflexivity.
  destruct (user_input s); [|reflexivity].
  destruct (chat_model_invoke E _); reflexivity.
Qed.

Lemma persisted_mode (s : ChatAgentState) (v : option bool) (drawn : nat) :
  persisted E (set_enable_streaming s v) drawn
  = set_enable_streaming (persisted E s drawn) v.
Proof.
  unfold persisted.
  change (has_error (set_enable_streaming s v)) with (has_error s).
  change (user_id (set_enable_streaming s v)) with (user_id s).
  change (user_input (set_enable_streaming s v)) with (user_input s).
  change (session_id (set_enable_streaming s v)) with (session_id s).
  change (final_answer (set_enable_streaming s v)) with (final_answer s).
  destruct (has_error s); [reflexivity|].
  cbv zeta. destruct (truthy (graph.or_empty (user_id s))); reflexivity.
Qed.

Lemma turn_state_mode (s : ChatAgentState) (v : option bool) (drawn : nat) :
  turn_state E (set_enable_streaming s v) drawn
  = set_enable_streaming (turn_state E s drawn) v.
Proof.
  unfold turn_state. cbv zeta.
  rewrite history_loaded_mode, classified_mode.
  change (graph.route_key (set_enable_streaming (classified E (history_loaded s)) v))
    with (graph.route_key (classified E (history_loaded s))).
  now rewrite answered_mode, persisted_mode.
Qed.

Lemma classify_effects_mode (s : ChatAgentState) (v : option bool) :
  classify_effects E (set_enable_streaming s v) = classify_effects E s.
Proof. reflexivity. Qed.

Lemma answer_effects_mode (n : name.t) (s : ChatAgentState) (v : option bool)
    (custom : bool) :
  answer_effects E n (set_enable_streaming s v) custom = answer_effects E n s custom.
Proof. reflexivity. Qed.

Lemma save_effects_mode (s : ChatAgentState) (v : option bool) (drawn : nat) :
  save_effects E (set_enable_streaming s v) drawn = save_effects E s drawn.
Proof. reflexivity. Qed.

(** ** The kinds of effect of a turn *)

Lemma save_effects_persistence (s : ChatAgentState) (drawn : nat) :
  forallb persistence_effect (save_effects E s drawn) = true.
Proof.
  unfold save_effects. destruct (has_error s); [reflexivity|]. cbv zeta.
  destruct (truthy (graph.or_empty (user_id s))); [|reflexivity].
  rewrite forallb_app. unfold message_effects.
  repeat match goal with |- context [if ?b then _ else _] => destruct b end; reflexivity.
Qed.

Lemma turn_effects_emitted (s : ChatAgentState) (custom : bool) (drawn : nat) :
  emitted (turn_effects E s custom drawn)
  = (emitted (answer_effects E
                (graph.route_map (graph.route_key (classified E (history_loaded s))))
                (classified E (history_loaded s)) custom)
     ++ (if custom then [done_chunk (turn_state E s drawn)] else []))%list.
Proof.
  unfold turn_effects. cbv zeta. rewrite !emitted_app.
  destruct (classify_effects_kinds E (history_loaded s)) as (-> & _).
  destruct (persistence_only _ (save_effects_persistence
              (answered E
                 (graph.route_map (graph.route_key (classified E (history_loaded s))))
                 (classified E (history_loaded s))) drawn)) as (-> & _).
  cbn [app]. now destruct custom.
Qed.

Lemma turn_effects_saved (s : ChatAgentState) (custom : bool) (drawn : nat) :
  saved (turn_effects E s custom drawn)
  = saved (save_effects E
             (answered E
                (graph.route_map (graph.route_key (classified E (history_loaded s))))
                (classified E (history_loaded s))) drawn)
  /\ allocated (turn_effects E s custom drawn)
     = allocated (save_effects E
                    (answered E
                       (graph.route_map
                          (graph.route_key (classified E (history_loaded s))))
                       (classified E (history_loaded s))) drawn).
Proof.
  unfold turn_effects. cbv zeta. rewrite !saved_app, !allocated_app.
  destruct (classify_effects_kinds E (history_loaded s)) as (_ & _ & -> & ->).
  destruct (answer_effects_kinds E
              (graph.route_map (graph.route_key (classified E (history_loaded s))))
              (classified E (history_loaded s)) custom) as (-> & -> & _).
  cbn [app]. destruct custom; cbn [saved allocated]; now rewrite !app_nil_r.
Qed.

Lemma turn_effects_calls (s : ChatAgentState) (custom : bool) (drawn : nat) :
  model_calls (turn_effects E s custom drawn)
  = (model_calls (classify_effects E (history_loaded s))
     ++ model_calls (answer_effects E
                       (graph.route_map
                          (graph.route_key (classified E (history_loaded s))))
                       (classified E (history_loaded s)) custom))%list
  /\ tools_started (turn_effects E s custom drawn)
     = tools_started (answer_effects E
                        (graph.route_map
                           (graph.route_key (classified E (history_loaded s))))
                        (classified E (history_loaded s)) custom).
Proof.
  unfold turn_effects. cbv zeta. rewrite !model_calls_app, !tools_started_app.
  destruct (classify_effects_kinds E (history_loaded s)) as (_ & -> & _).
  destruct (persistence_only _ (save_effects_persistence
              (answered E
                 (graph.route_map (graph.route_key (classified E (history_loaded s))))
                 (classified E (history_loaded s))) drawn)) as (_ & -> & ->).
  cbn [app]. destruct custom; cbn [model_calls tools_started]; now rewrite !app_nil_r.
Qed.

End TurnProperties.

Section TurnStates.
Variable E : Env.

(** The two ends of a turn: one error and no answer, or an answer
    and no error. *)
Lemma turn_state_cases (q u : string) (sid : option string) (streaming : bool)
    (drawn : nat) :
  let loaded := history_loaded (graph.initial_state q u sid streaming) in
  let routed := classified E loaded in
  let s3 := answered E (graph.route_map (graph.route_key routed)) routed in
  (exists e,
      has_error s3 = true /\ errors s3 = [e]
      /\ final_answer s3 = Missing /\ session_id s3 = store sid)
  \/ (exists r text,
        has_error s3 = false /\ errors s3 = [] /\ truthy u = true
        /\ user_id s3 = Some u /\ user_input s3 = Some q
        /\ session_id s3 = store sid
        /\ route s3 = Some r /\ final_answer s3 = Has text).
Proof.
  cbv zeta. unfold history_loaded.
  change (has_error (graph.initial_state q u sid streaming)) with false.
  change (graph.or_empty (user_id (graph.initial_state q u sid streaming))) with u.
  cbv iota.
  destruct (truthy u) eqn:Hu.
  2:{ left. eexists. repeat split. }
  unfold classified.
  change (has_error (set_chat_history (graph.initial_state q u sid streaming) (Some "")))
    with false.
  cbv iota.
  change (user_input (set_chat_history (graph.initial_state q u sid streaming) (Some "")))
    with (Some q).
  change (chat_history (set_chat_history (graph.initial_state q u sid streaming) (Some "")))
    with (Some "").
  cbv iota beta.
  destruct (chat_model_invoke E (routing_messages E q "")) as [resp|e].
  2:{ left. eexists. repeat split. }
  cbv zeta.
  destruct (truthy_opt (models.error (utils.parse_routing_decision E (strip resp)))).
  { left. eexists. repeat split. }
  set (out := utils.parse_routing_decision E (strip resp)).
  destruct (decision out) eqn:Hd.
  - right. do 2 eexists. repeat split.
  - right. do 2 eexists. repeat split.
  - unfold answered.
    match goal with |- context [has_error ?s] => change (has_error s) with false end.
    cbv iota.
    change (graph.route_map (graph.route_key _)) with name.general_knowledge_node.
    cbv iota.
    match goal with |- context [user_input ?s] => change (user_input s) with (Some q) end.
    cbv iota beta.
    destruct (chat_model_invoke E (general_messages E q)) as [text|e].
    + right. do 2 eexists. repeat split.
    + left. eexists. repeat split.
  - right. do 2 eexists. repeat split.
Qed.
(** What [save_chat_history] does after an answer: the question if
    it is not empty, then the answer if it is not empty, under one
    session. *)
Lemma save_after_answer (s : ChatAgentState) (q u text : string) (sid : option string)
    (r : Route) (drawn : nat) :
  has_error s = false -> errors s = [] -> truthy u = true ->
  user_id s = Some u -> user_input s = Some q -> session_id s = store sid ->
  route s = Some r -> final_answer s = Has text ->
  exists session,
    graph.final_payload (persisted E s drawn) = mkPayload (Some text) session []
    /\ map saved_summary (saved (save_effects E s drawn))
       = ((if truthy q then [(history.user, q, None)] else [])
          ++ (if truthy text then [(history.assistant, text, Some r)] else []))%list
    /\ (forall m, In m (saved (save_effects E s drawn)) ->
          history.user_id m = u /\ Some (history.session_id m) = session)
    /\ (truthy_opt sid = true -> session = sid /\ allocated (save_effects E s drawn) = [])
    /\ (truthy_opt sid = false ->
          (truthy q || truthy text = false ->
             session = sid /\ allocated (save_effects E s drawn) = [])
          /\ (truthy q || truthy text = true ->
                exists fresh, session = Some fresh /\ truthy fresh = true
                              /\ allocated (save_effects E s drawn) = [fresh])).
Proof.
  intros He Hes Hu Hid Hq Hsid Hr Ha.
  assert (Hstore : forall o : option string, get_or (store o) "" = o)
    by (now intros [x|]).
  unfold graph.final_payload, persisted, save_effects.
  rewrite He, Hid. cbn [graph.or_empty]. rewrite Hu. cbv zeta.
  unfold set_session_id, errors in Hes |- *. cbn [final_answer session_id error].
  rewrite Hes, Hq, Hsid, Hr, Ha, Hstore. cbn [andb get_or truthy_opt graph.or_empty].
  replace (get (store sid)) with sid by (now destruct sid).
  unfold session_step, message_effects.
  destruct (truthy q) eqn:Tq; destruct (truthy_opt sid) eqn:Ts;
    cbn [fst snd truthy_opt]; rewrite ?uuid_str_truthy, ?Ts;
    destruct (truthy text) eqn:Tt;
    cbn [fst snd app saved allocated map saved_summary history.role history.message
         history.tool_used graph.or_empty orb];
    (eexists; split; [reflexivity|]);
    (split; [reflexivity|]);
    (split; [cbn [In]; intros m Hm;
             repeat match goal with
                    | H : _ \/ _ |- _ => destruct H
                    | H : False |- _ => destruct H
                    end;
             subst; cbn [history.user_id history.session_id];
             try (destruct sid as [given|]; [|discriminate]); split; reflexivity|]);
    (split; [intro Hx; first [discriminate Hx | split; reflexivity]|]);
    (intro Hx; first
       [ discriminate Hx
       | split;
         [ intro Hy; first [discriminate Hy | split; reflexivity]
         | intro Hy; first
             [ discriminate Hy
             | eexists; split; [reflexivity|];
               split; [apply uuid_str_truthy | reflexivity] ] ] ]).
Qed.

(** The state and the effects of a classification that succeeds. *)
Lemma classified_initial (q u resp : string) (sid : option string) (streaming : bool) :
  truthy u = true ->
  chat_model_invoke E (routing_messages E q "") = Ok resp ->
  truthy_opt (models.error (utils.parse_routing_decision E (strip resp))) = false ->
  classified E (history_loaded (graph.initial_state q u sid streaming))
  = set_rejection_message
      (set_route (set_chat_history (graph.initial_state q u sid streaming) (Some ""))
         (Some (decision (utils.parse_routing_decision E (strip resp)))))
      (store (models.rejection_message (utils.parse_routing_decision E (strip resp))))
  /\ classify_effects E (history_loaded (graph.initial_state q u sid streaming))
     = [ModelInvoked (routing_messages E q "")].
Proof.
  intros Hu Hm Hp. unfold history_loaded.
  change (has_error (graph.initial_state q u sid streaming)) with false.
  change (graph.or_empty (user_id (graph.initial_state q u sid streaming))) with u.
  cbv iota. rewrite Hu. unfold classified, classify_effects.
  change (has_error (set_chat_history (graph.initial_state q u sid streaming) (Some "")))
    with false.
  change (user_input (set_chat_history (graph.initial_state q u sid streaming) (Some "")))
    with (Some q).
  change (chat_history (set_chat_history (graph.initial_state q u sid streaming) (Some "")))
    with (Some "").
  cbv iota beta. rewrite Hm. cbv zeta. rewrite Hp. split; reflexivity.
Qed.

(** The state and the effects of a classification that fails. *)
Lemma classified_initial_failed (q u : string) (sid : option string) (streaming : bool) :
  truthy u = true ->
  classify_effects E (history_loaded (graph.initial_state q u sid streaming))
  = [ModelInvoked (routing_messages E q "")]
  /\ classified E (history_loaded (graph.initial_state q u sid streaming))
     = match chat_model_invoke E (routing_messages E q "") with
       | Ok resp =>
           if truthy_opt (models.error (utils.parse_routing_decision E (strip resp)))
           then append_error
                  (set_chat_history (graph.initial_state q u sid streaming) (Some ""))
                  ("Node classify_and_route: "
                   ++ fmt_opt (models.error
                                 (utils.parse_routing_decision E (strip resp))))
           else set_rejection_message
                  (set_route
                     (set_chat_history (graph.initial_state q u sid streaming) (Some ""))
                     (Some (decision (utils.parse_routing_decision E (strip resp)))))
                  (store (models.rejection_message
                            (utils.parse_routing_decision E (strip resp))))
       | Raise e =>
           append_error
             (set_chat_history (graph.initial_state q u sid streaming) (Some ""))
             ("Node classify_and_route: " ++ str_exc e)
       end.
Proof.
  intros Hu. unfold history_loaded.
  change (has_error (graph.initial_state q u sid streaming)) with false.
  change (graph.or_empty (user_id (graph.initial_state q u sid streaming))) with u.
  cbv iota. rewrite Hu. split; reflexivity.
Qed.

(** A blocking turn, by its two ends. *)
Lemma blocking_turn_cases (q u : string) (sid : option string) (w : World) :
  exists payload w',
    graph.run_chat_agent E q u sid false w = (Ok (graph.Reply payload), w')
    /\ ((exists e,
            payload = mkPayload (Some "") sid [e]
            /\ saved (new_effects w w') = [] /\ allocated (new_effects w w') = [])
        \/ (exists text r session,
              payload = mkPayload (Some text) session []
              /\ truthy u = true
              /\ map saved_summary (saved (new_effects w w'))
                 = ((if truthy q then [(history.user, q, None)] else [])
                    ++ (if truthy text then [(history.assistant, text, Some r)] else []))%list
              /\ (forall m, In m (saved (new_effects w w')) ->
                    history.user_id m = u /\ Some (history.session_id m) = session)
              /\ (truthy_opt sid = true ->
                    session = sid /\ allocated (new_effects w w') = [])
              /\ (truthy_opt sid = false ->
                    (truthy q || truthy text = false ->
                       session = sid /\ allocated (new_effects w w') = [])
                    /\ (truthy q || truthy text = true ->
                          exists fresh, session = Some fresh /\ truthy fresh = true
                                        /\ allocated (new_effects w w') = [fresh])))).
Proof.
  destruct (turn_summary E q u sid false w) as (w' & Hrun & Heff).
  exists (graph.final_payload (turn_state E (graph.initial_state q u sid false) (draws w))), w'.
  split; [exact Hrun|]. rewrite Heff.
  destruct (turn_effects_saved E (graph.initial_state q u sid false) false (draws w))
    as (-> & ->).
  unfold turn_state. cbv zeta.
  destruct (turn_state_cases q u sid false (draws w))
    as [(e & He & Hes & Ha & Hs) | (r & text & He & Hes & Hu & Hid & Hq & Hs & Hr & Ha)].
  - left. exists e. unfold persisted, save_effects. rewrite He.
    unfold graph.final_payload. rewrite Hes, Ha, Hs.
    repeat split. now destruct sid.
  - right.
    destruct (save_after_answer _ q u text sid r (draws w) He Hes Hu Hid Hq Hs Hr Ha)
      as (session & Hp & Hsum & Hall & Hgiven & Hfresh).
    exists text, r, session.
    split; [exact Hp|]. split; [exact Hu|]. split; [exact Hsum|].
    split; [exact Hall|]. split; [exact Hgiven | exact Hfresh].
Qed.

(** A turn whose answer node gave an answer, in either mode. *)
Lemma answered_turn (q u text : string) (sid : option string) (streaming : bool)
    (r : Route) (w : World) :
  let loaded := history_loaded (graph.initial_state q u sid streaming) in
  let routed := classified E loaded in
  let n := graph.route_map (graph.route_key routed) in
  has_error (answered E n routed) = false -> errors (answered E n routed) = [] ->
  truthy u = true ->
  user_id (answered E n routed) = Some u -> user_input (answered E n routed) = Some q ->
  session_id (answered E n routed) = store sid ->
  route (answered E n routed) = Some r -> final_answer (answered E n routed) = Has text ->
  exists session w',
    graph.run_chat_agent E q u sid streaming w
    = (Ok (if streaming
           then graph.EventStream
                  (map graph.Data
                     (emitted (answer_effects E n routed true)
                      ++ [mkChunk "Done"
                            (FinalResponse (mkPayload (Some text) session []))])%list)
           else graph.Reply (mkPayload (Some text) session [])),
       w')
    /\ model_calls (new_effects w w')
       = (model_calls (classify_effects E loaded)
          ++ model_calls (answer_effects E n routed streaming))%list
    /\ tools_started (new_effects w w')
       = tools_started (answer_effects E n routed streaming)
    /\ map saved_summary (saved (new_effects w w'))
       = ((if truthy q then [(history.user, q, None)] else [])
          ++ (if truthy text then [(history.assistant, text, Some r)] else []))%list
    /\ (forall m, In m (saved (new_effects w w')) ->
          history.user_id m = u /\ Some (history.session_id m) = session)
    /\ (truthy_opt sid = true -> session = sid /\ allocated (new_effects w w') = [])
    /\ (truthy_opt sid = false ->
          (truthy q || truthy text = false ->
             session = sid /\ allocated (new_effects w w') = [])
          /\ (truthy q || truthy text = true ->
                exists fresh, session = Some fresh /\ truthy fresh = true
                              /\ allocated (new_effects w w') = [fresh])).
Proof.
  cbv zeta. intros He Hes Hu Hid Hq Hs Hr Ha.
  destruct (turn_summary E q u sid streaming w) as (w' & Hrun & Heff).
  destruct (save_after_answer _ q u text sid r (draws w) He Hes Hu Hid Hq Hs Hr Ha)
    as (session & Hp & Hsum & Hall & Hgiven & Hfresh).
  exists session, w'. rewrite Heff.
  destruct (turn_effects_saved E (graph.initial_state q u sid streaming) streaming (draws w))
    as (-> & ->).
  destruct (turn_effects_calls E (graph.initial_state q u sid streaming) streaming (draws w))
    as (-> & ->).
  split.
  { rewrite Hrun. destruct streaming; [|unfold turn_state; cbv zeta; now rewrite Hp].
    rewrite turn_effects_emitted. unfold done_chunk, turn_state. cbv zeta.
    now rewrite Hp. }
  split; [reflexivity|]. split; [reflexivity|]. split; [exact Hsum|].
  split; [exact Hall|]. split; [exact Hgiven | exact Hfresh].
Qed.

(** A turn whose classification or answer node failed, in either
    mode. *)
Lemma failed_turn (q u e : string) (sid : option string) (streaming : bool) (w : World) :
  let loaded := history_loaded (graph.initial_state q u sid streaming) in
  let routed := classified E loaded in
  let n := graph.route_map (graph.route_key routed) in
  has_error (answered E n routed) = true -> errors (answered E n routed) = [e] ->
  final_answer (answered E n routed) = Missing ->
  session_id (answered E n routed) = store sid ->
  exists w',
    graph.run_chat_agent E q u sid streaming w
    = (Ok (if streaming
           then graph.EventStream
                  (map graph.Data
                     (emitted (answer_effects E n routed true)
                      ++ [mkChunk "Done"
                            (FinalResponse (mkPayload (Some "") sid [e]))])%list)
           else graph.Reply (mkPayload (Some "") sid [e])),
       w')
    /\ model_calls (new_effects w w')
       = (model_calls (classify_effects E loaded)
          ++ model_calls (answer_effects E n routed streaming))%list
    /\ tools_started (new_effects w w')
       = tools_started (answer_effects E n routed streaming)
    /\ saved (new_effects w w') = [] /\ allocated (new_effects w w') = [].
Proof.
  cbv zeta. intros He Hes Ha Hs.
  destruct (turn_summary E q u sid streaming w) as (w' & Hrun & Heff).
  exists w'. rewrite Heff.
  destruct (turn_effects_saved E (graph.initial_state q u sid streaming) streaming (draws w))
    as (-> & ->).
  destruct (turn_effects_calls E (graph.initial_state q u sid streaming) streaming (draws w))
    as (-> & ->).
  assert (Hp : graph.final_payload
                 (turn_state E (graph.initial_state q u sid streaming) (draws w))
               = mkPayload (Some "") sid [e]).
  { unfold turn_state, persisted. cbv zeta. rewrite He.
    unfold graph.final_payload. rewrite Hes, Ha, Hs. now destruct sid. }
  split.
  { rewrite Hrun. destruct streaming; [|now rewrite Hp].
    rewrite turn_effects_emitted. unfold done_chunk. now rewrite Hp. }
  unfold save_effects. rewrite He. repeat split.
Qed.

(** The shape of a streamed turn, beside the blocking turn from the
    same world. *)
Lemma stream_shape (q u : string) (sid : option string) (w : World) :
  exists announce w1 w2,
    graph.run_chat_agent E q u sid true w
    = (Ok (graph.EventStream
             (map graph.Data
                (announce
                 ++ [mkChunk "Done"
                       (FinalResponse
                          (graph.final_payload
                             (turn_state E (graph.initial_state q u sid false)
                                (draws w))))])%list)),
       w1)
    /\ graph.run_chat_agent E q u sid false w
       = (Ok (graph.Reply
                (graph.final_payload
                   (turn_state E (graph.initial_state q u sid false) (draws w)))),
          w2)
    /\ (List.length announce <= 1)%nat.
Proof.
  destruct (turn_summary E q u sid true w) as (w1 & Hrun1 & _).
  destruct (turn_summary E q u sid false w) as (w2 & Hrun2 & _).
  set (s := graph.initial_state q u sid false) in *.
  change (graph.initial_state q u sid true)
    with (set_enable_streaming s (Some true)) in *.
  set (routed := classified E (history_loaded s)).
  set (n := graph.route_map (graph.route_key routed)).
  exists (emitted (answer_effects E n routed true)), w1, w2.
  split.
  { rewrite Hrun1, turn_effects_emitted, turn_state_mode.
    rewrite history_loaded_mode, classified_mode. reflexivity. }
  split; [exact Hrun2|].
  unfold answer_effects. destruct (has_error routed); [cbn; lia|].
  destruct n; cbn; try lia. destruct (user_input routed); cbn; lia.
Qed.

End TurnStates.

(** * Further properties of [run_chat_agent] *)


(** X1.  A turn with an empty user id is answered at once by the error of
    [get_chat_history]: whatever the question and the session, the
    reply holds an empty answer, the session as it was given and the
    one error [Node get_chat_history: user_id missing]; the model is
    not called, no tool is started, nothing is persisted.  In
    streaming mode the stream is the one [Done] chunk with that
    reply. *)
Theorem turn_without_user_id (E : Env) (q : string) (sid : option string) (streaming : bool)
    (w : World) :
  exists w',
    graph.run_chat_agent E q "" sid streaming w
    = (Ok (if streaming
           then graph.EventStream
                  [graph.Data
                     (mkChunk "Done"
                        (FinalResponse
                           (mkPayload (Some "") sid
                              ["Node get_chat_history: user_id missing"])))]
           else graph.Reply
                  (mkPayload (Some "") sid ["Node get_chat_history: user_id missing"])),
       w')
    /\ new_effects w w'
       = (if streaming
          then [Emitted (mkChunk "Done"
                           (FinalResponse
                              (mkPayload (Some "") sid
                                 ["Node get_chat_history: user_id missing"])))]
          else []).
Proof.
  destruct (turn_summary E q "" sid streaming w) as (w' & Hrun & Heff).
  exists w'. rewrite Hrun, Heff.
  destruct streaming, sid; split; reflexivity.
Qed.

(** X2.  Streaming changes how a turn is delivered, not what it
    delivers.  From the same world, the streamed turn ends with a
    [Done] chunk that carries exactly the reply of the blocking
    turn; before it the stream holds at most the announcement of one
    tool; the blocking turn gives the writer nothing; and both turns
    call the model, start the tools and persist the messages alike. *)
Theorem streaming_and_blocking_agree (E : Env) (q u : string) (sid : option string) (w : World) :
  exists announce payload w1 w2,
    graph.run_chat_agent E q u sid true w
    = (Ok (graph.EventStream
             (map graph.Data
                (announce ++ [mkChunk "Done" (FinalResponse payload)])%list)), w1)
    /\ graph.run_chat_agent E q u sid false w = (Ok (graph.Reply payload), w2)
    /\ (announce = []
        \/ announce = [tool_chunk "aging_biomarker_tool"]
        \/ announce = [tool_chunk "longevity_clinical_trial_tool"])
    /\ emitted (new_effects w w2) = []
    /\ model_calls (new_effects w w1) = model_calls (new_effects w w2)
    /\ tools_started (new_effects w w1) = tools_started (new_effects w w2)
    /\ saved (new_effects w w1) = saved (new_effects w w2)
    /\ allocated (new_effects w w1) = allocated (new_effects w w2).
Proof.
  destruct (turn_summary E q u sid true w) as (w1 & Hrun1 & Heff1).
  destruct (turn_summary E q u sid false w) as (w2 & Hrun2 & Heff2).
  set (s := graph.initial_state q u sid false) in *.
  change (graph.initial_state q u sid true)
    with (set_enable_streaming s (Some true)) in *.
  set (routed := classified E (history_loaded s)).
  set (n := graph.route_map (graph.route_key routed)).
  exists (emitted (answer_effects E n routed true)),
    (graph.final_payload (turn_state E s (draws w))), w1, w2.
  split.
  { rewrite Hrun1, turn_effects_emitted, turn_state_mode.
    rewrite history_loaded_mode, classified_mode. reflexivity. }
  split; [exact Hrun2|].
  split.
  { unfold answer_effects. destruct (has_error routed); [now left|].
    destruct n; auto. destruct (user_input routed); auto. }
  rewrite Heff1, Heff2.
  split.
  { rewrite turn_effects_emitted. fold routed. fold n.
    destruct (answer_effects_kinds E n routed false) as (_ & _ & ->); reflexivity. }
  destruct (turn_effects_calls E (set_enable_streaming s (Some true)) true (draws w))
    as (-> & ->).
  destruct (turn_effects_calls E s false (draws w)) as (-> & ->).
  destruct (turn_effects_saved E (set_enable_streaming s (Some true)) true (draws w))
    as (-> & ->).
  destruct (turn_effects_saved E s false (draws w)) as (-> & ->).
  rewrite history_loaded_mode, classified_mode. fold routed.
  change (graph.route_key (set_enable_streaming routed (Some true)))
    with (graph.route_key routed).
  fold n. rewrite answered_mode.
  repeat split.
  - unfold answer_effects.
    change (has_error (set_enable_streaming routed (Some true))) with (has_error routed).
    destruct (has_error routed); [reflexivity|]. destruct n; reflexivity.
  - unfold answer_effects.
    change (has_error (set_enable_streaming routed (Some true))) with (has_error routed).
    destruct (has_error routed); [reflexivity|]. destruct n; reflexivity.
Qed.

(** X3.  A turn ends in one of two ways.  Either it failed: the reply
    holds exactly one error, an empty answer and the session as it
    was given, and nothing was persisted and no session allocated.
    Or it succeeded: the reply holds an answer and no error, and the
    user id was not empty.  Errors never accumulate, and an answer
    never comes with an error. *)
Theorem turn_ends_with_answer_or_one_error (E : Env) (q u : string) (sid : option string)
    (w : World) :
  exists payload w',
    graph.run_chat_agent E q u sid false w = (Ok (graph.Reply payload), w')
    /\ ((exists e,
            payload = mkPayload (Some "") sid [e]
            /\ saved (new_effects w w') = [] /\ allocated (new_effects w w') = [])
        \/ (exists text session,
              payload = mkPayload (Some text) session [] /\ truthy u = true)).
Proof.
  destruct (blocking_turn_cases E q u sid w)
    as (payload & w' & Hrun & [Hfail | (text & r & session & Hp & Hu & _)]).
  - exists payload, w'. split; [exact Hrun|]. left. exact Hfail.
  - exists payload, w'. split; [exact Hrun|]. right. exists text, session. auto.
Qed.

(** X4.  What a turn without error persists is what it was asked and
    what it returns: first the question, as a user message without a
    tool, unless the question is empty; then the answer of the reply,
    as an assistant message tagged with the route, unless the answer
    is empty; every message under the user id of the turn and the
    session of the reply. *)
Theorem successful_turn_is_persisted (E : Env) (q u : string) (sid : option string) (w : World) :
  exists payload w',
    graph.run_chat_agent E q u sid false w = (Ok (graph.Reply payload), w')
    /\ (payload_error payload = [] ->
        exists text r,
          answer payload = Some text
          /\ map saved_summary (saved (new_effects w w'))
             = ((if truthy q then [(history.user, q, None)] else [])
                ++ (if truthy text then [(history.assistant, text, Some r)] else []))%list
          /\ (forall m, In m (saved (new_effects w w')) ->
                history.user_id m = u
                /\ Some (history.session_id m) = payload_session_id payload)).
Proof.
  destruct (blocking_turn_cases E q u sid w)
    as (payload & w' & Hrun
        & [(e & -> & _) | (text & r & session & -> & Hu & Hsum & Hall & _)]);
    eexists; exists w'; (split; [exact Hrun|]);
    cbn [payload_error answer payload_session_id].
  - discriminate.
  - intros _. exists text, r. split; [reflexivity|]. split; [exact Hsum | exact Hall].
Qed.

(** X5.  A session id that the caller gives comes back: when the
    session id of the request is not empty, the reply carries that
    very id, whether the turn failed or not; no session is allocated,
    and every message persisted is in that session. *)
Theorem given_session_is_kept (E : Env) (q u sid : string) (w : World) :
  truthy sid = true ->
  exists reply errs w',
    graph.run_chat_agent E q u (Some sid) false w
    = (Ok (graph.Reply (mkPayload reply (Some sid) errs)), w')
    /\ allocated (new_effects w w') = []
    /\ (forall m, In m (saved (new_effects w w')) -> history.session_id m = sid).
Proof.
  intro Hsid.
  destruct (blocking_turn_cases E q u (Some sid) w)
    as (payload & w' & Hrun
        & [(e & -> & Hsaved & Halloc)
          | (text & r & session & -> & Hu & Hsum & Hall & Hgiven & _)]).
  - exists (Some ""), [e], w'. rewrite Hsaved. split; [exact Hrun|].
    split; [exact Halloc|]. intros m [].
  - destruct (Hgiven Hsid) as (-> & Halloc).
    exists (Some text), [], w'. split; [exact Hrun|]. split; [exact Halloc|].
    intros m Hm. destruct (Hall m Hm) as (_ & Hs). congruence.
Qed.

Lemma given_session_is_kept_witness :
  truthy "session-7" = true
  /\ exists reply errs w',
       graph.run_chat_agent scenario.model_down "What is NAD+?" "user-1"
         (Some "session-7") false (scenario.start false)
       = (Ok (graph.Reply (mkPayload reply (Some "session-7") errs)), w')
       /\ allocated (new_effects (scenario.start false) w') = []
       /\ (forall m, In m (saved (new_effects (scenario.start false) w')) ->
             history.session_id m = "session-7").
Proof.
  split; [reflexivity|].
  apply (given_session_is_kept scenario.model_down "What is NAD+?" "user-1" "session-7"
           (scenario.start false)).
  reflexivity.
Defined.


(** X6.  What a turn asks of the chat model and of the tools.  In every
    turn the chat model is called at most twice and a tool is started
    at most once, and never both a tool and a second call: either
    nothing is called; or the model is called once, to classify, with
    the question and an empty chat history (no earlier message of the
    session reaches the classifier), and then at most one of the two
    tools is started; or the model is called a second time, to answer
    the same question under the system prompt of general knowledge,
    and no tool is started. *)
Theorem turn_adapter_calls (E : Env) (q u : string) (sid : option string)
    (streaming : bool) (w : World) :
  exists result w',
    graph.run_chat_agent E q u sid streaming w = (Ok result, w')
    /\ ((model_calls (new_effects w w') = [] /\ tools_started (new_effects w w') = [])
        \/ (model_calls (new_effects w w') = [routing_messages E q ""]
            /\ (tools_started (new_effects w w') = []
                \/ tools_started (new_effects w w') = ["aging_biomarker_tool"]
                \/ tools_started (new_effects w w') = ["longevity_clinical_trial_tool"]))
        \/ (model_calls (new_effects w w')
            = [routing_messages E q ""; general_messages E q]
            /\ tools_started (new_effects w w') = [])).
Proof.
  destruct (turn_summary E q u sid streaming w) as (w' & Hrun & Heff).
  eexists. exists w'. split; [exact Hrun|]. rewrite Heff.
  destruct (turn_effects_calls E (graph.initial_state q u sid streaming) streaming (draws w))
    as (-> & ->).
  destruct (truthy u) eqn:Hu.
  2:{ destruct u; [|discriminate]. left. split; reflexivity. }
  destruct (classified_initial_failed E q u sid streaming Hu) as (-> & ->).
  destruct (chat_model_invoke E (routing_messages E q "")) as [resp|e].
  2:{ right; left. split; [reflexivity|]. left. reflexivity. }
  destruct (truthy_opt (models.error (utils.parse_routing_decision E (strip resp)))).
  { right; left. split; [reflexivity|]. left. reflexivity. }
  destruct (decision (utils.parse_routing_decision E (strip resp))).
  - right; left. split; [now destruct streaming|]. right; left. now destruct streaming.
  - right; left. split; [now destruct streaming|]. right; right. now destruct streaming.
  - right; right. split; reflexivity.
  - right; left. split; [reflexivity|]. left. reflexivity.
Qed.

(** X7.  A conversation keeps its session.  A first turn without a
    session id that ends without error and had something to persist
    (a question or an answer that is not empty) returns a session id
    that is not empty; a second turn of the same user that is given
    this id, from the world that the first turn left, returns the
    same id and allocates no session, whether it fails or not, and
    every message it persists is in that session. *)
Theorem second_turn_continues_session (E : Env) (q1 q2 u : string) (w : World) :
  exists first w1,
    graph.run_chat_agent E q1 u None false w = (Ok (graph.Reply first), w1)
    /\ (payload_error first = [] ->
        truthy q1 || truthy_opt (answer first) = true ->
        exists session reply errs w2,
          payload_session_id first = Some session
          /\ truthy session = true
          /\ allocated (new_effects w w1) = [session]
          /\ graph.run_chat_agent E q2 u (Some session) false w1
             = (Ok (graph.Reply (mkPayload reply (Some session) errs)), w2)
          /\ allocated (new_effects w1 w2) = []
          /\ (forall m, In m (saved (new_effects w1 w2)) ->
                history.session_id m = session)).
Proof.
  destruct (blocking_turn_cases E q1 u None w)
    as (first & w1 & Hrun1
        & [(e & -> & _) | (text & r & session & -> & Hu & _ & _ & _ & Hfresh)]);
    eexists; exists w1; (split; [exact Hrun1|]);
    cbn [payload_error answer payload_session_id truthy_opt].
  - discriminate.
  - intros _ Hdue. destruct (Hfresh eq_refl) as (_ & Hnew).
    destruct (Hnew Hdue) as (fresh & -> & Hf & Halloc1).
    destruct (blocking_turn_cases E q2 u (Some fresh) w1)
      as (second & w2 & Hrun2
          & [(e & -> & Hsaved & Halloc)
            | (text2 & r2 & session2 & -> & _ & _ & Hall & Hgiven & _)]).
    + exists fresh, (Some ""), [e], w2. rewrite Hsaved.
      split; [reflexivity|]. split; [exact Hf|]. split; [exact Halloc1|].
      split; [exact Hrun2|]. split; [exact Halloc|]. intros m [].
    + destruct (Hgiven Hf) as (-> & Halloc).
      exists fresh, (Some text2), [], w2.
      split; [reflexivity|]. split; [exact Hf|]. split; [exact Halloc1|].
      split; [exact Hrun2|]. split; [exact Halloc|].
      intros m Hm. destruct (Hall m Hm) as (_ & Hs). congruence.
Qed.

(** X22.  The compiled graph is one line.  From every state, in
    either stream mode, a run ends normally after four nodes, or five
    when the state asks for streaming, far from the recursion limit:
    [get_chat_history], [classify_and_route], the one answer node that
    the route of the classified state selects (general knowledge when
    there is none), [save_chat_history], and then
    [stream_final_response] exactly when [enable_streaming] is set in
    the state the run started from.  The state that each node reports
    is the one its function gives for the state reported before it. *)
Theorem run_follows_one_path (E : Env) (custom : bool) (s : ChatAgentState) (w : World) :
  exists w',
    graph.run (graph.build_graph E) custom s w
    = (Ok ([(name.get_chat_history, history_loaded s);
            (name.classify_and_route, classified E (history_loaded s));
            (graph.route_map (graph.route_key (classified E (history_loaded s))),
             answered E
               (graph.route_map (graph.route_key (classified E (history_loaded s))))
               (classified E (history_loaded s)));
            (name.save_chat_history, turn_state E s (draws w))]
           ++ (if graph.streaming_key s
               then [(name.stream_final_response, turn_state E s (draws w))]
               else []))%list,
       w')
    /\ (List.length ([(name.get_chat_history, history_loaded s);
                      (name.classify_and_route, classified E (history_loaded s));
                      (graph.route_map
                         (graph.route_key (classified E (history_loaded s))),
                       answered E
                         (graph.route_map
                            (graph.route_key (classified E (history_loaded s))))
                         (classified E (history_loaded s)));
                      (name.save_chat_history, turn_state E s (draws w))]
                     ++ (if graph.streaming_key s
                         then [(name.stream_final_response, turn_state E s (draws w))]
                         else []))%list
        < graph.recursion_limit)%nat.
Proof.
  destruct (run_anatomy E custom s w)
    as (s2 & s3 & s4 & w3 & w4 & w' & HC & HA & HS & HD & _ & Hrun & _).
  assert (E2 : s2 = classified E (history_loaded s)).
  { destruct (HC w) as (w1 & H2).
    destruct (classify_and_route_state E (history_loaded s) w) as (w1' & H2').
    congruence. }
  subst s2.
  set (routed := classified E (history_loaded s)) in *.
  set (n := graph.route_map (graph.route_key routed)) in *.
  assert (Hn : In n answer_nodes).
  { unfold n, answer_nodes. destruct (graph.route_key routed); cbn; auto. }
  assert (E3 : s3 = answered E n routed).
  { destruct (HA w) as (w2 & H3).
    destruct (answer_node_state E n routed w Hn) as (w2' & H3'). congruence. }
  subst s3.
  assert (E4 : s4 = turn_state E s (draws w)).
  { destruct (save_chat_history_state E (answered E n routed) w3) as (drawn & H4').
    unfold turn_state. cbv zeta. fold routed. fold n. rewrite <- HD. congruence. }
  subst s4.
  assert (Hk : graph.streaming_key (turn_state E s (draws w)) = graph.streaming_key s).
  { destruct (HC w) as (w1 & H2). destruct (HA w) as (w2 & H3).
    unfold graph.streaming_key.
    rewrite (save_chat_history_streaming E _ _ _ _ HS).
    rewrite (answer_node_streaming E _ _ _ _ _ Hn H3).
    rewrite (classify_and_route_streaming E _ _ _ _ H2).
    now rewrite history_loaded_streaming. }
  rewrite Hk in Hrun. exists w'. split; [exact Hrun|].
  unfold graph.recursion_limit. destruct (graph.streaming_key s); cbn; lia.
Qed.

(** * Further properties: the turns of each route *)

(** X8.  A turn that the classifier sends to a tool.  When the user id
    is not empty and the classifier's reply parses, without error, to
    one of the two tool routes, the turn answers with the tool's
    detailed response and no error, under a session that is not
    empty; the chat model is called once, for the classification, the
    tool of the route is started once, and the question (unless it is
    empty) and the answer, tagged with the route, are persisted.  In
    streaming mode the stream is the announcement of the tool and the
    [Done] chunk. *)
Theorem tool_turn (E : Env) (q u resp : string) (sid : option string) (streaming : bool)
    (r : Route) (w : World) :
  truthy u = true ->
  chat_model_invoke E (routing_messages E q "") = Ok resp ->
  truthy_opt (models.error (utils.parse_routing_decision E (strip resp))) = false ->
  decision (utils.parse_routing_decision E (strip resp)) = r ->
  r = aging_biomarker_tool \/ r = longevity_clinical_trial_tool ->
  exists session w',
    graph.run_chat_agent E q u sid streaming w
    = (Ok (if streaming
           then graph.EventStream
                  [graph.Data (tool_chunk (route_str r));
                   graph.Data
                     (mkChunk "Done"
                        (FinalResponse
                           (mkPayload (Some ("Detailed response from " ++ route_str r))
                              (Some session) [])))]
           else graph.Reply
                  (mkPayload (Some ("Detailed response from " ++ route_str r))
                     (Some session) [])),
       w')
    /\ truthy session = true
    /\ (truthy_opt sid = true -> sid = Some session)
    /\ model_calls (new_effects w w') = [routing_messages E q ""]
    /\ tools_started (new_effects w w') = [route_str r]
    /\ map saved_summary (saved (new_effects w w'))
       = ((if truthy q then [(history.user, q, None)] else [])
          ++ [(history.assistant, ("Detailed response from " ++ route_str r)%string,
               Some r)])%list.
Proof.
  intros Hu Hm Hp Hr Htool.
  destruct (classified_initial E q u resp sid streaming Hu Hm Hp) as (Hc & Hce).
  rewrite Hr in Hc.
  assert (Hturn := answered_turn E q u ("Detailed response from " ++ route_str r)
                     sid streaming r w).
  cbv zeta in Hturn. rewrite Hc, Hce in Hturn.
  destruct Htool as [-> | ->];
    (destruct Hturn as (session & w' & Hrun & Hcalls & Htools & Hsum & Hall & Hgiven & Hfresh);
     [reflexivity | reflexivity | exact Hu | reflexivity | reflexivity | reflexivity
     | reflexivity | reflexivity |]);
    (assert (Hsession : exists given, session = Some given /\ truthy given = true
                                      /\ (truthy_opt sid = true -> sid = Some given));
     [ destruct (truthy_opt sid) eqn:Hs;
       [ destruct (Hgiven eq_refl) as (-> & _);
         destruct sid as [given|]; [|discriminate]; exists given; auto
       | destruct (Hfresh eq_refl) as (_ & Hnew);
         destruct Hnew as (fresh & -> & Hf & _);
         [ now rewrite orb_true_r | exists fresh; split; [reflexivity|];
                                     split; [exact Hf | discriminate] ] ]
     | ]);
    destruct Hsession as (given & -> & Hg & Hsid);
    exists given, w';
    (split; [rewrite Hrun; destruct streaming; reflexivity|]);
    (split; [exact Hg|]); (split; [exact Hsid|]);
    (split; [rewrite Hcalls; now destruct streaming|]);
    (split; [rewrite Htools; now destruct streaming|]);
    exact Hsum.
Qed.

Lemma tool_turn_witness :
  truthy "u1" = true
  /\ exists session w',
       graph.run_chat_agent (dialogue.routes_to aging_biomarker_tool (Ok "unused"))
         dialogue.question "u1" None true dialogue.world
       = (Ok (graph.EventStream
                [graph.Data (tool_chunk "aging_biomarker_tool");
                 graph.Data
                   (mkChunk "Done"
                      (FinalResponse
                         (mkPayload
                            (Some "Detailed response from aging_biomarker_tool")
                            (Some session) [])))]),
          w')
       /\ truthy session = true.
Proof.
  split; [reflexivity|].
  destruct (tool_turn (dialogue.routes_to aging_biomarker_tool (Ok "unused"))
              dialogue.question "u1" (dialogue.reply_route aging_biomarker_tool)
              None true aging_biomarker_tool dialogue.world)
    as (session & w' & Hrun & Hs & _);
    [reflexivity | reflexivity | reflexivity | reflexivity | now left |].
  exists session, w'. split; [exact Hrun | exact Hs].
Defined.

(** X9.  A turn that the classifier sends to general knowledge.  When
    the user id is not empty, the classifier's reply parses without
    error to [general_knowledge] and the chat model answers the
    question, the turn answers with the model's text, stripped, and
    no error; the chat model is called twice, for the classification
    and then for the answer, with the system prompt of general
    knowledge and the question alone; no tool is started; the
    question and the answer, each unless empty, are persisted; in
    streaming mode the stream is the [Done] chunk alone. *)
Theorem general_knowledge_turn (E : Env) (q u resp text : string) (sid : option string)
    (streaming : bool) (w : World) :
  truthy u = true ->
  chat_model_invoke E (routing_messages E q "") = Ok resp ->
  truthy_opt (models.error (utils.parse_routing_decision E (strip resp))) = false ->
  decision (utils.parse_routing_decision E (strip resp)) = general_knowledge ->
  chat_model_invoke E (general_messages E q) = Ok text ->
  exists session w',
    graph.run_chat_agent E q u sid streaming w
    = (Ok (if streaming
           then graph.EventStream
                  [graph.Data
                     (mkChunk "Done"
                        (FinalResponse (mkPayload (Some (strip text)) session [])))]
           else graph.Reply (mkPayload (Some (strip text)) session [])),
       w')
    /\ model_calls (new_effects w w') = [routing_messages E q ""; general_messages E q]
    /\ tools_started (new_effects w w') = []
    /\ map saved_summary (saved (new_effects w w'))
       = ((if truthy q then [(history.user, q, None)] else [])
          ++ (if truthy (strip text)
              then [(history.assistant, strip text, Some general_knowledge)]
              else []))%list.
Proof.
  intros Hu Hm Hp Hr Ha.
  destruct (classified_initial E q u resp sid streaming Hu Hm Hp) as (Hc & Hce).
  rewrite Hr in Hc.
  assert (Hturn := answered_turn E q u (strip text) sid streaming general_knowledge w).
  cbv zeta in Hturn. rewrite Hc, Hce in Hturn.
  match type of Hturn with
  | has_error (answered E ?n ?s) = false -> _ =>
      assert (Hans : answered E n s = set_final_answer s (Has (strip text)))
        by (unfold answered; cbn; rewrite Ha; reflexivity);
      assert (Heff : forall custom,
                 answer_effects E n s custom = [ModelInvoked (general_messages E q)])
        by (intro custom; reflexivity)
  end.
  rewrite Hans, !Heff in Hturn.
  destruct Hturn as (session & w' & Hrun & Hcalls & Htools & Hsum & _);
    try reflexivity; [exact Hu|].
  exists session, w'.
  split; [rewrite Hrun; destruct streaming; reflexivity|].
  split; [exact Hcalls|]. split; [exact Htools | exact Hsum].
Qed.

Lemma general_knowledge_turn_witness :
  truthy "u1" = true
  /\ exists session w',
       graph.run_chat_agent
         (dialogue.routes_to general_knowledge (Ok "  Telomeres shorten with age. "))
         dialogue.question "u1" None false dialogue.world
       = (Ok (graph.Reply (mkPayload (Some "Telomeres shorten with age.") session [])),
          w')
       /\ tools_started (new_effects dialogue.world w') = [].
Proof.
  split; [reflexivity|].
  destruct (general_knowledge_turn
              (dialogue.routes_to general_knowledge (Ok "  Telomeres shorten with age. "))
              dialogue.question "u1" (dialogue.reply_route general_knowledge)
              "  Telomeres shorten with age. " None false dialogue.world)
    as (session & w' & Hrun & _ & Htools & _);
    [reflexivity | reflexivity | reflexivity | reflexivity | reflexivity |].
  exists session, w'. split; [exact Hrun | exact Htools].
Defined.

(** X10.  A turn that the classifier rejects.  When the user id is not
    empty and the classifier's reply parses without error to
    [rejection_handler], the turn answers with the classifier's
    rejection message, or with the fixed sentence when that message
    is absent or empty, and no error; the chat model is called once,
    no tool is started, and the answer is persisted as an assistant
    message tagged [rejection_handler]. *)
Theorem rejected_turn (E : Env) (q u resp : string) (sid : option string)
    (streaming : bool) (w : World) :
  truthy u = true ->
  chat_model_invoke E (routing_messages E q "") = Ok resp ->
  truthy_opt (models.error (utils.parse_routing_decision E (strip resp))) = false ->
  decision (utils.parse_routing_decision E (strip resp)) = models.rejection_handler ->
  exists text session w',
    text = (if truthy_opt (models.rejection_message
                             (utils.parse_routing_decision E (strip resp)))
            then graph.or_empty (models.rejection_message
                                   (utils.parse_routing_decision E (strip resp)))
            else graph.rejection_fallback)
    /\ graph.run_chat_agent E q u sid streaming w
       = (Ok (if streaming
              then graph.EventStream
                     [graph.Data
                        (mkChunk "Done"
                           (FinalResponse (mkPayload (Some text) session [])))]
              else graph.Reply (mkPayload (Some text) session [])),
          w')
    /\ model_calls (new_effects w w') = [routing_messages E q ""]
    /\ tools_started (new_effects w w') = []
    /\ map saved_summary (saved (new_effects w w'))
       = ((if truthy q then [(history.user, q, None)] else [])
          ++ (if truthy text
              then [(history.assistant, text, Some models.rejection_handler)]
              else []))%list.
Proof.
  intros Hu Hm Hp Hr.
  destruct (classified_initial E q u resp sid streaming Hu Hm Hp) as (Hc & Hce).
  rewrite Hr in Hc.
  set (message := models.rejection_message (utils.parse_routing_decision E (strip resp)))
    in *.
  set (text := if truthy_opt message then graph.or_empty message
               else graph.rejection_fallback).
  assert (Hturn := answered_turn E q u text sid streaming models.rejection_handler w).
  cbv zeta in Hturn. rewrite Hc, Hce in Hturn.
  match type of Hturn with
  | has_error (answered E ?n ?s) = false -> _ =>
      assert (Hans : answered E n s = set_final_answer s (Has text))
        by (unfold answered, text; cbn; now destruct message);
      assert (Heff : forall custom, answer_effects E n s custom = [])
        by (intro custom; reflexivity)
  end.
  rewrite Hans, !Heff in Hturn.
  destruct Hturn as (session & w' & Hrun & Hcalls & Htools & Hsum & _);
    try reflexivity; [exact Hu|].
  exists text, session, w'. split; [reflexivity|].
  split; [rewrite Hrun; destruct streaming; reflexivity|].
  split; [exact Hcalls|]. split; [exact Htools | exact Hsum].
Qed.

Lemma rejected_turn_witness :
  truthy "u1" = true
  /\ exists session w',
       graph.run_chat_agent (dialogue.routes_to models.rejection_handler (Ok "unused"))
         dialogue.question "u1" None false dialogue.world
       = (Ok (graph.Reply (mkPayload (Some graph.rejection_fallback) session [])), w')
       /\ model_calls (new_effects dialogue.world w')
          = [routing_messages (dialogue.routes_to models.rejection_handler (Ok "unused"))
               dialogue.question ""].
Proof.
  split; [reflexivity|].
  destruct (rejected_turn (dialogue.routes_to models.rejection_handler (Ok "unused"))
              dialogue.question "u1" (dialogue.reply_route models.rejection_handler)
              None false dialogue.world)
    as (text & session & w' & Htext & Hrun & Hcalls & _);
    [reflexivity | reflexivity | reflexivity | reflexivity |].
  exists session, w'. split; [|exact Hcalls].
  rewrite Hrun, Htext. reflexivity.
Defined.

(** X11.  A turn during which the chat model cannot classify.  When the
    user id is not empty and the call of the chat model for the
    classification raises, the turn ends with the one error
    [Node classify_and_route: <the exception's text>], an empty
    answer and the session as it was given; the chat model was called
    once and is not called again for an answer, although the turn
    passes through the general-knowledge node; no tool is started and
    nothing is persisted. *)
Theorem model_outage_turn (E : Env) (q u : string) (e : PyExc) (sid : option string)
    (streaming : bool) (w : World) :
  truthy u = true ->
  chat_model_invoke E (routing_messages E q "") = Raise e ->
  exists w',
    graph.run_chat_agent E q u sid streaming w
    = (Ok (if streaming
           then graph.EventStream
                  [graph.Data
                     (mkChunk "Done"
                        (FinalResponse
                           (mkPayload (Some "") sid
                              ["Node classify_and_route: " ++ str_exc e])))]
           else graph.Reply
                  (mkPayload (Some "") sid ["Node classify_and_route: " ++ str_exc e])),
       w')
    /\ model_calls (new_effects w w') = [routing_messages E q ""]
    /\ tools_started (new_effects w w') = []
    /\ saved (new_effects w w') = [] /\ allocated (new_effects w w') = [].
Proof.
  intros Hu Hm.
  destruct (classified_initial_failed E q u sid streaming Hu) as (Hce & Hc).
  rewrite Hm in Hc.
  assert (Hturn := failed_turn E q u ("Node classify_and_route: " ++ str_exc e)
                     sid streaming w).
  cbv zeta in Hturn. rewrite Hc, Hce in Hturn.
  destruct Hturn as (w' & Hrun & Hcalls & Htools & Hsaved & Halloc);
    try reflexivity.
  exists w'.
  split; [rewrite Hrun; destruct streaming; reflexivity|].
  split; [exact Hcalls|]. split; [exact Htools|]. split; [exact Hsaved | exact Halloc].
Qed.

Lemma model_outage_turn_witness :
  truthy "u1" = true
  /\ exists w',
       graph.run_chat_agent scenario.model_down dialogue.question "u1" None false
         dialogue.world
       = (Ok (graph.Reply
                (mkPayload (Some "") None
                   ["Node classify_and_route: Connection error."])),
          w')
       /\ saved (new_effects dialogue.world w') = [].
Proof.
  split; [reflexivity|].
  destruct (model_outage_turn scenario.model_down dialogue.question "u1"
              (LibraryError "Connection error.") None false dialogue.world)
    as (w' & Hrun & _ & _ & Hsaved & _); [reflexivity | reflexivity |].
  exists w'. split; [exact Hrun | exact Hsaved].
Defined.

(** X12.  A turn whose classification cannot be read.  When the user id
    is not empty and the parsed reply of the classifier carries an
    error (the parser's own, or an [error] field of the reply), the
    turn ends with the one error [Node classify_and_route: <that
    error>]: the decision that the parser returned, [rejection_handler]
    in the case of a parse failure, is not followed, and the
    rejection handler gives no answer.  Nothing is persisted. *)
Theorem unreadable_classification_turn (E : Env) (q u resp : string)
    (sid : option string) (streaming : bool) (w : World) :
  truthy u = true ->
  chat_model_invoke E (routing_messages E q "") = Ok resp ->
  truthy_opt (models.error (utils.parse_routing_decision E (strip resp))) = true ->
  exists w',
    graph.run_chat_agent E q u sid streaming w
    = (Ok (if streaming
           then graph.EventStream
                  [graph.Data
                     (mkChunk "Done"
                        (FinalResponse
                           (mkPayload (Some "") sid
                              ["Node classify_and_route: "
                               ++ fmt_opt (models.error
                                             (utils.parse_routing_decision E
                                                (strip resp)))])))]
           else graph.Reply
                  (mkPayload (Some "") sid
                     ["Node classify_and_route: "
                      ++ fmt_opt (models.error
                                    (utils.parse_routing_decision E (strip resp)))])),
       w')
    /\ model_calls (new_effects w w') = [routing_messages E q ""]
    /\ tools_started (new_effects w w') = []
    /\ saved (new_effects w w') = [] /\ allocated (new_effects w w') = [].
Proof.
  intros Hu Hm Hp.
  destruct (classified_initial_failed E q u sid streaming Hu) as (Hce & Hc).
  rewrite Hm, Hp in Hc.
  assert (Hturn := failed_turn E q u
                     ("Node classify_and_route: "
                      ++ fmt_opt (models.error
                                    (utils.parse_routing_decision E (strip resp))))
                     sid streaming w).
  cbv zeta in Hturn. rewrite Hc, Hce in Hturn.
  destruct Hturn as (w' & Hrun & Hcalls & Htools & Hsaved & Halloc);
    try reflexivity.
  exists w'.
  split; [rewrite Hrun; destruct streaming; reflexivity|].
  split; [exact Hcalls|]. split; [exact Htools|]. split; [exact Hsaved | exact Halloc].
Qed.

Lemma unreadable_classification_turn_witness :
  truthy "u1" = true
  /\ exists w',
       graph.run_chat_agent dialogue.classifier_rambles dialogue.question "u1" None
         false dialogue.world
       = (Ok (graph.Reply
                (mkPayload (Some "") None
                   ["Node classify_and_route: parse_routing_decision Error: "
                    ++ "Expecting value: line 1 column 1 (char 0)"])),
          w')
       /\ tools_started (new_effects dialogue.world w') = [].
Proof.
  split; [reflexivity|].
  destruct (unreadable_classification_turn dialogue.classifier_rambles
              dialogue.question "u1" "I think this is about biomarkers." None false
              dialogue.world)
    as (w' & Hrun & _ & Htools & _); [reflexivity | reflexivity | reflexivity |].
  exists w'. split; [exact Hrun | exact Htools].
Defined.

(** X13.  A turn whose answer cannot be generated.  When the turn is
    routed to general knowledge and the call of the chat model for
    the answer raises, the turn ends with the one error
    [Node general_knowledge_node: <the exception's text>] and an empty
    answer; the chat model was called twice; nothing is persisted,
    not even the question. *)
Theorem answer_outage_turn (E : Env) (q u resp : string) (e : PyExc)
    (sid : option string) (streaming : bool) (w : World) :
  truthy u = true ->
  chat_model_invoke E (routing_messages E q "") = Ok resp ->
  truthy_opt (models.error (utils.parse_routing_decision E (strip resp))) = false ->
  decision (utils.parse_routing_decision E (strip resp)) = general_knowledge ->
  chat_model_invoke E (general_messages E q) = Raise e ->
  exists w',
    graph.run_chat_agent E q u sid streaming w
    = (Ok (if streaming
           then graph.EventStream
                  [graph.Data
                     (mkChunk "Done"
                        (FinalResponse
                           (mkPayload (Some "") sid
                              ["Node general_knowledge_node: " ++ str_exc e])))]
           else graph.Reply
                  (mkPayload (Some "") sid
                     ["Node general_knowledge_node: " ++ str_exc e])),
       w')
    /\ model_calls (new_effects w w') = [routing_messages E q ""; general_messages E q]
    /\ tools_started (new_effects w w') = []
    /\ saved (new_effects w w') = [] /\ allocated (new_effects w w') = [].
Proof.
  intros Hu Hm Hp Hr Ha.
  destruct (classified_initial E q u resp sid streaming Hu Hm Hp) as (Hc & Hce).
  rewrite Hr in Hc.
  assert (Hturn := failed_turn E q u ("Node general_knowledge_node: " ++ str_exc e)
                     sid streaming w).
  cbv zeta in Hturn. rewrite Hc, Hce in Hturn.
  match type of Hturn with
  | has_error (answered E ?n ?s) = true -> _ =>
      assert (Hans : answered E n s
                     = append_error s ("Node general_knowledge_node: " ++ str_exc e))
        by (unfold answered; cbn; rewrite Ha; reflexivity);
      assert (Heff : forall custom,
                 answer_effects E n s custom = [ModelInvoked (general_messages E q)])
        by (intro custom; reflexivity)
  end.
  rewrite Hans, !Heff in Hturn.
  destruct Hturn as (w' & Hrun & Hcalls & Htools & Hsaved & Halloc);
    try reflexivity.
  exists w'.
  split; [rewrite Hrun; destruct streaming; reflexivity|].
  split; [exact Hcalls|]. split; [exact Htools|]. split; [exact Hsaved | exact Halloc].
Qed.

Lemma answer_outage_turn_witness :
  truthy "u1" = true
  /\ exists w',
       graph.run_chat_agent
         (dialogue.routes_to general_knowledge (Raise (LibraryError "Rate limit.")))
         dialogue.question "u1" (Some "s1") false dialogue.world
       = (Ok (graph.Reply
                (mkPayload (Some "") (Some "s1")
                   ["Node general_knowledge_node: Rate limit."])),
          w')
       /\ saved (new_effects dialogue.world w') = [].
Proof.
  split; [reflexivity|].
  destruct (answer_outage_turn
              (dialogue.routes_to general_knowledge (Raise (LibraryError "Rate limit.")))
              dialogue.question "u1" (dialogue.reply_route general_knowledge)
              (LibraryError "Rate limit.") (Some "s1") false dialogue.world)
    as (w' & Hrun & _ & _ & Hsaved & _);
    [reflexivity | reflexivity | reflexivity | reflexivity | reflexivity |].
  exists w'. split; [exact Hrun | exact Hsaved].
Defined.

(** * Further properties of the request handler *)

(** X14.  A request with a blank question or a blank user id is refused
    before the agent runs, and the refusal is reported as a server
    error: the handler raises its [HTTPException] with status 400
    inside its own [try], whose [except Exception] turns it into a
    response with status 500 and the text of the exception.  The
    question is checked first.  Nothing else happens: the world is
    left as it was. *)
Theorem blank_request_is_reported_as_500 (E : Env) (request : ChatAIRequest) (w : World) :
  app.blank (user_query request) = true \/ app.blank (req_user_id request) = true ->
  app.chat_with_ai_agent E request w
  = (app.JSONResponse 500
       (app.ErrorText
          (if app.blank (user_query request)
           then app.HTTPException 400 "USER_QUERY_NOT_PROVIDED"
                  "Please provide a valid user query."
           else app.HTTPException 400 "USER_ID_NOT_PROVIDED"
                  "Please provide a valid user id.")),
     w).
Proof.
  intro Hblank. unfold app.chat_with_ai_agent, app.chat_with_ai_agent_work.
  destruct (app.blank (user_query request)); [reflexivity|].
  destruct Hblank as [Hq | Hu]; [discriminate|]. now rewrite Hu.
Qed.

Lemma blank_request_is_reported_as_500_witness :
  (app.blank "   " = true \/ app.blank "u1" = true)
  /\ app.chat_with_ai_agent scenario.model_chats
       (mkChatAIRequest "   " "u1" None (Some true)) dialogue.world
     = (app.JSONResponse 500
          (app.ErrorText
             (app.HTTPException 400 "USER_QUERY_NOT_PROVIDED"
                "Please provide a valid user query.")),
        dialogue.world).
Proof.
  split; [left; reflexivity|].
  apply (blank_request_is_reported_as_500 scenario.model_chats
           (mkChatAIRequest "   " "u1" None (Some true)) dialogue.world).
  left; reflexivity.
Defined.

(** X15.  A request that asks for streaming and passes validation is
    always answered with status 200 and an event stream, whatever
    happens during the turn: the stream ends with the [Done] event,
    which carries the very payload that the same turn returns
    in blocking mode, errors included; before it comes at most the
    announcement of one tool.  An error of the turn thus changes the
    status of a blocking response, never that of a streamed one. *)
Theorem streaming_request_is_always_200 (E : Env) (request : ChatAIRequest) (w : World) :
  app.blank (user_query request) = false ->
  app.blank (req_user_id request) = false ->
  req_enable_streaming request = Some true ->
  exists announce payload w1 w2,
    app.chat_with_ai_agent E request w
    = (app.StreamingResponse 200 "text/event-stream"
         (map graph.Data (announce ++ [mkChunk "Done" (FinalResponse payload)])%list),
       w1)
    /\ (List.length announce <= 1)%nat
    /\ graph.run_chat_agent E (user_query request) (req_user_id request)
         (req_session_id request) false w
       = (Ok (graph.Reply payload), w2).
Proof.
  intros Hquery Huser Hmode.
  destruct (stream_shape E (user_query request) (req_user_id request)
              (req_session_id request) w)
    as (announce & w1 & w2 & Hstream & Hblocking & Hlen).
  exists announce. eexists. exists w1, w2.
  unfold app.chat_with_ai_agent, app.chat_with_ai_agent_work.
  rewrite Hquery, Huser, Hmode, Hstream.
  split; [reflexivity|]. split; [exact Hlen | exact Hblocking].
Qed.

Lemma streaming_request_is_always_200_witness :
  app.blank "What is a telomere?" = false
  /\ exists announce payload w1,
       app.chat_with_ai_agent scenario.model_down
         (mkChatAIRequest "What is a telomere?" "u1" None (Some true)) dialogue.world
       = (app.StreamingResponse 200 "text/event-stream"
            (map graph.Data (announce ++ [mkChunk "Done" (FinalResponse payload)])%list),
          w1).
Proof.
  split; [reflexivity|].
  destruct (streaming_request_is_always_200 scenario.model_down
              (mkChatAIRequest "What is a telomere?" "u1" None (Some true))
              dialogue.world)
    as (announce & payload & w1 & w2 & Hresp & _);
    [reflexivity | reflexivity | reflexivity |].
  exists announce, payload, w1. exact Hresp.
Defined.

(** * Further properties of the helpers *)

(** ** White space *)

Lemma rstrip_cons (c : ascii) (s : string) :
  rstrip (String c s)
  = match rstrip s with
    | EmptyString => if isspace c then EmptyString else String c EmptyString
    | String d r => String c (String d r)
    end.
Proof. reflexivity. Qed.

Lemma rstrip_idempotent (s : string) : rstrip (rstrip s) = rstrip s.
Proof.
  induction s as [|c s IH]; [reflexivity|].
  rewrite rstrip_cons. destruct (rstrip s) as [|d r] eqn:Hr.
  - destruct (isspace c) eqn:Hc; [reflexivity|]. rewrite rstrip_cons.
    cbn [rstrip]. now rewrite Hc.
  - rewrite rstrip_cons, IH. reflexivity.
Qed.

Lemma lstrip_head (s : string) :
  lstrip s = EmptyString \/ exists c s', lstrip s = String c s' /\ isspace c = false.
Proof.
  induction s as [|c s IH]; [now left|].
  cbn [lstrip]. destruct (isspace c) eqn:Hc; [exact IH|]. right. eauto.
Qed.

Lemma lstrip_rstrip_head (c : ascii) (s : string) :
  isspace c = false -> lstrip (rstrip (String c s)) = rstrip (String c s).
Proof.
  intro Hc. rewrite rstrip_cons.
  destruct (rstrip s); rewrite ?Hc; cbn [lstrip]; now rewrite Hc.
Qed.

Lemma strip_idempotent (s : string) : strip (strip s) = strip s.
Proof.
  unfold strip. destruct (lstrip_head s) as [-> | (c & s' & -> & Hc)]; [reflexivity|].
  rewrite (lstrip_rstrip_head c s' Hc). apply rstrip_idempotent.
Qed.

(** X16.  White space around the classifier's reply never changes the
    routing decision: the parser strips its input first, so the reply
    and the stripped reply parse alike, whatever the JSON decoder and
    the validation do. *)
Theorem parse_routing_decision_ignores_outer_space (E : Env) (llm_response : string) :
  utils.parse_routing_decision E (strip llm_response)
  = utils.parse_routing_decision E llm_response.
Proof.
  unfold utils.parse_routing_decision, utils.parse_routing_decision_body.
  cbv zeta. now rewrite strip_idempotent.
Qed.

(** X17.  [decide_route] calls the chat model exactly once, with the
    routing system prompt and the formatted routing prompt; it raises
    exactly when that call raises, with the same exception; otherwise
    it returns what the parser makes of the reply as the model gave
    it.  It draws no identifier and streams nothing. *)
Theorem decide_route_returns_parse_of_reply (E : Env) (user_input chat_history : string)
    (w : World) :
  llm.decide_route E user_input chat_history w
  = (match chat_model_invoke E
             [("system", llm.ROUTING_SYSTEM_PROMPT);
              ("user", ROUTING_PROMPT_format E user_input chat_history)] with
     | Ok resp => Ok (utils.parse_routing_decision E resp)
     | Raise e => Raise e
     end,
     mkWorld (draws w)
       (trace w ++ [ModelInvoked
                      [("system", llm.ROUTING_SYSTEM_PROMPT);
                       ("user", ROUTING_PROMPT_format E user_input chat_history)]])%list
       (custom_stream w)).
Proof.
  rewrite decide_route_result. unfold routing_messages.
  destruct (chat_model_invoke E _) as [resp|e]; [|reflexivity].
  unfold utils.parse_routing_decision, utils.parse_routing_decision_body.
  cbv zeta. now rewrite strip_idempotent.
Qed.

(** X18.  The answer of [answer_general] has no white space at either
    end: stripping it again changes nothing. *)
Theorem answer_general_is_stripped (E : Env) (user_input text : string) (w w' : World) :
  llm.answer_general E user_input w = (Ok text, w') -> strip text = text.
Proof.
  unfold llm.answer_general, llm.invoke. monad_unfold.
  destruct (chat_model_invoke E _) as [resp|e]; [|discriminate].
  intro H. injection H as <- _. apply strip_idempotent.
Qed.

Lemma answer_general_is_stripped_witness :
  llm.answer_general
    (dialogue.routes_to general_knowledge (Ok "  Telomeres shorten with age. "))
    dialogue.question dialogue.world
  = (Ok "Telomeres shorten with age.",
     mkWorld 0
       [ModelInvoked
          (general_messages
             (dialogue.routes_to general_knowledge (Ok "  Telomeres shorten with age. "))
             dialogue.question)]
       false)
  /\ strip "Telomeres shorten with age." = "Telomeres shorten with age.".
Proof.
  split; [reflexivity|].
  apply (answer_general_is_stripped
           (dialogue.routes_to general_knowledge (Ok "  Telomeres shorten with age. "))
           dialogue.question "Telomeres shorten with age." dialogue.world
           (mkWorld 0
              [ModelInvoked
                 (general_messages
                    (dialogue.routes_to general_knowledge
                       (Ok "  Telomeres shorten with age. "))
                    dialogue.question)]
              false)).
  reflexivity.
Defined.

(** ** The repair of trailing commas *)

Lemma sub_trailing_commas_significant (inside : bool) (s : string) :
  significant (utils.sub_trailing_commas inside s) = significant s.
Proof.
  revert inside. induction s as [|c s IH]; intro inside; [reflexivity|].
  cbn [utils.sub_trailing_commas significant].
  destruct (inside && isspace c) eqn:Hin.
  { apply andb_prop in Hin. destruct Hin as (_ & ->).
    rewrite orb_true_r. apply IH. }
  destruct (Ascii.eqb c "," && utils.closes_after_space s) eqn:Hcomma.
  { apply andb_prop in Hcomma. destruct Hcomma as (-> & _). cbn [orb]. apply IH. }
  cbn [significant]. rewrite IH. reflexivity.
Qed.

(** X19.  The repair that precedes the second [json.loads] deletes
    commas and white space and nothing else: the other characters of
    the text are kept, in their order. *)
Theorem sanitize_keeps_significant (response_text : string) :
  significant (utils.sanitize response_text) = significant response_text.
Proof. apply sub_trailing_commas_significant. Qed.

(** X20.  A text without a comma is left as it is by the repair, so that
    the second [json.loads] is given the very text that the first one
    refused. *)
Theorem sanitize_without_comma (response_text : string) :
  has_comma response_text = false -> utils.sanitize response_text = response_text.
Proof.
  unfold utils.sanitize. induction response_text as [|c s IH]; [reflexivity|].
  cbn [has_comma utils.sub_trailing_commas andb]. intro H.
  apply orb_false_elim in H. destruct H as (Hc & Hs).
  rewrite Hc. cbn [andb]. now rewrite (IH Hs).
Qed.

Lemma sanitize_without_comma_witness :
  has_comma "I think this is about biomarkers." = false
  /\ utils.sanitize "I think this is about biomarkers."
     = "I think this is about biomarkers.".
Proof.
  split; [reflexivity|].
  apply (sanitize_without_comma "I think this is about biomarkers."). reflexivity.
Defined.

(** ** Persistence *)

(** X21.  [persist_chat_history] as it stands cannot fail.  It builds
    exactly one message, with the user id, the role and the text it
    was given, and returns the session of that message, which is
    never empty: the session given, when that is not empty, and then
    no session is allocated; otherwise a session allocated by this
    call.  The tool is recorded on an assistant message only: a user
    message never carries one, whatever [tool_name] is. *)
Theorem persist_chat_history_builds_one_message (E : Env) (user_id data : string)
    (role : history.Role) (session_id : option string) (tool_name : option Route)
    (w : World) :
  exists session id w',
    db_helper.persist_chat_history E user_id data role session_id tool_name w
    = (Ok session, w')
    /\ truthy session = true
    /\ saved (new_effects w w')
       = [history.mkChatHistory id user_id session role
            (match role with history.assistant => tool_name | history.user => None end)
            data]
    /\ allocated (new_effects w w')
       = (if truthy_opt session_id then [] else [session])
    /\ (truthy_opt session_id = true -> session_id = Some session)
    /\ custom_stream w' = custom_stream w.
Proof.
  destruct (truthy_opt session_id) eqn:Hs.
  - destruct session_id as [given|]; [|discriminate]. cbn [truthy_opt] in Hs.
    rewrite (persist_given E user_id data role given tool_name w Hs).
    do 3 eexists. split; [reflexivity|]. split; [exact Hs|].
    rewrite (new_effects_app w (mkWorld _ (trace w ++ _) _) _ eq_refl).
    cbn [saved allocated custom_stream]. repeat split.
  - rewrite (persist_fresh E user_id data role session_id tool_name w Hs).
    do 3 eexists. split; [reflexivity|]. split; [apply uuid_str_truthy|].
    rewrite (new_effects_app w (mkWorld _ (trace w ++ _) _) _ eq_refl).
    cbn [saved allocated custom_stream]. repeat split. discriminate.
Qed.

(** ** Worked examples *)

(** A reply in a json fence with a trailing comma: the fence is taken
    off, the first [json.loads] fails, the sanitized text decodes. *)
Example parse_fenced_reply_with_trailing_comma :
  strip scenario.reply_biomarker_fenced = scenario.reply_biomarker_fenced
  /\ utils.unfence scenario.reply_biomarker_fenced
     = Ok scenario.text_biomarker_trailing_comma
  /\ utils.sanitize scenario.text_biomarker_trailing_comma = scenario.text_biomarker
  /\ utils.parse_routing_decision scenario.model_biomarker_fenced
       scenario.reply_biomarker_fenced
     = mkRouterOutput aging_biomarker_tool "biomarkers" None None.
Proof. repeat split. Qed.

(** A reply that is no JSON document: the parser answers with the
    forced rejection and the text of the failure. *)
Example parse_plain_text_reply :
  utils.parse_routing_decision scenario.model_chats "Sure, happy to help!"
  = mkRouterOutput models.rejection_handler "error parsing routing decision" None
      (Some "parse_routing_decision Error: Expecting value: line 1 column 1 (char 0)").
Proof. reflexivity. Qed.

(** A streamed first turn routed to the biomarker tool: the progress
    event, then the end of the stream with the answer and the new
    session. *)
Example streamed_biomarker_turn :
  fst (graph.run_chat_agent scenario.model_biomarker_fenced "Which biomarkers?" "u1"
         None true (scenario.start false))
  = Ok (graph.EventStream
          [graph.Data (mkChunk "Researching information using aging_biomarker_tool"
                         EmptyResponse);
           graph.Data (mkChunk "Done"
                         (FinalResponse
                            (mkPayload
                               (Some "Detailed response from aging_biomarker_tool")
                               (Some "00000000-0000-0000-0000-000000000002") [])))]).
Proof. reflexivity. Qed.

(** The compactor on a user turn, an answer by a tool, and an entry
    without text. *)
Example compact_three_entries :
  utils.create_compact_chat_history
    [history.mkChatHistory "m1" "u1" "s1" history.user None "What is a telomere?";
     history.mkChatHistory "m2" "u1" "s1" history.assistant (Some aging_biomarker_tool)
       "A chromosome cap.";
     history.mkChatHistory "m3" "u1" "s1" history.user None ""]
  = "user: What is a telomere?" ++ newline
    ++ "assistant (tool_used: aging_biomarker_tool): A chromosome cap.".
Proof. reflexivity. Qed.

(** A blocking first turn that the classifier rejects with the
    message X: the answer is X, and both messages are persisted under
    one new session, the answer tagged with the route. *)
Example rejected_turn_answers_with_the_message :
  graph.run_chat_agent scenario.model_rejects "Tell me a joke" "u1" None false
    (scenario.start false)
  = (Ok (graph.Reply
           (mkPayload (Some "X") (Some "00000000-0000-0000-0000-000000000002") [])),
     mkWorld 3
       [ModelInvoked (routing_messages scenario.model_rejects "Tell me a joke" "");
        SessionAllocated "00000000-0000-0000-0000-000000000002";
        MessageSaved
          (history.mkChatHistory "00000000-0000-0000-0000-000000000001" "u1"
             "00000000-0000-0000-0000-000000000002" history.user None "Tell me a joke");
        MessageSaved
          (history.mkChatHistory "00000000-0000-0000-0000-000000000003" "u1"
             "00000000-0000-0000-0000-000000000002" history.assistant
             (Some models.rejection_handler) "X")]
       false).
Proof. reflexivity. Qed.

(** A blocking turn whose classification fails: the unset route sends
    it to the GeneralKnowledge node, which is skipped, as is
    persistence; the reply has no answer and no session. *)
Example failed_turn_visits_general_knowledge :
  fst (graph.run (graph.build_graph scenario.model_down) false (scenario.first_turn false)
         (scenario.start false))
  = Ok [(name.get_chat_history, scenario.loaded false);
        (name.classify_and_route, scenario.failed false);
        (name.general_knowledge_node, scenario.failed false);
        (name.save_chat_history, scenario.failed false)].
Proof. reflexivity. Qed.
